(** * The chat-to-command pipeline of the Drvyn backend (src/app.py, [ai])

    A shallow embedding of the [/ai] request handler: prompt assembly from the
    conversation log, dispatch to the configured text-generation provider,
    repair/parsing of the reply into a command list and normalisation of the
    date strings it carries.

    Conventions.
    - A Python [str] is a [string] holding its UTF-8 encoding.  Every
      character the handler inspects (brackets, the space, [T], the JSON
      syntax) is ASCII, so searching and replacing act on the encoded text
      exactly as they do on code points.
    - [None] is [option]'s [None]; a raised exception is [Raise e].
    - The database is a pair of row lists in insertion order; what a run of the
      handler does to the outside world (commits, provider calls) is collected
      in a trace.  Lines written to the application log are not modelled,
      and the commit of a turn whose content is a string is taken to
      succeed. *)

From Stdlib Require Import String Ascii List ZArith Bool Arith Lia.
From Stdlib Require Import Sorted Permutation.
Import ListNotations.
Open Scope string_scope.

(* ================================================================== *)
(** ** Text primitives of the Python runtime *)
(* ================================================================== *)

Module Text.

(** The double quote, kept out of literals. *)
Definition dquote : ascii := ascii_of_nat 34.
Definition dq : string := String dquote EmptyString.

(** [quoted s] is [s] between double quotes. *)
Definition quoted (s : string) : string := dq ++ s ++ dq.

(** [sq s] is [s] with every apostrophe turned into a double quote; JSON
    texts are written with apostrophes and passed through [sq]. *)
Fixpoint sq (s : string) : string :=
  match s with
  | EmptyString => EmptyString
  | String c r => String (if Ascii.eqb c "'" then dquote else c) (sq r)
  end.

Fixpoint rev_string (acc s : string) : string :=
  match s with
  | EmptyString => acc
  | String c r => rev_string (String c acc) r
  end.

Fixpoint drop (n : nat) (s : string) : string :=
  match n, s with
  | S k, String _ r => drop k r
  | _, _ => s
  end.

(** [sep.join(parts)] *)
Fixpoint join (sep : string) (parts : list string) : string :=
  match parts with
  | [] => ""
  | [p] => p
  | p :: rest => p ++ sep ++ join sep rest
  end.

(** *** [str.replace(old, new)]

    The scan goes left to right; where [old] starts, [new] is emitted and the
    scan resumes after the occurrence ([skip] counts the characters of the
    occurrence still to be passed over), so occurrences never overlap. *)
Fixpoint replace_from (old new : string) (skip : nat) (s : string) : string :=
  match s with
  | EmptyString => EmptyString
  | String c rest =>
      match skip with
      | S k => replace_from old new k rest
      | O =>
          if prefix old s
          then new ++ replace_from old new (pred (String.length old)) rest
          else String c (replace_from old new 0 rest)
      end
  end.

(** With an empty [old], Python puts [new] before every character and at
    the end. *)
Fixpoint interleave (new s : string) : string :=
  match s with
  | EmptyString => new
  | String c rest => new ++ String c (interleave new rest)
  end.

Definition replace (old new s : string) : string :=
  match old with
  | EmptyString => interleave new s
  | _ => replace_from old new 0 s
  end.

(** *** [str.strip()]

    The characters Python strips are those with [str.isspace()], listed here
    by their UTF-8 encodings. *)
Definition bytes (l : list nat) : string :=
  fold_right (fun n s => String (ascii_of_nat n) s) EmptyString l.

Definition whitespace : list string :=
  map bytes
    ([[9]; [10]; [11]; [12]; [13]; [28]; [29]; [30]; [31]; [32];
      [194; 133]; [194; 160]; [225; 154; 128]]
     ++ map (fun k => [226; 128; 128 + k]) (seq 0 11)
     ++ [[226; 128; 168]; [226; 128; 169]; [226; 128; 175];
         [226; 129; 159]; [227; 128; 128]])%list.

(** The first of [seqs] that [s] starts with. *)
Fixpoint leading (seqs : list string) (s : string) : option string :=
  match seqs with
  | [] => None
  | w :: rest => if prefix w s then Some w else leading rest s
  end.

Fixpoint lstrip_with (seqs : list string) (fuel : nat) (s : string) : string :=
  match fuel with
  | O => s
  | S f =>
      match leading seqs s with
      | Some w => lstrip_with seqs f (drop (String.length w) s)
      | None => s
      end
  end.

Definition lstrip (s : string) : string :=
  lstrip_with whitespace (String.length s) s.

Definition rstrip (s : string) : string :=
  let r := rev_string "" s in
  rev_string "" (lstrip_with (map (rev_string "") whitespace) (String.length r) r).

Definition strip (s : string) : string := rstrip (lstrip s).

End Text.

(* ================================================================== *)
(** ** [re.search(r'\[.*\]', text, re.DOTALL)] *)
(* ================================================================== *)

Module Regex.

(** What [.*\]] matches at the start of [s]: with DOTALL the star takes
    every character, then gives characters back until a closing bracket
    follows, so the match ends at the last [']'] of [s]. *)
Fixpoint dotstar_close (s : string) : option string :=
  match s with
  | EmptyString => None
  | String c r =>
      match dotstar_close r with
      | Some m => Some (String c m)
      | None => if Ascii.eqb c "]" then Some "]" else None
      end
  end.

(** The search tries the start positions from the left and returns
    [group(0)] of the first one where the whole pattern matches. *)
Fixpoint search_array (s : string) : option string :=
  match s with
  | EmptyString => None
  | String c r =>
      if Ascii.eqb c "["
      then match dotstar_close r with
           | Some m => Some (String "[" m)
           | None => search_array r
           end
      else search_array r
  end.

End Regex.

(* ================================================================== *)
(** ** JSON values and [json.loads] *)
(* ================================================================== *)

Module Json.
Import Text.

(** What [json.loads] builds.  A [dict] is the list of its items in
    insertion order, each key once.  A float keeps the text of its literal:
    the handler never computes with one. *)
#[warning="-register-all"]
Inductive json : Type :=
| JNull
| JBool (b : bool)
| JInt (n : Z)
| JFloat (literal : string)
| JStr (s : string)
| JList (items : list json)
| JDict (items : list (string * json)).

Definition dict : Type := list (string * json).

(** [d.get(key)] *)
Fixpoint dict_get (key : string) (d : dict) : option json :=
  match d with
  | [] => None
  | (k, v) :: rest => if String.eqb k key then Some v else dict_get key rest
  end.

(** [d[key] = value]: an existing key keeps its place. *)
Fixpoint dict_set (key : string) (value : json) (d : dict) : dict :=
  match d with
  | [] => [(key, value)]
  | (k, v) :: rest =>
      if String.eqb k key then (k, value) :: rest
      else (k, v) :: dict_set key value rest
  end.

(** [dict(pairs)] *)
Definition dict_of_pairs (pairs : list (string * json)) : dict :=
  fold_left (fun d kv => dict_set (fst kv) (snd kv) d) pairs [].

Definition all_zero_digits (s : string) : bool :=
  forallb (fun c => negb (andb (Nat.leb 49 (nat_of_ascii c))
                               (Nat.leb (nat_of_ascii c) 57)))
          (list_ascii_of_string s).

(** The mantissa of a float literal: the text before the exponent. *)
Fixpoint mantissa (s : string) : string :=
  match s with
  | EmptyString => EmptyString
  | String c r =>
      if orb (Ascii.eqb c "e") (Ascii.eqb c "E") then EmptyString
      else String c (mantissa r)
  end.

(** Python truth value ([bool(v)]).  A float is false when it is zero;
    [NaN] and the infinities are true.  A literal is taken to be zero when
    its mantissa is; rounding of a tiny value down to zero is left out. *)
Definition truthy (v : json) : bool :=
  match v with
  | JNull => false
  | JBool b => b
  | JInt n => negb (Z.eqb n 0)
  | JFloat l =>
      if orb (prefix "N" l) (orb (prefix "I" l) (prefix "-I" l)) then true
      else negb (all_zero_digits (mantissa l))
  | JStr s => negb (String.eqb s "")
  | JList l => match l with [] => false | _ => true end
  | JDict d => match d with [] => false | _ => true end
  end.

(** [isinstance(v, str)] *)
Definition is_str (v : json) : bool :=
  match v with JStr _ => true | _ => false end.

Definition is_dict (v : json) : bool :=
  match v with JDict _ => true | _ => false end.

(** *** The decoder *)

Definition is_ws (c : ascii) : bool :=
  orb (Ascii.eqb c " ")
      (orb (Nat.eqb (nat_of_ascii c) 9)
           (orb (Nat.eqb (nat_of_ascii c) 10) (Nat.eqb (nat_of_ascii c) 13))).

Fixpoint skip_ws (s : string) : string :=
  match s with
  | String c r => if is_ws c then skip_ws r else s
  | EmptyString => s
  end.

Definition is_digit (c : ascii) : bool :=
  andb (Nat.leb 48 (nat_of_ascii c)) (Nat.leb (nat_of_ascii c) 57).

(** The longest run of digits [s] starts with, and what follows it. *)
Fixpoint span_digits (s : string) : string * string :=
  match s with
  | String c r =>
      if is_digit c
      then let (ds, rest) := span_digits r in (String c ds, rest)
      else (EmptyString, s)
  | EmptyString => (EmptyString, EmptyString)
  end.

Definition Z_of_digits (ds : string) : Z :=
  fold_left (fun acc c => (10 * acc + Z.of_nat (nat_of_ascii c - 48))%Z)
            (list_ascii_of_string ds) 0%Z.

(** The number pattern of the scanner: an optional minus sign, then a lone
    zero or a digit string that does not start with zero, then optionally a
    dot with digits, then optionally an exponent mark with an optional sign
    and digits.  An integer literal gives an [int], one with a fraction or
    an exponent a [float]. *)
Definition scan_number (s : string) : option (json * string) :=
  let (sign, s1) :=
    match s with String "-" r => ("-", r) | _ => ("", s) end in
  let int_part :=
    match s1 with
    | String "0" r => Some ("0", r)
    | String c _ => if is_digit c then Some (span_digits s1) else None
    | EmptyString => None
    end in
  match int_part with
  | None => None
  | Some (ip, r1) =>
      let (frac, r2) :=
        match r1 with
        | String "." r =>
            let (fd, rest) := span_digits r in
            match fd with
            | EmptyString => ("", r1)
            | _ => ("." ++ fd, rest)
            end
        | _ => ("", r1)
        end in
      let (exp, r3) :=
        match r2 with
        | String e r =>
            if orb (Ascii.eqb e "e") (Ascii.eqb e "E")
            then
              let (esign, r') :=
                match r with
                | String "-" t => ("-", t)
                | String "+" t => ("+", t)
                | _ => ("", r)
                end in
              let (ed, rest) := span_digits r' in
              match ed with
              | EmptyString => ("", r2)
              | _ => (String e (esign ++ ed), rest)
              end
            else ("", r2)
        | EmptyString => ("", r2)
        end in
      match frac, exp with
      | EmptyString, EmptyString =>
          Some (JInt (if String.eqb sign "-" then - Z_of_digits ip
                      else Z_of_digits ip), r3)
      | _, _ => Some (JFloat (sign ++ ip ++ frac ++ exp), r3)
      end
  end.

Definition hex_digit (c : ascii) : option N :=
  let n := N_of_ascii c in
  if andb (N.leb 48 n) (N.leb n 57) then Some (n - 48)%N
  else if andb (N.leb 97 n) (N.leb n 102) then Some (n - 87)%N
  else if andb (N.leb 65 n) (N.leb n 70) then Some (n - 55)%N
  else None.

(** The four hexadecimal digits of a [\uXXXX] escape. *)
Definition hex4 (s : string) : option (N * string) :=
  match s with
  | String a (String b (String c (String d r))) =>
      match hex_digit a, hex_digit b, hex_digit c, hex_digit d with
      | Some x, Some y, Some z, Some w =>
          Some (((x * 16 + y) * 16 + z) * 16 + w, r)%N
      | _, _, _, _ => None
      end
  | _ => None
  end.

(** [chr(n)], UTF-8 encoded. *)
Definition utf8 (n : N) : string :=
  let b (k : N) := ascii_of_N k in
  let cont (k : N) := b (128 + k mod 64)%N in
  if (n <? 128)%N then String (b n) ""
  else if (n <? 2048)%N then String (b (192 + n / 64)%N) (String (cont n) "")
  else if (n <? 65536)%N then
    String (b (224 + n / 4096)%N)
      (String (cont (n / 64)%N) (String (cont n) ""))
  else
    String (b (240 + n / 262144)%N)
      (String (cont (n / 4096)%N)
         (String (cont (n / 64)%N) (String (cont n) ""))).

(** The one-letter escapes. *)
Definition backslash (c : ascii) : option ascii :=
  if Ascii.eqb c dquote then Some dquote
  else if Ascii.eqb c "\" then Some "\"%char
  else if Ascii.eqb c "/" then Some "/"%char
  else if Ascii.eqb c "b" then Some (ascii_of_nat 8)
  else if Ascii.eqb c "f" then Some (ascii_of_nat 12)
  else if Ascii.eqb c "n" then Some (ascii_of_nat 10)
  else if Ascii.eqb c "r" then Some (ascii_of_nat 13)
  else if Ascii.eqb c "t" then Some (ascii_of_nat 9)
  else None.

(** The body of a string literal, from after its opening quote, in strict
    mode: a raw control character is refused; a high surrogate escape
    followed by a low one is one character. *)
Fixpoint scanstring (fuel : nat) (s : string) : option (string * string) :=
  match fuel with
  | O => None
  | S f =>
      match s with
      | EmptyString => None
      | String c r =>
          if Ascii.eqb c dquote then Some ("", r)
          else if Ascii.eqb c "\" then
            match r with
            | EmptyString => None
            | String "u" r1 =>
                match hex4 r1 with
                | None => None
                | Some (u, r2) =>
                    let single :=
                      match scanstring f r2 with
                      | Some (t, rest) => Some (utf8 u ++ t, rest)
                      | None => None
                      end in
                    if andb (N.leb 55296 u) (N.leb u 56319) then
                      match r2 with
                      | String "\" (String "u" r3) =>
                          match hex4 r3 with
                          | None => None
                          | Some (u2, r4) =>
                              if andb (N.leb 56320 u2) (N.leb u2 57343) then
                                match scanstring f r4 with
                                | Some (t, rest) =>
                                    Some (utf8 (65536 + ((u - 55296) * 1024
                                                         + (u2 - 56320)))%N
                                          ++ t, rest)
                                | None => None
                                end
                              else single
                          end
                      | _ => single
                      end
                    else single
                end
            | String e r1 =>
                match backslash e, scanstring f r1 with
                | Some ch, Some (t, rest) => Some (String ch t, rest)
                | _, _ => None
                end
            end
          else if Nat.ltb (nat_of_ascii c) 32 then None
          else
            match scanstring f r with
            | Some (t, rest) => Some (String c t, rest)
            | None => None
            end
      end
  end.

Definition parse_string (s : string) : option (string * string) :=
  scanstring (S (String.length s)) s.

Section Containers.
(** The decoder of one value, as the array and object loops call it. *)
Variable scan : string -> option (json * string).

(** The loop of [JSONArray], entered before a value. *)
Fixpoint array_items (fuel : nat) (s : string) (acc : list json)
  : option (json * string) :=
  match fuel with
  | O => None
  | S f =>
      match scan s with
      | None => None
      | Some (v, r) =>
          match skip_ws r with
          | String "]" r' => Some (JList (rev (v :: acc)), r')
          | String "," r' => array_items f (skip_ws r') (v :: acc)
          | _ => None
          end
      end
  end.

(** The loop of [JSONObject], entered before the opening quote of a key. *)
Fixpoint object_items (fuel : nat) (s : string) (acc : list (string * json))
  : option (json * string) :=
  match fuel with
  | O => None
  | S f =>
      match s with
      | String c r0 =>
          if Ascii.eqb c dquote then
            match parse_string r0 with
            | None => None
            | Some (key, r1) =>
                match skip_ws r1 with
                | String ":" r2 =>
                    match scan (skip_ws r2) with
                    | None => None
                    | Some (v, r3) =>
                        match skip_ws r3 with
                        | String "}" r' =>
                            Some (JDict (dict_of_pairs (rev ((key, v) :: acc))), r')
                        | String "," r' =>
                            object_items f (skip_ws r') ((key, v) :: acc)
                        | _ => None
                        end
                    end
                | _ => None
                end
            end
          else None
      | EmptyString => None
      end
  end.
End Containers.

(** [scan_once]: the value that starts at the head of [s] and the text after
    it.  [depth] bounds the nesting of arrays and objects. *)
Fixpoint scan_once (depth : nat) (s : string) : option (json * string) :=
  match s with
  | EmptyString => None
  | String c r =>
      if Ascii.eqb c dquote then
        match parse_string r with
        | Some (t, rest) => Some (JStr t, rest)
        | None => None
        end
      else if Ascii.eqb c "{" then
        match depth with
        | O => None
        | S d =>
            match skip_ws r with
            | String "}" r' => Some (JDict [], r')
            | r1 => object_items (scan_once d) (String.length r1) r1 []
            end
        end
      else if Ascii.eqb c "[" then
        match depth with
        | O => None
        | S d =>
            match skip_ws r with
            | String "]" r' => Some (JList [], r')
            | r1 => array_items (scan_once d) (String.length r1) r1 []
            end
        end
      else if prefix "null" s then Some (JNull, drop 4 s)
      else if prefix "true" s then Some (JBool true, drop 4 s)
      else if prefix "false" s then Some (JBool false, drop 5 s)
      else
        match scan_number s with
        | Some res => Some res
        | None =>
            if prefix "NaN" s then Some (JFloat "NaN", drop 3 s)
            else if prefix "Infinity" s then Some (JFloat "Infinity", drop 8 s)
            else if prefix "-Infinity" s then Some (JFloat "-Infinity", drop 9 s)
            else None
        end
  end.

(** [json.loads(s)]: one value, white space allowed around it, nothing else;
    [None] stands for a raised [JSONDecodeError].  Nesting is never deeper
    than the text is long, so the depth given here bounds nothing: the
    interpreter's own limits (recursion depth, digits of an integer
    literal), which turn an extreme text into an exception as well, are
    left out. *)
Definition loads (s : string) : option json :=
  match scan_once (String.length s) (skip_ws s) with
  | Some (v, rest) =>
      match skip_ws rest with
      | EmptyString => Some v
      | _ => None
      end
  | None => None
  end.

End Json.

(* ================================================================== *)
(** ** The data model *)
(* ================================================================== *)

Import Text Json.

(** Instants ([datetime] values) are counted in microseconds. *)
Definition datetime : Type := Z.

(** [timedelta(days=n)] *)
Definition timedelta_days (n : Z) : Z := (n * 86400 * 1000000)%Z.

Module User.
Record t : Type := mk
  { id : Z;
    username : string;
    timezone : option string }.
End User.

Module Event.
Record t : Type := mk
  { id : Z;
    title : string;
    start_time : datetime;
    end_time : datetime;
    user_id : Z }.
End Event.

Module Conversation.
Record t : Type := mk
  { id : Z;
    user_id : Z;
    role : string;
    content : string;
    timestamp : datetime }.
End Conversation.

(** One entry of the prompt: [{"role": ..., "content": ...}]. *)
Module Message.
Record t : Type := mk
  { role : string;
    content : string }.
End Message.

Record Database : Type := mkDatabase
  { events : list Event.t;
    conversations : list Conversation.t }.

(** An exception, with what [str(e)] gives for it. *)
Record exn : Type := Exception
  { exn_class : string;
    str : string }.

Inductive outcome (A : Type) : Type :=
| Return (a : A)
| Raise (e : exn).
Arguments Return {A} a.
Arguments Raise {A} e.

(** What a run does to the world outside the handler. *)
Inductive effect : Type :=
| Commit (row : Conversation.t)
| OpenAICall (api_key : string) (messages : list Message.t)
| CohereCall (api_key : string) (prompt : string).

Definition is_provider_call (ev : effect) : bool :=
  match ev with
  | Commit _ => false
  | OpenAICall _ _ | CohereCall _ _ => true
  end.

(** The deployment: process environment, time zone database, formatting of
    instants, and the two text-generation services.  A service is given by
    what its call evaluates to: the text of the first completion
    ([response.choices[0].message.content], [response.generations[0].text])
    or the exception raised on the way. *)
Record Env : Type := mkEnv
  { environ : list (string * string);
    known_timezone : string -> bool;
    strftime_now : string -> datetime -> string;
    strftime_start : datetime -> string;
    strftime_end : datetime -> string;
    openai_chat_completions : string -> list Message.t -> outcome string;
    cohere_generate : string -> string -> outcome string }.

(** [os.getenv(name)] *)
Fixpoint lookup (name : string) (vars : list (string * string)) : option string :=
  match vars with
  | [] => None
  | (k, v) :: rest => if String.eqb k name then Some v else lookup name rest
  end.

Definition getenv (env : Env) (name : string) : option string :=
  lookup name (environ env).

(** [AI_PROVIDER = os.getenv("AI_PROVIDER", "cohere")] *)
Definition AI_PROVIDER (env : Env) : string :=
  match getenv env "AI_PROVIDER" with
  | Some p => p
  | None => "cohere"
  end.

(** A request to [/ai]: the [input] member of a JSON body that is an object
    and holds a string there ([None] when it is missing or null), the
    logged-in user, and the clock as the handler reads it, in the order of
    the reads.  Bodies of any other shape are the matter of [ai_request]. *)
Module Request.
Record t : Type := mk
  { input : option string;
    current_user : User.t;
    utcnow_user_turn : datetime;
    now_in_zone : datetime;
    now : datetime;
    utcnow_assistant_turn : datetime }.
End Request.

Record Response : Type := mkResponse
  { body : json;
    status : nat }.

(** [jsonify({"error": msg})] and [jsonify({"commands": cmds})] *)
Definition jsonify_error (msg : string) : json := JDict [("error", JStr msg)].
Definition jsonify_commands (cmds : list json) : json :=
  JDict [("commands", JList cmds)].

(* ================================================================== *)
(** ** State, trace and exceptions *)
(* ================================================================== *)

Definition M (A : Type) : Type :=
  Database -> outcome A * Database * list effect.

Definition ret {A} (a : A) : M A := fun db => (Return a, db, []).

Definition bind {A B} (m : M A) (k : A -> M B) : M B :=
  fun db =>
    match m db with
    | (Return a, db1, t1) =>
        match k a db1 with
        | (r, db2, t2) => (r, db2, (t1 ++ t2)%list)
        end
    | (Raise e, db1, t1) => (Raise e, db1, t1)
    end.

Definition raise {A} (e : exn) : M A := fun db => (Raise e, db, []).

(** [try: m except Exception as e: handler(e)] *)
Definition try_except {A} (m : M A) (handler : exn -> M A) : M A :=
  fun db =>
    match m db with
    | (Return a, db1, t1) => (Return a, db1, t1)
    | (Raise e, db1, t1) =>
        match handler e db1 with
        | (r, db2, t2) => (r, db2, (t1 ++ t2)%list)
        end
    end.

Definition lift {A} (o : outcome A) : M A := fun db => (o, db, []).

Definition get_db : M Database := fun db => (Return db, db, []).

Declare Scope monad_scope.
Delimit Scope monad_scope with monad.
Notation "x <- m ;; k" := (bind m (fun x => k))
  (at level 61, m at next level, right associativity) : monad_scope.
Notation "m ;; k" := (bind m (fun _ => k))
  (at level 61, right associativity) : monad_scope.
Open Scope monad_scope.

(** [Conversation(user_id=..., role=..., content=...)] as the database
    completes it: the next id and, for the timestamp, the current time. *)
Definition new_conversation (db : Database) (user_id : Z) (role content : string)
    (utcnow : datetime) : Conversation.t :=
  Conversation.mk (Z.of_nat (S (List.length (conversations db))))
                  user_id role content utcnow.

Definition insert_conversation (db : Database) (row : Conversation.t) : Database :=
  mkDatabase (events db) (conversations db ++ [row])%list.

(** [db.session.add(Conversation(...)); db.session.commit()] *)
Definition add_conversation (user_id : Z) (role content : string)
    (utcnow : datetime) : M unit :=
  fun db =>
    let row := new_conversation db user_id role content utcnow in
    (Return tt, insert_conversation db row, [Commit row]).

(** [ORDER BY key DESC]; rows with equal keys stay in table order. *)
Fixpoint insert_desc {A} (key : A -> Z) (x : A) (l : list A) : list A :=
  match l with
  | [] => [x]
  | y :: rest =>
      if (key y <=? key x)%Z then x :: l
      else y :: insert_desc key x rest
  end.

Fixpoint order_by_desc {A} (key : A -> Z) (l : list A) : list A :=
  match l with
  | [] => []
  | x :: rest => insert_desc key x (order_by_desc key rest)
  end.

(* ================================================================== *)
(** ** The handler *)
(* ================================================================== *)

Definition nl : string := String (ascii_of_nat 10) EmptyString.

(** A JSON member line of the prompt: [indent "key": "value"tail]. *)
Definition member (indent key value tail : string) : string :=
  indent ++ quoted key ++ ": " ++ quoted value ++ tail.

Definition get_ai_prompt : string :=
  nl ++ join nl
    [ "You are Drvyn, a helpful productivity assistant. You can schedule tasks and events for users.";
      "";
      "IMPORTANT: You MUST ALWAYS respond with ONLY a valid JSON array. No other text.";
      "";
      "For scheduling requests, use this exact format:";
      "[";
      "    {";
      member "        " "command" "ADD" ",";
      member "        " "start" "2025-07-30T10:00:00" ",";
      member "        " "end" "2025-07-30T11:00:00" ",";
      member "        " "title" "Task Name" "";
      "    },";
      "    {";
      member "        " "command" "MESSAGE" ", ";
      member "        " "text" "I've scheduled your task for tomorrow at 10 AM." "";
      "    }";
      "]";
      "";
      "ALWAYS include a MESSAGE command after scheduling to confirm what you did.";
      "";
      "Scheduling rules:";
      "- " ++ quoted "today" ++ " = current date";
      "- " ++ quoted "tomorrow" ++ " = next day";
      "- " ++ quoted "later today" ++ " = 2-3 hours from now";
      "- " ++ quoted "this afternoon" ++ " = 2-5 PM today";
      "- " ++ quoted "this evening" ++ " = 6-9 PM today";
      "- Default duration: 1 hour";
      "- Default time: 9 AM if not specified";
      "- Use ISO format: YYYY-MM-DDTHH:MM:SS (MUST use T as separator, no spaces)";
      "";
      "For non-scheduling questions, respond with:";
      "[";
      "    {";
      member "        " "command" "MESSAGE" ",";
      member "        " "text" "Your helpful response here" "";
      "    }";
      "]";
      "";
      "Commands: ADD (schedule), REMOVE (delete), MESSAGE (respond)";
      "" ].

(** [{"command": "MESSAGE", "text": text}] *)
Definition MESSAGE (text : string) : json :=
  JDict [("command", JStr "MESSAGE"); ("text", JStr text)].

(** *** Conversation history and prompt assembly *)

(** [Conversation.query.filter_by(user_id=uid)] *)
Definition user_log (db : Database) (uid : Z) : list Conversation.t :=
  filter (fun c => (Conversation.user_id c =? uid)%Z) (conversations db).

(** [....order_by(Conversation.timestamp.desc()).limit(5).all()], then
    [recent_conversations.reverse()]. *)
Definition recent_conversations (db : Database) (uid : Z) : list Conversation.t :=
  rev (firstn 5 (order_by_desc Conversation.timestamp (user_log db uid))).

(** The events of the user that start in the last seven days or later,
    latest first, ten at most. *)
Definition user_events (db : Database) (uid : Z) (now : datetime) : list Event.t :=
  firstn 10
    (order_by_desc Event.start_time
       (filter (fun e => (now - timedelta_days 7 <=? Event.start_time e)%Z)
          (filter (fun e => (Event.user_id e =? uid)%Z) (events db)))).

Definition event_summary (env : Env) (evs : list Event.t) : string :=
  match evs with
  | [] => "None"
  | _ =>
      join " | "
        (map (fun e =>
                Event.title e ++ " from " ++ strftime_start env (Event.start_time e)
                ++ " to " ++ strftime_end env (Event.end_time e))
             evs)
  end.

(** How an optional string prints inside an f-string. *)
Definition format_opt (o : option string) : string :=
  match o with Some s => s | None => "None" end.

(** [current_user.timezone or 'UTC'] *)
Definition timezone_or_utc (u : User.t) : string :=
  match User.timezone u with
  | Some z => if String.eqb z "" then "UTC" else z
  | None => "UTC"
  end.

Definition context_message (env : Env) (req : Request.t) (db : Database) : string :=
  "Current time: "
  ++ strftime_now env (timezone_or_utc (Request.current_user req)) (Request.now_in_zone req)
  ++ ". User's timezone: " ++ format_opt (User.timezone (Request.current_user req))
  ++ ". Current events: "
  ++ event_summary env
       (user_events db (User.id (Request.current_user req)) (Request.now req)).

Definition message_of (conv : Conversation.t) : Message.t :=
  Message.mk (Conversation.role conv) (Conversation.content conv).

(** The prompt: system instruction, context message, then the history. *)
Definition build_messages (env : Env) (req : Request.t) (db : Database)
  : list Message.t :=
  ([Message.mk "system" get_ai_prompt]
     ++ [Message.mk "user" (context_message env req db)]
     ++ map message_of
          (recent_conversations db (User.id (Request.current_user req))))%list.

(** *** The provider step *)

Definition openai_placeholder : string := "your-openai-api-key-here".
Definition cohere_placeholder : string := "your-cohere-api-key-here".

Definition openai_not_configured : string :=
  "I'm sorry, but the OpenAI API key is not configured. Please set up your OpenAI API key in the .env file.".
Definition cohere_not_configured : string :=
  "I'm sorry, but the Cohere API key is not configured. Please set up your Cohere API key in the .env file.".
Definition no_provider_configured : string :=
  "I'm sorry, but no AI provider is configured. Please set up either OpenAI or Cohere API key in the .env file.".
Definition openai_error (e : exn) : string :=
  "I'm sorry, but there was an error with the OpenAI service: " ++ str e.
Definition cohere_error (e : exn) : string :=
  "I'm sorry, but there was an error with the Cohere service: " ++ str e.

(** [not api_key or api_key == placeholder] *)
Definition key_missing (api_key : option string) (placeholder : string) : bool :=
  match api_key with
  | None => true
  | Some k => orb (String.eqb k "") (String.eqb k placeholder)
  end.

(** The network calls: each leaves its mark in the trace and evaluates to
    what the service gives. *)
Definition openai_call (env : Env) (api_key : string) (messages : list Message.t)
  : M string :=
  fun db => (openai_chat_completions env api_key messages, db,
             [OpenAICall api_key messages]).

Definition cohere_call (env : Env) (api_key prompt : string) : M string :=
  fun db => (cohere_generate env api_key prompt, db, [CohereCall api_key prompt]).

(** The history lines of the single prompt sent to Cohere. *)
Fixpoint history_lines (messages : list Message.t) : string :=
  match messages with
  | [] => ""
  | msg :: rest =>
      (if String.eqb (Message.role msg) "user"
       then "User: " ++ Message.content msg ++ nl
       else if String.eqb (Message.role msg) "assistant"
       then "Assistant: " ++ Message.content msg ++ nl
       else "")
      ++ history_lines rest
  end.

Definition full_prompt (messages : list Message.t) (user_input : string) : string :=
  get_ai_prompt ++ nl ++ nl
  ++ history_lines (tl messages)
  ++ "User: " ++ user_input ++ nl
  ++ "Assistant: Respond with ONLY valid JSON array. For scheduling requests, ALWAYS include an ADD command.".

Definition call_provider (env : Env) (messages : list Message.t)
    (user_input : string) : M string :=
  if String.eqb (AI_PROVIDER env) "openai" then
    match getenv env "OPENAI_API_KEY" with
    | Some api_key =>
        if key_missing (Some api_key) openai_placeholder
        then ret openai_not_configured
        else
          try_except
            (content <- openai_call env api_key messages ;;
             ret (strip content))
            (fun e => ret (openai_error e))
    | None => ret openai_not_configured
    end
  else if String.eqb (AI_PROVIDER env) "cohere" then
    match getenv env "COHERE_API_KEY" with
    | Some api_key =>
        if key_missing (Some api_key) cohere_placeholder
        then ret cohere_not_configured
        else
          try_except
            (text <- cohere_call env api_key (full_prompt messages user_input) ;;
             ret (strip text))
            (fun e => ret (cohere_error e))
    | None => ret cohere_not_configured
    end
  else ret no_provider_configured.

(** *** Parsing and repair of the reply *)

(** The [try] block that extracts the command list; whatever the decoder
    raises is caught there and replaced by the fallback. *)
Definition parse_commands (assistant_msg : string) : list json :=
  match Regex.search_array assistant_msg with
  | Some json_str =>
      match loads json_str with
      | Some (JList parsed_commands) => parsed_commands
      | Some _ => [MESSAGE assistant_msg]
      | None => [MESSAGE assistant_msg]
      end
  | None => [MESSAGE assistant_msg]
  end.

(** [s.replace(' ', 'T').replace('TT', 'T')] *)
Definition fix_date (s : string) : string :=
  replace "TT" "T" (replace " " "T" s).

(** [if command.get(key) and isinstance(command[key], str):
       command[key] = ...] *)
Definition fix_field (key : string) (command : dict) : dict :=
  match dict_get key command with
  | Some v =>
      if andb (truthy v) (is_str v)
      then match v with
           | JStr s => dict_set key (JStr (fix_date s)) command
           | _ => command
           end
      else command
  | None => command
  end.

Definition AttributeError (type_name : string) : exn :=
  Exception "AttributeError"
    ("'" ++ type_name ++ "' object has no attribute 'get'").

Definition type_name (v : json) : string :=
  match v with
  | JNull => "NoneType"
  | JBool _ => "bool"
  | JInt _ => "int"
  | JFloat _ => "float"
  | JStr _ => "str"
  | JList _ => "list"
  | JDict _ => "dict"
  end.

(** One turn of the date loop: only a [dict] has [get]. *)
Definition fix_command (command : json) : outcome json :=
  match command with
  | JDict d => Return (JDict (fix_field "end" (fix_field "start" d)))
  | v => Raise (AttributeError (type_name v))
  end.

(** [for command in parsed_commands: ...]; the loop stops at the first
    command that raises. *)
Fixpoint fix_date_formats (parsed_commands : list json) : outcome (list json) :=
  match parsed_commands with
  | [] => Return []
  | command :: rest =>
      match fix_command command with
      | Raise e => Raise e
      | Return c =>
          match fix_date_formats rest with
          | Raise e => Raise e
          | Return cs => Return (c :: cs)
          end
      end
  end.

(** The Response Repair/Parser as a whole: extraction, then date repair. *)
Definition response_parser (assistant_msg : string) : outcome (list json) :=
  fix_date_formats (parse_commands assistant_msg).

(** *** [ai] *)

Definition UnknownTimeZoneError (zone : string) : exn :=
  Exception "UnknownTimeZoneError" ("'" ++ zone ++ "'").

(** [pytz.timezone(zone)] *)
Definition pytz_timezone (env : Env) (zone : string) : M string :=
  if known_timezone env zone then ret zone
  else raise (UnknownTimeZoneError zone).

(** The body of the handler's [try], after the input check, for an input
    that the column of the turn stores as [content] and that an f-string
    prints as [shown]. *)
Definition ai_turn (env : Env) (req : Request.t) (content shown : string)
  : M Response :=
  let uid := User.id (Request.current_user req) in
  add_conversation uid "user" content (Request.utcnow_user_turn req) ;;
  db <- get_db ;;
  _ <- pytz_timezone env (timezone_or_utc (Request.current_user req)) ;;
  let messages := build_messages env req db in
  assistant_msg <- call_provider env messages shown ;;
  add_conversation uid "assistant" assistant_msg
    (Request.utcnow_assistant_turn req) ;;
  parsed_commands <- lift (response_parser assistant_msg) ;;
  ret (mkResponse (jsonify_commands parsed_commands) 200).

(** A string is stored and printed as it is. *)
Definition ai_body (env : Env) (req : Request.t) (user_input : string)
  : M Response :=
  ai_turn env req user_input user_input.

(** The handler on a body that is an object with a string, null or nothing
    under [input]. *)
Definition ai (env : Env) (req : Request.t) : M Response :=
  try_except
    (match Request.input req with
     | None => ret (mkResponse (jsonify_error "No input provided") 400)
     | Some user_input =>
         if String.eqb user_input ""
         then ret (mkResponse (jsonify_error "No input provided") 400)
         else ai_body env req user_input
     end)
    (fun e => ret (mkResponse (jsonify_error "Failed to process request") 500)).

(** *** [ai] on the body as it comes *)

(** What the handler takes from outside for an [input] that is not a
    string: what the [Text] column of the turn stores for the value bound
    to it (or the exception the commit raises, for a value it refuses), and
    how an f-string prints the value. *)
Record Binding : Type := mkBinding
  { bind_text : json -> outcome string;
    format_value : json -> string }.

(** [request.json.get("input")], for [request.json] the decoded body or the
    exception Flask raises for a body it cannot decode; only a [dict] has
    [get]. *)
Definition get_input (request_json : outcome json) : outcome (option json) :=
  match request_json with
  | Return (JDict d) => Return (dict_get "input" d)
  | Return v => Raise (AttributeError (type_name v))
  | Raise e => Raise e
  end.

(** The handler as a whole.  [req] gives the user and the clock; the input
    is read from [request_json]. *)
Definition ai_request (env : Env) (rt : Binding) (request_json : outcome json)
    (req : Request.t) : M Response :=
  try_except
    (user_input <- lift (get_input request_json) ;;
     match user_input with
     | None => ret (mkResponse (jsonify_error "No input provided") 400)
     | Some v =>
         if negb (truthy v)
         then ret (mkResponse (jsonify_error "No input provided") 400)
         else
           match v with
           | JStr s => ai_turn env req s s
           | _ =>
               content <- lift (bind_text rt v) ;;
               ai_turn env req content (format_value rt v)
           end
     end)
    (fun e => ret (mkResponse (jsonify_error "Failed to process request") 500)).

(* ================================================================== *)
(** ** Vocabulary of the statements *)
(* ================================================================== *)

(** *** Date repair, pass by pass *)

(** What [replace(' ', 'T')] computes. *)
Fixpoint spaces_to_T (s : string) : string :=
  match s with
  | EmptyString => EmptyString
  | String c r => String (if Ascii.eqb c " " then "T"%char else c) (spaces_to_T r)
  end.

(** What [replace('TT', 'T')] computes: pairs are taken from the left. *)
Fixpoint collapse_TT (s : string) : string :=
  match s with
  | EmptyString => EmptyString
  | String c r =>
      match r with
      | String d r' =>
          if andb (Ascii.eqb c "T") (Ascii.eqb d "T")
          then String "T" (collapse_TT r')
          else String c (collapse_TT r)
      | EmptyString => String c EmptyString
      end
  end.

(** A space or the date/time separator. *)
Definition is_sep (c : ascii) : bool := orb (Ascii.eqb c " ") (Ascii.eqb c "T").

Definition starts_sep (s : string) : bool :=
  match s with String c _ => is_sep c | EmptyString => false end.

Definition starts_sep2 (s : string) : bool :=
  match s with String c r => andb (is_sep c) (starts_sep r) | EmptyString => false end.

(** No three characters in a row are spaces or separators. *)
Fixpoint no_triple (s : string) : bool :=
  match s with
  | String c r => andb (negb (andb (is_sep c) (starts_sep2 r))) (no_triple r)
  | EmptyString => true
  end.

Definition starts_T (s : string) : bool :=
  match s with String c _ => Ascii.eqb c "T" | EmptyString => false end.

Fixpoint no_TT (s : string) : bool :=
  match s with
  | String c r => andb (negb (andb (Ascii.eqb c "T") (starts_T r))) (no_TT r)
  | EmptyString => true
  end.

Fixpoint no_space (s : string) : bool :=
  match s with
  | String c r => andb (negb (Ascii.eqb c " ")) (no_space r)
  | EmptyString => true
  end.

(** *** Brackets in the reply *)

Fixpoint has_char (c : ascii) (s : string) : bool :=
  match s with
  | String d r => orb (Ascii.eqb d c) (has_char c r)
  | EmptyString => false
  end.

(** [raw] has an opening bracket with a closing one somewhere after it. *)
Definition bracketed_in (raw : string) : Prop :=
  exists a b c, raw = a ++ "[" ++ b ++ "]" ++ c.

(** Some stretch of [raw] is the text of the JSON array [arr]. *)
Definition contains_array (raw : string) (arr : list json) : Prop :=
  exists pre json_str post,
    raw = pre ++ json_str ++ post /\ loads json_str = Some (JList arr).

(** *** Commands before and after the date repair *)

Definition is_date_key (key : string) : bool :=
  orb (String.eqb key "start") (String.eqb key "end").

Definition repair_value (v : json) : json :=
  match v with
  | JStr s => JStr (fix_date s)
  | _ => v
  end.

(** [c'] is the object [c] with the same keys in the same order, its string
    [start] and [end] repaired and every other value as it was. *)
Definition repaired (c c' : json) : Prop :=
  exists d d',
    c = JDict d /\ c' = JDict d'
    /\ map fst d' = map fst d
    /\ forall key,
         dict_get key d' =
         if is_date_key key then option_map repair_value (dict_get key d)
         else dict_get key d.

(** The repair has nothing to change in [c]. *)
Definition dates_clean (c : json) : bool :=
  match c with
  | JDict d =>
      forallb (fun key =>
                 match dict_get key d with
                 | Some (JStr s) => String.eqb (fix_date s) s
                 | _ => true
                 end)
              ["start"; "end"]
  | _ => true
  end.

(** *** Runs of the handler *)

(** The rows a run writes. *)
Definition user_turn (req : Request.t) (db : Database) (user_input : string)
  : Conversation.t :=
  new_conversation db (User.id (Request.current_user req)) "user" user_input
    (Request.utcnow_user_turn req).

Definition assistant_turn (req : Request.t) (db : Database) (assistant_msg : string)
  : Conversation.t :=
  new_conversation db (User.id (Request.current_user req)) "assistant"
    assistant_msg (Request.utcnow_assistant_turn req).

Definition bad_request : Response :=
  mkResponse (jsonify_error "No input provided") 400.

Definition server_error : Response :=
  mkResponse (jsonify_error "Failed to process request") 500.

(** The response the handler ends with once the reply is stored. *)
Definition respond (assistant_msg : string) : Response :=
  match response_parser assistant_msg with
  | Return cmds => mkResponse (jsonify_commands cmds) 200
  | Raise _ => server_error
  end.

Definition no_provider_call (tr : list effect) : bool :=
  forallb (fun ev => negb (is_provider_call ev)) tr.

(** The time zone the handler looks up for the request's user is known. *)
Definition timezone_known (env : Env) (req : Request.t) : bool :=
  known_timezone env (timezone_or_utc (Request.current_user req)).

(** Latest first, and oldest first. *)
Definition descending {A : Type} (key : A -> Z) : list A -> Prop :=
  StronglySorted (fun a b => (key b <= key a)%Z).
Definition ascending {A : Type} (key : A -> Z) : list A -> Prop :=
  StronglySorted (fun a b => (key a <= key b)%Z).

(** Each row is later than the one before it. *)
Fixpoint chronological (log : list Conversation.t) : bool :=
  match log with
  | x :: rest =>
      andb (match rest with
            | y :: _ => (Conversation.timestamp x <? Conversation.timestamp y)%Z
            | [] => true
            end)
           (chronological rest)
  | [] => true
  end.

(* ================================================================== *)
(** ** A small deployment to run the handler on *)
(* ================================================================== *)

Module Demo.
Local Open Scope Z_scope.

Definition alice : User.t := User.mk 1 "alice" (Some "UTC").

Definition env (vars : list (string * string)) (openai cohere : outcome string)
  : Env :=
  mkEnv vars
        (fun zone => String.eqb zone "UTC")
        (fun _ _ => "2025-07-30 09:00:00 UTC")
        (fun _ => "2025-07-30 10:00")
        (fun _ => "11:00")
        (fun _ _ => openai)
        (fun _ _ => cohere).

Definition unreachable : outcome string :=
  Raise (Exception "ConnectionError" "Connection refused").

(** OpenAI is the provider, with a key, and answers [reply]. *)
Definition openai_env (reply : outcome string) : Env :=
  env [("AI_PROVIDER", "openai"); ("OPENAI_API_KEY", "sk-demo")] reply unreachable.

(** Cohere is the provider (the default), with the placeholder key. *)
Definition placeholder_env : Env :=
  env [("COHERE_API_KEY", "your-cohere-api-key-here")] unreachable unreachable.

Definition request (input : option string) : Request.t :=
  Request.mk input alice 1000 1001 1002 1003.

(** A user whose stored time zone the time zone database does not know. *)
Definition carol : User.t := User.mk 3 "carol" (Some "Mars/Olympus").

Definition request_of (user : User.t) : Request.t :=
  Request.mk None user 1000 1001 1002 1003.

(** OpenAI is the provider, with no key in the environment. *)
Definition keyless_env : Env :=
  env [("AI_PROVIDER", "openai")] unreachable unreachable.

(** Cohere is the provider, with a key, and answers [reply]. *)
Definition cohere_env (reply : outcome string) : Env :=
  env [("COHERE_API_KEY", "co-demo")] unreachable reply.

(** A driver that refuses whatever is not a string. *)
Definition binding : Binding :=
  mkBinding
    (fun _ => Raise (Exception "InterfaceError" "Error binding parameter 3"))
    (fun _ => "").

(** A request body with [text] under [input]. *)
Definition saying (text : string) : outcome json :=
  Return (JDict [("input", JStr text)]).

Definition empty_db : Database := mkDatabase [] [].

Definition turn (id : Z) (uid : Z) (role content : string) : Conversation.t :=
  Conversation.mk id uid role content (10 * id).

(** Six turns of [alice], with one of another user in between. *)
Definition busy_db : Database :=
  mkDatabase []
    [ turn 1 1 "user" "one"; turn 2 1 "assistant" "two";
      turn 3 2 "user" "elsewhere";
      turn 4 1 "user" "three"; turn 5 1 "assistant" "four";
      turn 6 1 "user" "five"; turn 7 1 "assistant" "six" ].

(** The reply of the scheduling scenario. *)
Definition meeting_reply : string :=
  sq "[{'command':'ADD','start':'2025-07-31 14:00:00','end':'2025-07-31 15:00:00','title':'Meeting'},{'command':'MESSAGE','text':'Scheduled.'}]".

End Demo.

(* ================================================================== *)
(** ** The rate limiter *)
(* ================================================================== *)

Module RateLimit.

(** Who a request is counted for: [current_user.id] when the request is
    authenticated, [request.remote_addr] otherwise. *)
Inductive caller : Type :=
| UserId (id : Z)
| RemoteAddr (addr : string).

Definition caller_eqb (a b : caller) : bool :=
  match a, b with
  | UserId x, UserId y => (x =? y)%Z
  | RemoteAddr x, RemoteAddr y => String.eqb x y
  | _, _ => false
  end.

Definition identify (current_user : option User.t) (remote_addr : string) : caller :=
  match current_user with
  | Some u => UserId (User.id u)
  | None => RemoteAddr remote_addr
  end.

(** [request_counts], a [defaultdict(list)]: per caller, the times of the
    requests let through.  A reading of [time.time()] is kept in
    microseconds. *)
Definition counts : Type := list (caller * list Z).

(** [request_counts[who]]; a caller not seen yet has the empty list. *)
Fixpoint get (who : caller) (request_counts : counts) : list Z :=
  match request_counts with
  | [] => []
  | (k, l) :: rest => if caller_eqb k who then l else get who rest
  end.

Fixpoint set (who : caller) (l : list Z) (request_counts : counts) : counts :=
  match request_counts with
  | [] => [(who, l)]
  | (k, old) :: rest =>
      if caller_eqb k who then (k, l) :: rest
      else (k, old) :: set who l rest
  end.

(** [[req_time for req_time in user_requests if now - req_time < window]],
    the window being given in seconds. *)
Definition prune (window now : Z) (user_requests : list Z) : list Z :=
  filter (fun req_time => (now - req_time <? window * 1000000)%Z) user_requests.

Definition too_many_requests : Response :=
  mkResponse (jsonify_error "Rate limit exceeded") 429.

(** [decorated_function] of [rate_limit(max_requests, window)(f)], called for
    [who] at time [now].  The state is the pair of [request_counts] and
    whatever the view [f] works on; the caller's list is pruned in place
    whether the request is let through or not. *)
Definition rate_limit {S : Type} (max_requests window : Z)
    (f : S -> Response * S) (who : caller) (now : Z) (st : counts * S)
  : Response * (counts * S) :=
  let user_requests := prune window now (get who (fst st)) in
  if (max_requests <=? Z.of_nat (List.length user_requests))%Z
  then (too_many_requests, (set who user_requests (fst st), snd st))
  else
    match f (snd st) with
    | (response, s') =>
        (response, (set who (user_requests ++ [now])%list (fst st), s'))
    end.

(** [request_counts.clear()] *)
Definition clear_rate_limits (request_counts : counts) : counts := [].

End RateLimit.

(* ================================================================== *)
(** ** The events API and the time zone setting *)
(* ================================================================== *)

Module Api.

(** The views are given for a request of a logged-in user, with a body that
    has been decoded.

    What the views take from outside the repository: the ISO 8601 codec of
    [datetime], what a [String(n)] column stores for a value bound to it (or
    the exception the commit raises, for a value it refuses), and the id the
    database gives a new event. *)
Record Calendar : Type := mkCalendar
  { fromisoformat : string -> outcome datetime;
    isoformat : datetime -> string;
    bind_string : nat -> json -> outcome string;
    next_event_id : list Event.t -> Z }.

Definition and_then {A B : Type} (o : outcome A) (k : A -> outcome B) : outcome B :=
  match o with
  | Return a => k a
  | Raise e => Raise e
  end.

Notation "x <~ o ;; k" := (and_then o (fun x => k))
  (at level 61, o at next level, right associativity).

Definition KeyError (key : string) : exn :=
  Exception "KeyError" ("'" ++ key ++ "'").

Definition TypeError (msg : string) : exn := Exception "TypeError" msg.

Definition no_attribute (v : json) (attr : string) : exn :=
  Exception "AttributeError"
    ("'" ++ type_name v ++ "' object has no attribute '" ++ attr ++ "'").

(** [data[key]] *)
Definition subscript (data : json) (key : string) : outcome json :=
  match data with
  | JDict d =>
      match dict_get key d with
      | Some v => Return v
      | None => Raise (KeyError key)
      end
  | JList _ => Raise (TypeError "list indices must be integers or slices, not str")
  | JStr _ => Raise (TypeError "string indices must be integers, not 'str'")
  | v => Raise (TypeError ("'" ++ type_name v ++ "' object is not subscriptable"))
  end.

(** [data.get(key)]; only a [dict] has [get]. *)
Definition get (data : json) (key : string) : outcome (option json) :=
  match data with
  | JDict d => Return (dict_get key d)
  | v => Raise (no_attribute v "get")
  end.

(** [v.replace(' ', '')] *)
Definition remove_spaces (v : json) : outcome string :=
  match v with
  | JStr s => Return (replace " " "" s)
  | _ => Raise (no_attribute v "replace")
  end.

(** Lengths and slices count characters, not bytes: a byte of the form
    [10xxxxxx] continues the character before it. *)
Definition is_continuation (c : ascii) : bool :=
  andb (Nat.leb 128 (nat_of_ascii c)) (Nat.ltb (nat_of_ascii c) 192).

(** [len(s)] *)
Fixpoint len (s : string) : nat :=
  match s with
  | EmptyString => 0
  | String c r => if is_continuation c then len r else S (len r)
  end.

(** [s[:n]] *)
Fixpoint slice_to (n : nat) (s : string) : string :=
  match s with
  | EmptyString => EmptyString
  | String c r =>
      if is_continuation c then String c (slice_to n r)
      else match n with
           | O => EmptyString
           | S k => String c (slice_to k r)
           end
  end.

(** [s[n:]] *)
Definition slice_from (n : nat) (s : string) : string :=
  drop (String.length (slice_to n s)) s.

(** [if 'T' not in s and len(s) >= 10: s = s[:10] + 'T' + s[10:]] *)
Definition insert_T (s : string) : string :=
  if andb (negb (has_char "T" s)) (Nat.leb 10 (len s))
  then slice_to 10 s ++ "T" ++ slice_from 10 s
  else s.

(** The clean-up of a date string in [create_event]. *)
Definition clean_date (s : string) : string := insert_T (replace " " "" s).

(** [datetime.fromisoformat(v)] for a value taken from the body. *)
Definition fromisoformat_value (cal : Calendar) (v : option json) : outcome datetime :=
  match v with
  | Some (JStr s) => fromisoformat cal s
  | Some v' =>
      Raise (TypeError ("fromisoformat: argument must be str, not " ++ type_name v'))
  | None => Raise (TypeError "fromisoformat: argument must be str, not NoneType")
  end.

(** The [event] member of a response. *)
Definition event_json (cal : Calendar) (e : Event.t) : json :=
  JDict [("id", JInt (Event.id e)); ("title", JStr (Event.title e));
         ("start", JStr (isoformat cal (Event.start_time e)));
         ("end", JStr (isoformat cal (Event.end_time e)))].

Definition success_event (cal : Calendar) (e : Event.t) : Response :=
  mkResponse (JDict [("success", JBool true); ("event", event_json cal e)]) 200.

Definition success : Response := mkResponse (JDict [("success", JBool true)]) 200.

(** [GET /api/events]: the events of the user; the query asks for no
    order, the rows are taken in table order. *)
Definition get_events (cal : Calendar) (current_user : User.t) (db : Database)
  : Response * Database :=
  (mkResponse
     (JDict [("events",
              JList (map (event_json cal)
                       (filter (fun e => (Event.user_id e =? User.id current_user)%Z)
                               (events db))))])
     200,
   db).

(** What the [try] block of [create_event] builds before the commit. *)
Definition new_event (cal : Calendar) (current_user : User.t) (data : json)
    (db : Database) : outcome Event.t :=
  start_value <~ subscript data "start" ;;
  start_str <~ remove_spaces start_value ;;
  end_value <~ subscript data "end" ;;
  end_str <~ remove_spaces end_value ;;
  title_value <~ subscript data "title" ;;
  start_time <~ fromisoformat cal (insert_T start_str) ;;
  end_time <~ fromisoformat cal (insert_T end_str) ;;
  title <~ bind_string cal 200 title_value ;;
  Return (Event.mk (next_event_id cal (events db)) title start_time end_time
                   (User.id current_user)).

(** [POST /api/events] *)
Definition create_event (cal : Calendar) (current_user : User.t) (data : json)
    (db : Database) : Response * Database :=
  match new_event cal current_user data db with
  | Return event =>
      (success_event cal event,
       mkDatabase (events db ++ [event])%list (conversations db))
  | Raise _ => (mkResponse (jsonify_error "Failed to create event") 500, db)
  end.

(** [Event.query.filter_by(id=event_id, user_id=current_user.id).first()] *)
Definition find_event (current_user : User.t) (event_id : Z) (db : Database)
  : option Event.t :=
  find (fun e => andb (Event.id e =? event_id)%Z
                      (Event.user_id e =? User.id current_user)%Z)
       (events db).

Definition not_found : Response :=
  mkResponse (jsonify_error "Event not found") 404.

(** [DELETE /api/events/<event_id>]; the row goes by its primary key. *)
Definition delete_event (current_user : User.t) (event_id : Z) (db : Database)
  : Response * Database :=
  match find_event current_user event_id db with
  | None => (not_found, db)
  | Some event =>
      (success,
       mkDatabase
         (filter (fun e => negb (Event.id e =? Event.id event)%Z) (events db))
         (conversations db))
  end.

(** The columns [update_event] assigns. *)
Record Changes : Type := mkChanges
  { new_title : string;
    new_start_time : datetime;
    new_end_time : datetime }.

Definition apply_changes (ch : Changes) (e : Event.t) : Event.t :=
  Event.mk (Event.id e) (new_title ch) (new_start_time ch) (new_end_time ch)
           (Event.user_id e).

(** What the [try] block of [update_event] assigns to the row it found,
    as the commit would write it. *)
Definition changes (cal : Calendar) (event : Event.t) (data : json)
  : outcome Changes :=
  title_value <~ get data "title" ;;
  start_value <~ get data "start" ;;
  start_time <~ fromisoformat_value cal start_value ;;
  end_value <~ get data "end" ;;
  end_time <~ fromisoformat_value cal end_value ;;
  title <~ match title_value with
           | Some v => bind_string cal 200 v
           | None => Return (Event.title event)
           end ;;
  Return (mkChanges title start_time end_time).

(** [PUT /api/events/<event_id>].  A change made before an exception is
    never committed: the session goes with the request.  The commit writes
    the assigned columns of the row with the event's primary key. *)
Definition update_event (cal : Calendar) (current_user : User.t) (event_id : Z)
    (data : json) (db : Database) : Response * Database :=
  match find_event current_user event_id db with
  | None => (not_found, db)
  | Some event =>
      match changes cal event data with
      | Return ch =>
          (success_event cal (apply_changes ch event),
           mkDatabase
             (map (fun e => if (Event.id e =? Event.id event)%Z
                            then apply_changes ch e else e)
                  (events db))
             (conversations db))
      | Raise _ => (mkResponse (jsonify_error "Failed to update event") 500, db)
      end
  end.

(** [PUT /api/user/timezone], on the row of the logged-in user. *)
Definition update_user_timezone (cal : Calendar) (data : json)
    (current_user : User.t) : Response * User.t :=
  match get data "timezone" with
  | Raise _ =>
      (mkResponse (jsonify_error "Failed to update timezone") 500, current_user)
  | Return timezone =>
      match timezone with
      | None => (mkResponse (jsonify_error "Timezone is required") 400, current_user)
      | Some v =>
          if negb (truthy v)
          then (mkResponse (jsonify_error "Timezone is required") 400, current_user)
          else
            match bind_string cal 50 v with
            | Return zone =>
                (success,
                 User.mk (User.id current_user) (User.username current_user)
                         (Some zone))
            | Raise _ =>
                (mkResponse (jsonify_error "Failed to update timezone") 500,
                 current_user)
            end
      end
  end.

(** The routes as decorated: twenty requests a minute for the event views,
    ten for the time zone. *)
Definition create_event_route (cal : Calendar) (current_user : User.t) (data : json)
    (now : Z) : RateLimit.counts * Database -> Response * (RateLimit.counts * Database) :=
  RateLimit.rate_limit 20 60 (create_event cal current_user data)
    (RateLimit.UserId (User.id current_user)) now.

Definition delete_event_route (current_user : User.t) (event_id : Z) (now : Z)
  : RateLimit.counts * Database -> Response * (RateLimit.counts * Database) :=
  RateLimit.rate_limit 20 60 (delete_event current_user event_id)
    (RateLimit.UserId (User.id current_user)) now.

Definition update_event_route (cal : Calendar) (current_user : User.t)
    (event_id : Z) (data : json) (now : Z)
  : RateLimit.counts * Database -> Response * (RateLimit.counts * Database) :=
  RateLimit.rate_limit 20 60 (update_event cal current_user event_id data)
    (RateLimit.UserId (User.id current_user)) now.

Definition update_user_timezone_route (cal : Calendar) (data : json) (now : Z)
  : RateLimit.counts * User.t -> Response * (RateLimit.counts * User.t) :=
  fun st =>
    RateLimit.rate_limit 10 60 (update_user_timezone cal data)
      (RateLimit.UserId (User.id (snd st))) now st.

End Api.

(* ================================================================== *)
(** ** Vocabulary for the rate limiter, the views and the prompt *)
(* ================================================================== *)

(** A request that reaches a decorated view: who sends it, when, and the
    limit of the view. *)
Record hit : Type := mkHit
  { hit_caller : RateLimit.caller;
    hit_now : Z;
    hit_max : Z }.

(** The verdict of the decorator on one request, and the counts it leaves;
    read off a run of [rate_limit] around a view that does nothing. *)
Definition verdict (max_requests window : Z) (who : RateLimit.caller) (now : Z)
    (request_counts : RateLimit.counts) : bool * RateLimit.counts :=
  match RateLimit.rate_limit max_requests window
          (fun s : unit => (Api.success, s)) who now (request_counts, tt) with
  | (response, (request_counts', _)) =>
      (negb (Nat.eqb (status response) 429), request_counts')
  end.

(** The verdicts on a run of requests under one window, in order, and the
    counts after the run. *)
Fixpoint replay (window : Z) (hits : list hit) (request_counts : RateLimit.counts)
  : list bool * RateLimit.counts :=
  match hits with
  | [] => ([], request_counts)
  | h :: rest =>
      match verdict (hit_max h) window (hit_caller h) (hit_now h) request_counts with
      | (ok, request_counts') =>
          match replay window rest request_counts' with
          | (oks, final) => (ok :: oks, final)
          end
      end
  end.

(** The times of the requests of [who] that were let through. *)
Fixpoint let_through (who : RateLimit.caller) (hits : list hit) (oks : list bool)
  : list Z :=
  match hits, oks with
  | h :: hits', ok :: oks' =>
      if andb ok (RateLimit.caller_eqb (hit_caller h) who)
      then hit_now h :: let_through who hits' oks'
      else let_through who hits' oks'
  | _, _ => []
  end.

(** The clock never goes back from one reading to the next. *)
Fixpoint nondecreasing (times : list Z) : bool :=
  match times with
  | x :: rest =>
      andb (match rest with
            | y :: _ => (x <=? y)%Z
            | [] => true
            end)
           (nondecreasing rest)
  | [] => true
  end.

(** Every byte is ASCII. *)
Fixpoint is_ascii (s : string) : bool :=
  match s with
  | String c r => andb (Nat.ltb (nat_of_ascii c) 128) (is_ascii r)
  | EmptyString => true
  end.

(** Neither a space nor the separator occurs. *)
Fixpoint no_sep (s : string) : bool :=
  match s with
  | String c r => andb (negb (is_sep c)) (no_sep r)
  | EmptyString => true
  end.

(** Only spaces and separators occur. *)
Fixpoint all_sep (s : string) : bool :=
  match s with
  | String c r => andb (is_sep c) (all_sep r)
  | EmptyString => true
  end.

(** Only spaces occur. *)
Fixpoint only_spaces (s : string) : bool :=
  match s with
  | String c r => andb (Ascii.eqb c " ") (only_spaces r)
  | EmptyString => true
  end.

(** The text without its spaces. *)
Fixpoint without_spaces (s : string) : string :=
  match s with
  | String c r =>
      if Ascii.eqb c " " then without_spaces r else String c (without_spaces r)
  | EmptyString => EmptyString
  end.

(** The list under [events] in the body of a response. *)
Definition listed (r : Response) : list json :=
  match body r with
  | JDict d =>
      match dict_get "events" d with
      | Some (JList l) => l
      | _ => []
      end
  | _ => []
  end.

(** The caller owns no event with this id. *)
Definition out_of_reach (current_user : User.t) (event_id : Z) (db : Database) : Prop :=
  Forall (fun e => Event.id e = event_id -> Event.user_id e <> User.id current_user)
         (events db).

(** The body lacks [key] or holds something other than a string there. *)
Definition not_a_string_at (key : string) (d : dict) : Prop :=
  match dict_get key d with
  | Some (JStr _) => False
  | _ => True
  end.

(** The database right after the handler has stored the user's turn. *)
Definition with_user_turn (req : Request.t) (db : Database) (user_input : string)
  : Database :=
  insert_conversation db (user_turn req db user_input).

(** The commits of a trace. *)
Fixpoint commits (tr : list effect) : list Conversation.t :=
  match tr with
  | Commit row :: rest => row :: commits rest
  | _ :: rest => commits rest
  | [] => []
  end.

(* ================================================================== *)
(** ** A calendar to run the views on *)
(* ================================================================== *)

Module Office.
Local Open Scope Z_scope.

(** Two instants and their ISO texts. *)
Definition iso_table : list (string * Z) :=
  [("2025-07-31T14:00:00", 1753970400000000);
   ("2025-07-31T15:00:00", 1753974000000000)].

Fixpoint parse (table : list (string * Z)) (s : string) : outcome datetime :=
  match table with
  | [] => Raise (Exception "ValueError" ("Invalid isoformat string: '" ++ s ++ "'"))
  | (text, t) :: rest => if String.eqb text s then Return t else parse rest s
  end.

Fixpoint print (table : list (string * Z)) (t : Z) : string :=
  match table with
  | [] => "1970-01-01T00:00:00"
  | (text, t') :: rest => if t' =? t then text else print rest t
  end.

Fixpoint max_id (evs : list Event.t) : Z :=
  match evs with
  | [] => 0
  | e :: rest => Z.max (Event.id e) (max_id rest)
  end.

(** A column keeps a string that fits and refuses anything else. *)
Definition calendar : Api.Calendar :=
  Api.mkCalendar
    (parse iso_table)
    (print iso_table)
    (fun n v =>
       match v with
       | JStr s =>
           if Nat.leb (String.length s) n then Return s
           else Raise (Exception "DataError" "value too long")
       | _ => Raise (Exception "IntegrityError" "unsupported value")
       end)
    (fun evs => 1 + max_id evs).

Definition bob : User.t := User.mk 2 "bob" (Some "UTC").

Definition standup : Event.t := Event.mk 1 "Standup" 1753970400000000 1753974000000000 1.
Definition review : Event.t := Event.mk 2 "Review" 1753970400000000 1753974000000000 2.

Definition db : Database := mkDatabase [standup; review] [].

(** A body for [POST /api/events], dates with a space. *)
Definition meeting : json :=
  JDict [("title", JStr "Meeting"); ("start", JStr "2025-07-31 14:00:00");
         ("end", JStr "2025-07-31 15:00:00")].

End Office.

(* ================================================================== *)
(** ** Properties of the date repair *)
(* ================================================================== *)

Section DateRepair.

Lemma prefix_cons (a b : ascii) (s t : string) :
  prefix (String a s) (String b t) = andb (Ascii.eqb a b) (prefix s t).
Proof.
  simpl. destruct (ascii_dec a b) as [->|n].
  - now rewrite Ascii.eqb_refl.
  - apply Ascii.eqb_neq in n. now rewrite n.
Qed.

Lemma prefix_nil (s : string) : prefix "" s = true.
Proof. now destruct s. Qed.

Lemma replace_from_0 (old new : string) (c : ascii) (rest : string) :
  replace_from old new 0 (String c rest) =
  if prefix old (String c rest)
  then new ++ replace_from old new (pred (String.length old)) rest
  else String c (replace_from old new 0 rest).
Proof. reflexivity. Qed.

Lemma replace_from_S (old new : string) (k : nat) (c : ascii) (rest : string) :
  replace_from old new (S k) (String c rest) = replace_from old new k rest.
Proof. reflexivity. Qed.

Lemma collapse_TT_cons2 (c d : ascii) (r : string) :
  collapse_TT (String c (String d r)) =
  if andb (Ascii.eqb c "T") (Ascii.eqb d "T")
  then String "T" (collapse_TT r)
  else String c (collapse_TT (String d r)).
Proof. reflexivity. Qed.

Lemma string_length_ind (P : string -> Prop) :
  (forall s, (forall t, String.length t < String.length s -> P t) -> P s) ->
  forall s, P s.
Proof.
  intros H s.
  enough (G : forall n t, String.length t < n -> P t)
    by (apply (G (S (String.length s))); lia).
  induction n as [|n IH]; intros t Ht; [lia|].
  apply H. intros u Hu. apply IH. lia.
Qed.

Lemma replace_space_spec (s : string) : replace " " "T" s = spaces_to_T s.
Proof.
  unfold replace. induction s as [|c r IH]; [reflexivity|].
  rewrite replace_from_0, prefix_cons, prefix_nil, andb_true_r.
  rewrite (Ascii.eqb_sym " " c). cbn [String.length pred spaces_to_T].
  destruct (Ascii.eqb c " "); cbn; now rewrite IH.
Qed.

Lemma replace_TT_spec (s : string) : replace "TT" "T" s = collapse_TT s.
Proof.
  unfold replace.
  induction s as [s IH] using string_length_ind.
  destruct s as [|c [|d r]]; [reflexivity | |].
  - rewrite replace_from_0, prefix_cons. cbn [prefix].
    now rewrite andb_false_r.
  - rewrite collapse_TT_cons2, replace_from_0.
    rewrite !prefix_cons, prefix_nil, andb_true_r.
    rewrite (Ascii.eqb_sym "T" c), (Ascii.eqb_sym "T" d).
    destruct (Ascii.eqb c "T" && Ascii.eqb d "T")%bool.
    + cbn [String.length pred append]. rewrite replace_from_S.
      f_equal. apply IH. simpl. lia.
    + f_equal. apply IH. simpl. lia.
Qed.

Lemma fix_date_spec (s : string) : fix_date s = collapse_TT (spaces_to_T s).
Proof. unfold fix_date. now rewrite replace_space_spec, replace_TT_spec. Qed.

Lemma no_space_spaces_to_T (s : string) : no_space (spaces_to_T s) = true.
Proof.
  induction s as [|c r IH]; [reflexivity|]. cbn [spaces_to_T no_space].
  rewrite IH, andb_true_r. now destruct (Ascii.eqb c " ") eqn:E; [|rewrite E].
Qed.

Lemma spaces_to_T_id (s : string) : no_space s = true -> spaces_to_T s = s.
Proof.
  induction s as [|c r IH]; [reflexivity|]. cbn [spaces_to_T no_space].
  intros [Hc Hr]%andb_prop. rewrite IH by assumption.
  apply negb_true_iff in Hc. now rewrite Hc.
Qed.

Lemma no_space_collapse_TT (s : string) :
  no_space s = true -> no_space (collapse_TT s) = true.
Proof.
  induction s as [s IH] using string_length_ind.
  destruct s as [|c [|d r]]; [reflexivity | tauto |].
  rewrite collapse_TT_cons2. cbn [no_space].
  intros [Hc [Hd Hr]%andb_prop]%andb_prop.
  destruct (Ascii.eqb c "T" && Ascii.eqb d "T")%bool.
  - cbn [no_space]. rewrite IH; [reflexivity | simpl; lia | assumption].
  - cbn [no_space]. rewrite Hc, IH; [reflexivity | simpl; lia |].
    cbn [no_space]. now rewrite Hd, Hr.
Qed.

(** The second pass never changes what a text starts with. *)
Lemma starts_T_collapse_TT (s : string) : starts_T (collapse_TT s) = starts_T s.
Proof.
  destruct s as [|c [|d r]]; [reflexivity | reflexivity |].
  rewrite collapse_TT_cons2.
  destruct (Ascii.eqb c "T") eqn:Ec, (Ascii.eqb d "T"); cbn; now rewrite ?Ec.
Qed.

Lemma collapse_TT_id (s : string) : no_TT s = true -> collapse_TT s = s.
Proof.
  induction s as [s IH] using string_length_ind.
  destruct s as [|c [|d r]]; [reflexivity | reflexivity |].
  rewrite collapse_TT_cons2. cbn [no_TT starts_T].
  intros [Hcd Hr]%andb_prop. apply negb_true_iff in Hcd. rewrite Hcd.
  f_equal. apply IH; [simpl; lia | exact Hr].
Qed.

Lemma collapse_TT_length (s : string) :
  String.length (collapse_TT s) <= String.length s.
Proof.
  induction s as [s IH] using string_length_ind.
  destruct s as [|c [|d r]]; [reflexivity | reflexivity |].
  rewrite collapse_TT_cons2.
  destruct (Ascii.eqb c "T" && Ascii.eqb d "T")%bool; cbn [String.length].
  - specialize (IH r). cbn [String.length] in IH. lia.
  - specialize (IH (String d r)). cbn [String.length] in IH. lia.
Qed.

(** Where a doubled separator is left, one more pass shortens the text. *)
Lemma collapse_TT_shrinks (s : string) :
  no_TT s = false -> String.length (collapse_TT s) < String.length s.
Proof.
  induction s as [s IH] using string_length_ind.
  destruct s as [|c [|d r]]; [discriminate | |].
  - cbn. now rewrite andb_false_r.
  - rewrite collapse_TT_cons2. cbn [no_TT starts_T].
    destruct (Ascii.eqb c "T" && Ascii.eqb d "T")%bool; cbn [String.length].
    + intros _. pose proof (collapse_TT_length r). lia.
    + cbn [negb andb]. intros H. specialize (IH (String d r)).
      cbn [String.length] in IH. specialize (IH ltac:(lia) H). lia.
Qed.

Lemma starts_T_spaces_to_T (s : string) : starts_T (spaces_to_T s) = starts_sep s.
Proof.
  destruct s as [|c r]; [reflexivity|]. cbn. unfold is_sep.
  now destruct (Ascii.eqb c " ").
Qed.

Lemma is_sep_spaces_to_T (c : ascii) :
  Ascii.eqb (if Ascii.eqb c " " then "T"%char else c) "T" = is_sep c.
Proof. unfold is_sep. now destruct (Ascii.eqb c " "). Qed.

(** One pass leaves no doubled separator exactly when the input has no run
    of three. *)
Lemma no_TT_after_repair (s : string) :
  no_TT (collapse_TT (spaces_to_T s)) = no_triple s.
Proof.
  induction s as [s IH] using string_length_ind.
  destruct s as [|c [|d r]];
    [reflexivity | cbn; now rewrite !andb_false_r |].
  cbn [spaces_to_T]. rewrite collapse_TT_cons2, !is_sep_spaces_to_T.
  change (String (if Ascii.eqb d " " then "T"%char else d) (spaces_to_T r))
    with (spaces_to_T (String d r)).
  cbn [no_triple starts_sep2].
  destruct (is_sep c) eqn:Ec, (is_sep d) eqn:Ed; cbn [andb negb];
    cbn [no_TT]; rewrite ?is_sep_spaces_to_T, ?Ec, ?Ed,
      ?starts_T_collapse_TT, ?starts_T_spaces_to_T; cbn [starts_sep andb negb];
    rewrite ?Ed; cbn [andb negb].
  - rewrite Ascii.eqb_refl, (IH r) by (simpl; lia). cbn [andb].
    destruct (starts_sep r) eqn:Er; [reflexivity|].
    destruct r as [|e r']; [reflexivity|]. cbn in Er. cbn [starts_sep2].
    now rewrite Er.
  - rewrite (IH (String d r)) by (simpl; lia). cbn [no_triple]. now rewrite Ed.
  - rewrite (IH (String d r)) by (simpl; lia). cbn [no_triple]. now rewrite Ed.
  - rewrite (IH (String d r)) by (simpl; lia). cbn [no_triple]. now rewrite Ed.
Qed.

(** The repair applied twice differs from the repair applied once whenever
    the text has three spaces or separators in a row. *)
Lemma repair_changes_again_on_triple (s : string) :
  fix_date (fix_date s) = fix_date s -> no_triple s = true.
Proof.
  rewrite !fix_date_spec.
  rewrite (spaces_to_T_id (collapse_TT (spaces_to_T s)))
    by (apply no_space_collapse_TT, no_space_spaces_to_T).
  intros H. rewrite <- no_TT_after_repair.
  destruct (no_TT (collapse_TT (spaces_to_T s))) eqn:E; [reflexivity|].
  apply collapse_TT_shrinks in E. rewrite H in E. lia.
Qed.

End DateRepair.

(** C3 (as amended): on every string in which no three consecutive characters
    are spaces or date/time separators, the date normalisation is idempotent:
    a second pass gives the same string as the first. *)
Theorem fix_date_idempotent (s : string) :
  no_triple s = true -> fix_date (fix_date s) = fix_date s.
Proof.
  intros H. rewrite !fix_date_spec.
  rewrite (spaces_to_T_id (collapse_TT (spaces_to_T s)))
    by (apply no_space_collapse_TT, no_space_spaces_to_T).
  apply collapse_TT_id. now rewrite no_TT_after_repair.
Qed.

Lemma fix_date_idempotent_witness :
  no_triple "2025-07-30 10:00:00" = true
  /\ fix_date "2025-07-30 10:00:00" = "2025-07-30T10:00:00"
  /\ fix_date (fix_date "2025-07-30 10:00:00") = fix_date "2025-07-30 10:00:00".
Proof.
  split; [reflexivity|]. split; [reflexivity|].
  apply (fix_date_idempotent "2025-07-30 10:00:00"). reflexivity.
Defined.

(** C3 (as stated) fails: with three spaces between date and time the first
    pass leaves a doubled separator, which the second pass removes. *)
Lemma fix_date_not_idempotent :
  fix_date "2025-07-30   10:00:00" = "2025-07-30TT10:00:00"
  /\ fix_date (fix_date "2025-07-30   10:00:00") = "2025-07-30T10:00:00"
  /\ fix_date (fix_date "2025-07-30   10:00:00") <> fix_date "2025-07-30   10:00:00".
Proof.
  split; [reflexivity|]. split; [reflexivity|]. discriminate.
Qed.

(* ================================================================== *)
(** ** Properties of the bracket search *)
(* ================================================================== *)

Section BracketSearch.

Lemma has_char_app (c : ascii) (s t : string) :
  has_char c (s ++ t) = orb (has_char c s) (has_char c t).
Proof.
  induction s as [|d r IH]; [reflexivity|]. cbn. now rewrite IH, orb_assoc.
Qed.

Lemma dotstar_close_None (s : string) :
  Regex.dotstar_close s = None <-> has_char "]" s = false.
Proof.
  induction s as [|c r IH]; [easy|]. cbn.
  destruct (Regex.dotstar_close r) as [m|].
  - split; [discriminate|]. intros [_ H]%orb_false_elim.
    apply IH in H. discriminate.
  - destruct IH as [IH _]. rewrite (IH eq_refl), orb_false_r.
    destruct (Ascii.eqb c "]"); easy.
Qed.

(** Greedy: the match runs to the last closing bracket. *)
Lemma dotstar_close_last (mid post : string) :
  has_char "]" post = false ->
  Regex.dotstar_close (mid ++ "]" ++ post) = Some (mid ++ "]").
Proof.
  intros H. induction mid as [|c r IH].
  - cbn. apply dotstar_close_None in H. now rewrite H.
  - cbn [append Regex.dotstar_close] in *. now rewrite IH.
Qed.

Lemma dotstar_close_Some (s m : string) :
  Regex.dotstar_close s = Some m ->
  exists mid post, s = mid ++ "]" ++ post /\ m = mid ++ "]"
                   /\ has_char "]" post = false.
Proof.
  revert m. induction s as [|c r IH]; intros m; [discriminate|]. cbn.
  destruct (Regex.dotstar_close r) as [m'|] eqn:E.
  - intros [= <-]. destruct (IH _ eq_refl) as (mid & post & -> & -> & H).
    now exists (String c mid), post.
  - destruct (Ascii.eqb_spec c "]") as [->|]; [|discriminate].
    intros [= <-]. exists "", r. apply dotstar_close_None in E. now cbn.
Qed.

(** A match is a stretch of the text from an opening to a closing bracket. *)
Lemma search_array_Some (raw m : string) :
  Regex.search_array raw = Some m ->
  exists pre mid post,
    raw = pre ++ "[" ++ mid ++ "]" ++ post /\ m = "[" ++ mid ++ "]".
Proof.
  induction raw as [|c r IH]; [discriminate|]. cbn [Regex.search_array].
  assert (Hrec : Regex.search_array r = Some m ->
                 exists pre mid post,
                   String c r = pre ++ "[" ++ mid ++ "]" ++ post
                   /\ m = "[" ++ mid ++ "]").
  { intros H. destruct (IH H) as (pre & mid & post & -> & ->).
    now exists (String c pre), mid, post. }
  destruct (Ascii.eqb_spec c "[") as [->|]; [|exact Hrec].
  destruct (Regex.dotstar_close r) as [m'|] eqn:E; [|exact Hrec].
  intros [= <-]. apply dotstar_close_Some in E as (mid & post & -> & -> & _).
  now exists "", mid, post.
Qed.

(** Leftmost opening bracket to rightmost closing bracket. *)
Lemma search_array_span (pre mid post : string) :
  has_char "[" pre = false -> has_char "]" post = false ->
  Regex.search_array (pre ++ "[" ++ mid ++ "]" ++ post) = Some ("[" ++ mid ++ "]").
Proof.
  intros Hpre Hpost. induction pre as [|c r IH].
  - pose proof (dotstar_close_last mid post Hpost) as E.
    cbn in E |- *. now rewrite E.
  - cbn in Hpre. apply orb_false_elim in Hpre as [Hc Hr].
    cbn. rewrite Hc. now apply IH.
Qed.

Lemma search_array_None (raw : string) :
  ~ bracketed_in raw -> Regex.search_array raw = None.
Proof.
  intros H. destruct (Regex.search_array raw) as [m|] eqn:E; [|reflexivity].
  exfalso. apply H. apply search_array_Some in E as (pre & mid & post & -> & _).
  now exists pre, mid, post.
Qed.

Lemma search_array_bracketed (a b c : string) :
  Regex.search_array (a ++ "[" ++ b ++ "]" ++ c) <> None.
Proof.
  induction a as [|x r IH].
  - cbn. destruct (Regex.dotstar_close (b ++ String "]" c)) eqn:E; [discriminate|].
    apply dotstar_close_None in E. rewrite has_char_app in E.
    apply orb_false_elim in E as [_ E]. discriminate.
  - cbn. destruct (Ascii.eqb x "["); [|exact IH].
    destruct (Regex.dotstar_close _); [discriminate | exact IH].
Qed.

Lemma not_bracketed_without_open (raw : string) :
  has_char "[" raw = false -> ~ bracketed_in raw.
Proof.
  intros H (a & b & c & ->). rewrite has_char_app in H.
  apply orb_false_elim in H as [_ H]. discriminate.
Qed.

End BracketSearch.

(* ================================================================== *)
(** ** Properties of the date loop *)
(* ================================================================== *)

Section DateLoop.

Lemma dict_get_set_same (key : string) (v : json) (d : dict) :
  dict_get key (dict_set key v d) = Some v.
Proof.
  induction d as [|[k w] rest IH]; cbn.
  - now rewrite String.eqb_refl.
  - destruct (String.eqb k key) eqn:E; cbn; now rewrite E.
Qed.

Lemma dict_get_set_other (key key' : string) (v : json) (d : dict) :
  key' <> key -> dict_get key' (dict_set key v d) = dict_get key' d.
Proof.
  intros Hne. induction d as [|[k w] rest IH]; cbn.
  - apply not_eq_sym, String.eqb_neq in Hne. now rewrite Hne.
  - destruct (String.eqb_spec k key) as [->|]; cbn.
    + apply not_eq_sym, String.eqb_neq in Hne. now rewrite Hne.
    + now rewrite IH.
Qed.

Lemma dict_set_keys (key : string) (v w : json) (d : dict) :
  dict_get key d = Some w -> map fst (dict_set key v d) = map fst d.
Proof.
  induction d as [|[k u] rest IH]; cbn; [discriminate|].
  destruct (String.eqb k key); cbn; [reflexivity|].
  intros H. now rewrite IH.
Qed.

Lemma dict_set_same (key : string) (v : json) (d : dict) :
  dict_get key d = Some v -> dict_set key v d = d.
Proof.
  induction d as [|[k u] rest IH]; cbn; [discriminate|].
  destruct (String.eqb k key).
  - now intros [= ->].
  - intros H. now rewrite IH.
Qed.

Lemma fix_field_keys (key : string) (d : dict) :
  map fst (fix_field key d) = map fst d.
Proof.
  unfold fix_field. destruct (dict_get key d) as [v|] eqn:E; [|reflexivity].
  destruct (truthy v && is_str v)%bool; [|reflexivity].
  destruct v; try reflexivity. eapply dict_set_keys, E.
Qed.

Lemma fix_field_get (key k : string) (d : dict) :
  dict_get k (fix_field key d) =
  if String.eqb k key then option_map repair_value (dict_get k d)
  else dict_get k d.
Proof.
  unfold fix_field.
  destruct (String.eqb_spec k key) as [->|Hne].
  - destruct (dict_get key d) as [v|] eqn:E; [|now rewrite E].
    destruct v; cbn [truthy is_str andb]; rewrite ?andb_false_r, ?E;
      try reflexivity.
    cbn. destruct (String.eqb_spec s "") as [->|]; cbn.
    + now rewrite E.
    + now rewrite dict_get_set_same.
  - destruct (dict_get key d) as [v|]; [|reflexivity].
    destruct (truthy v && is_str v)%bool; [|reflexivity].
    destruct v; try reflexivity. now apply dict_get_set_other.
Qed.

Lemma fix_field_clean (key : string) (d : dict) :
  match dict_get key d with
  | Some (JStr s) => String.eqb (fix_date s) s
  | _ => true
  end = true ->
  fix_field key d = d.
Proof.
  unfold fix_field. destruct (dict_get key d) as [v|] eqn:E; [|reflexivity].
  destruct (truthy v && is_str v)%bool; [|reflexivity].
  destruct v; try reflexivity.
  intros H%String.eqb_eq. rewrite H. now apply dict_set_same.
Qed.

Lemma fix_command_repaired (d : dict) :
  repaired (JDict d) (JDict (fix_field "end" (fix_field "start" d))).
Proof.
  exists d, (fix_field "end" (fix_field "start" d)).
  split; [reflexivity|]. split; [reflexivity|]. split.
  - now rewrite !fix_field_keys.
  - intros key. rewrite !fix_field_get. unfold is_date_key.
    destruct (String.eqb_spec key "end") as [->|]; [reflexivity|].
    now rewrite orb_false_r.
Qed.

Lemma fix_command_clean (c : json) :
  is_dict c = true -> dates_clean c = true -> fix_command c = Return c.
Proof.
  destruct c; try discriminate. intros _. cbn [dates_clean forallb].
  rewrite andb_true_r. intros [Hs He]%andb_prop. cbn [fix_command].
  rewrite (fix_field_clean "start") by exact Hs.
  now rewrite (fix_field_clean "end") by exact He.
Qed.

Lemma fix_date_formats_objects (l : list json) :
  forallb is_dict l = true ->
  exists out, fix_date_formats l = Return out /\ Forall2 repaired l out.
Proof.
  induction l as [|c rest IH]; cbn [forallb fix_date_formats].
  - intros _. exists []. now split.
  - intros [Hc Hrest]%andb_prop. destruct (IH Hrest) as (out & E & F).
    destruct c; try discriminate. cbn [fix_command]. rewrite E.
    eexists. split; [reflexivity|]. constructor; [|exact F].
    apply fix_command_repaired.
Qed.

Lemma fix_date_formats_clean (l : list json) :
  forallb is_dict l = true -> forallb dates_clean l = true ->
  fix_date_formats l = Return l.
Proof.
  induction l as [|c rest IH]; cbn [forallb fix_date_formats]; [reflexivity|].
  intros [Hc Hrest]%andb_prop [Dc Drest]%andb_prop.
  now rewrite (fix_command_clean c Hc Dc), (IH Hrest Drest).
Qed.

(** The loop raises as soon as it meets a command that is not an object. *)
Lemma fix_date_formats_non_object (l : list json) :
  forallb is_dict l = false -> exists e, fix_date_formats l = Raise e.
Proof.
  induction l as [|c rest IH]; cbn [forallb fix_date_formats]; [discriminate|].
  destruct (is_dict c) eqn:Hc; cbn [andb].
  - intros H. destruct (IH H) as (e & E). rewrite E.
    destruct (fix_command c); eauto.
  - intros _. destruct c; try discriminate; cbn; eauto.
Qed.

Lemma fix_date_formats_length (l out : list json) :
  fix_date_formats l = Return out -> List.length out = List.length l.
Proof.
  revert out. induction l as [|c rest IH]; cbn [fix_date_formats]; intros out.
  - now intros [= <-].
  - destruct (fix_command c); [|discriminate].
    destruct (fix_date_formats rest) as [cs|]; [|discriminate].
    intros [= <-]. cbn. now rewrite (IH cs).
Qed.

End DateLoop.

(* ================================================================== *)
(** ** The Response Repair/Parser *)
(* ================================================================== *)

Lemma parse_commands_decoded (raw json_str : string) (arr : list json) :
  Regex.search_array raw = Some json_str ->
  loads json_str = Some (JList arr) ->
  parse_commands raw = arr.
Proof. intros Hs Hl. unfold parse_commands. now rewrite Hs, Hl. Qed.

Lemma parse_commands_fallback (raw : string) :
  Regex.search_array raw = None
  \/ (exists json_str,
        Regex.search_array raw = Some json_str
        /\ forall arr, loads json_str <> Some (JList arr)) ->
  parse_commands raw = [MESSAGE raw].
Proof.
  unfold parse_commands. intros [H | (js & H & Hl)]; rewrite H; [reflexivity|].
  destruct (loads js) as [[]|]; try reflexivity. now destruct (Hl items).
Qed.

(** C1 (as amended): for every raw assistant text the parser behaves in one
    of three ways.  It yields at least one command; or the bracketed span of
    the text decodes to the empty array and the command list is empty; or the
    span decodes to an array with an element that is not an object and the
    date loop raises.  Whenever no span is found, or the span does not decode
    to a list, the result is the single MESSAGE command wrapping the raw
    text. *)
Theorem parser_yields_command_unless_empty_array (raw : string) :
  ((exists c cs, response_parser raw = Return (c :: cs))
   \/ (response_parser raw = Return []
       /\ exists json_str,
            Regex.search_array raw = Some json_str
            /\ loads json_str = Some (JList []))
   \/ (exists e json_str arr,
         response_parser raw = Raise e
         /\ Regex.search_array raw = Some json_str
         /\ loads json_str = Some (JList arr)
         /\ forallb is_dict arr = false))
  /\ (Regex.search_array raw = None
      \/ (exists json_str,
            Regex.search_array raw = Some json_str
            /\ forall arr, loads json_str <> Some (JList arr)) ->
      response_parser raw = Return [MESSAGE raw]).
Proof.
  split.
  - unfold response_parser, parse_commands.
    destruct (Regex.search_array raw) as [js|] eqn:Hs;
      [|left; now eexists _, _].
    destruct (loads js) as [v|] eqn:Hl; [|left; now eexists _, _].
    destruct v; try (left; now eexists _, _).
    destruct items as [|c cs].
    + right; left. split; [reflexivity|]. now exists js.
    + destruct (forallb is_dict (c :: cs)) eqn:Hd.
      * left. destruct (fix_date_formats_objects _ Hd) as (out & E & F).
        rewrite E. inversion F; subst. now eexists _, _.
      * right; right.
        destruct (fix_date_formats_non_object _ Hd) as (e & E).
        exists e, js, (c :: cs). now rewrite E.
  - intros H. unfold response_parser.
    now rewrite (parse_commands_fallback raw H).
Qed.

(** C1 (as stated) fails: the reply [[]] is a well-formed array with nothing
    in it, and the handler answers with an empty command list. *)
Lemma empty_array_gives_no_command :
  response_parser "[]" = Return []
  /\ ai (Demo.openai_env (Return "[]")) (Demo.request (Some "hello")) Demo.empty_db
     = (Return (mkResponse (jsonify_commands []) 200),
        mkDatabase []
          [ Conversation.mk 1%Z 1%Z "user" "hello" 1000%Z;
            Conversation.mk 2%Z 1%Z "assistant" "[]" 1003%Z ],
        [ Commit (Conversation.mk 1%Z 1%Z "user" "hello" 1000%Z);
          OpenAICall "sk-demo"
            (build_messages (Demo.openai_env (Return "[]"))
               (Demo.request (Some "hello"))
               (mkDatabase [] [Conversation.mk 1%Z 1%Z "user" "hello" 1000%Z]));
          Commit (Conversation.mk 2%Z 1%Z "assistant" "[]" 1003%Z) ]).
Proof. split; vm_compute; reflexivity. Qed.

(** C2 (as amended): when the stretch of the raw text from its leftmost
    opening bracket to its rightmost closing bracket is a well-formed JSON
    array, the extraction step yields exactly that decoded array; when its
    elements are all objects, the parser's output is that array with the
    string-valued [start] and [end] of each command date-normalised and
    everything else as decoded, and it equals the decoded array itself when
    the normalisation has nothing to change. *)
Theorem parser_returns_bracketed_array (pre mid post : string) (arr : list json) :
  has_char "[" pre = false ->
  has_char "]" post = false ->
  loads ("[" ++ mid ++ "]") = Some (JList arr) ->
  parse_commands (pre ++ "[" ++ mid ++ "]" ++ post) = arr
  /\ (forallb is_dict arr = true ->
      (exists out,
          response_parser (pre ++ "[" ++ mid ++ "]" ++ post) = Return out
          /\ Forall2 repaired arr out)
      /\ (forallb dates_clean arr = true ->
          response_parser (pre ++ "[" ++ mid ++ "]" ++ post) = Return arr)).
Proof.
  intros Hpre Hpost Hl. unfold response_parser.
  rewrite (parse_commands_decoded _ _ arr (search_array_span pre mid post Hpre Hpost) Hl).
  split; [reflexivity|]. intros Hd. split.
  - now apply fix_date_formats_objects.
  - intros Hc. now apply fix_date_formats_clean.
Qed.

Lemma parser_returns_bracketed_array_witness :
  parse_commands
    ("Sure: " ++ "[" ++ sq "{'command':'ADD','start':'2025-07-31 14:00:00','title':'Meeting'}" ++ "]" ++ " Done.")
  = [JDict [("command", JStr "ADD"); ("start", JStr "2025-07-31 14:00:00");
            ("title", JStr "Meeting")]]
  /\ response_parser
       ("" ++ "[" ++ sq "{'command':'MESSAGE','text':'Scheduled.'}" ++ "]" ++ "")
     = Return [MESSAGE "Scheduled."].
Proof.
  split.
  - apply (parser_returns_bracketed_array "Sure: "
             (sq "{'command':'ADD','start':'2025-07-31 14:00:00','title':'Meeting'}")
             " Done."); reflexivity.
  - apply (parser_returns_bracketed_array ""
             (sq "{'command':'MESSAGE','text':'Scheduled.'}") ""
             [MESSAGE "Scheduled."]); reflexivity.
Defined.

(** C2 (as stated) fails: a reply that holds a well-formed array followed by
    more brackets is wrapped whole into a MESSAGE, by the extraction step
    already.  Besides, a decoded date with a space comes out of the parser
    normalised, not as decoded, and an array of numbers gives no output at
    all. *)
Lemma array_in_text_not_returned :
  (contains_array (sq "[{'command':'MESSAGE','text':'ok'}] [end]") [MESSAGE "ok"]
   /\ parse_commands (sq "[{'command':'MESSAGE','text':'ok'}] [end]")
      = [MESSAGE (sq "[{'command':'MESSAGE','text':'ok'}] [end]")]
   /\ response_parser (sq "[{'command':'MESSAGE','text':'ok'}] [end]")
      = Return [MESSAGE (sq "[{'command':'MESSAGE','text':'ok'}] [end]")]
   /\ response_parser (sq "[{'command':'MESSAGE','text':'ok'}] [end]")
      <> Return [MESSAGE "ok"])
  /\ (contains_array (sq "[{'start':'2025-07-31 14:00:00'}]")
        [JDict [("start", JStr "2025-07-31 14:00:00")]]
      /\ response_parser (sq "[{'start':'2025-07-31 14:00:00'}]")
         = Return [JDict [("start", JStr "2025-07-31T14:00:00")]]
      /\ response_parser (sq "[{'start':'2025-07-31 14:00:00'}]")
         <> Return [JDict [("start", JStr "2025-07-31 14:00:00")]])
  /\ (contains_array "[1, 2]" [JInt 1; JInt 2]
      /\ forall out, response_parser "[1, 2]" <> Return out).
Proof.
  repeat split.
  - exists "", (sq "[{'command':'MESSAGE','text':'ok'}]"), " [end]".
    split; reflexivity.
  - vm_compute. discriminate.
  - exists "", (sq "[{'start':'2025-07-31 14:00:00'}]"), "".
    split; reflexivity.
  - vm_compute. discriminate.
  - exists "", "[1, 2]", "". split; reflexivity.
  - intros out. vm_compute. discriminate.
Qed.

(** The scheduling scenario: the dates come out with the separator, the
    title and the MESSAGE command as decoded. *)
Example meeting_scenario :
  response_parser Demo.meeting_reply
  = Return
      [ JDict [("command", JStr "ADD"); ("start", JStr "2025-07-31T14:00:00");
               ("end", JStr "2025-07-31T15:00:00"); ("title", JStr "Meeting")];
        MESSAGE "Scheduled." ].
Proof. reflexivity. Qed.

(** C4: a raw assistant text with no opening bracket followed by a closing
    one is turned into exactly one MESSAGE command whose text is the raw
    input, character for character. *)
Theorem no_brackets_single_message (raw : string) :
  ~ (exists a b c, raw = a ++ "[" ++ b ++ "]" ++ c) ->
  response_parser raw
  = Return [JDict [("command", JStr "MESSAGE"); ("text", JStr raw)]].
Proof.
  intros H. unfold response_parser, parse_commands.
  now rewrite (search_array_None raw H).
Qed.

Lemma no_brackets_single_message_witness :
  response_parser "Sure, I'll do that!"
  = Return [JDict [("command", JStr "MESSAGE");
                   ("text", JStr "Sure, I'll do that!")]]
  /\ response_parser "] no array [ here"
     = Return [JDict [("command", JStr "MESSAGE");
                      ("text", JStr "] no array [ here")]].
Proof.
  split.
  - apply (no_brackets_single_message "Sure, I'll do that!").
    apply not_bracketed_without_open. reflexivity.
  - apply (no_brackets_single_message "] no array [ here").
    intros (a & b & c & H).
    assert (Hs : Regex.search_array "] no array [ here" = None) by reflexivity.
    rewrite H in Hs.
    exact (search_array_bracketed a b c Hs).
Defined.

(* ================================================================== *)
(** ** Runs of the handler *)
(* ================================================================== *)

Section Runs.

Variable env : Env.

(** The provider step returns a string, leaves the database alone and makes
    at most one network call. *)
Lemma call_provider_returns (messages : list Message.t) (user_input : string)
    (db : Database) :
  exists text tr,
    call_provider env messages user_input db = (Return text, db, tr)
    /\ (tr = [] \/ exists ev, tr = [ev] /\ is_provider_call ev = true).
Proof.
  unfold call_provider.
  destruct (String.eqb (AI_PROVIDER env) "openai").
  - destruct (getenv env "OPENAI_API_KEY") as [k|];
      [|eexists _, _; split; [reflexivity | now left]].
    destruct (key_missing (Some k) openai_placeholder);
      [eexists _, _; split; [reflexivity | now left]|].
    unfold try_except, bind, openai_call, ret.
    destruct (openai_chat_completions env k messages);
      eexists _, _; (split; [reflexivity|]); right; eexists; split; reflexivity.
  - destruct (String.eqb (AI_PROVIDER env) "cohere");
      [|eexists _, _; split; [reflexivity | now left]].
    destruct (getenv env "COHERE_API_KEY") as [k|];
      [|eexists _, _; split; [reflexivity | now left]].
    destruct (key_missing (Some k) cohere_placeholder);
      [eexists _, _; split; [reflexivity | now left]|].
    unfold try_except, bind, cohere_call, ret.
    destruct (cohere_generate env k (full_prompt messages user_input));
      eexists _, _; (split; [reflexivity|]); right; eexists; split; reflexivity.
Qed.

Lemma ai_rejects (req : Request.t) (db : Database) :
  Request.input req = None \/ Request.input req = Some "" ->
  ai env req db = (Return bad_request, db, []).
Proof.
  intros [H|H]; unfold ai, try_except; rewrite H; reflexivity.
Qed.

Lemma ai_enters (req : Request.t) (db : Database) (user_input : string) :
  Request.input req = Some user_input -> user_input <> "" ->
  ai env req db =
  try_except (ai_body env req user_input) (fun _ => ret server_error) db.
Proof.
  intros H Hne. unfold ai, try_except. rewrite H.
  apply String.eqb_neq in Hne. now rewrite Hne.
Qed.

(** An unknown time zone ends the run after the user's turn is stored. *)
Lemma ai_unknown_timezone (req : Request.t) (db : Database) (user_input : string) :
  Request.input req = Some user_input -> user_input <> "" ->
  timezone_known env req = false ->
  ai env req db =
  (Return server_error,
   insert_conversation db (user_turn req db user_input),
   [Commit (user_turn req db user_input)]).
Proof.
  intros H Hne Htz. rewrite (ai_enters _ _ _ H Hne).
  unfold try_except, ai_body, ai_turn, bind, add_conversation, pytz_timezone.
  unfold timezone_known in Htz. rewrite Htz. reflexivity.
Qed.

(** A whole run, given what the provider step evaluates to. *)
Lemma ai_run (req : Request.t) (db : Database) (user_input assistant_msg : string)
    (tr : list effect) :
  Request.input req = Some user_input -> user_input <> "" ->
  timezone_known env req = true ->
  call_provider env
    (build_messages env req (insert_conversation db (user_turn req db user_input)))
    user_input (insert_conversation db (user_turn req db user_input))
  = (Return assistant_msg,
     insert_conversation db (user_turn req db user_input), tr) ->
  ai env req db =
  (Return (respond assistant_msg),
   insert_conversation
     (insert_conversation db (user_turn req db user_input))
     (assistant_turn req (insert_conversation db (user_turn req db user_input))
        assistant_msg),
   (Commit (user_turn req db user_input) :: tr
    ++ [Commit (assistant_turn req
                  (insert_conversation db (user_turn req db user_input))
                  assistant_msg)])%list).
Proof.
  intros H Hne Htz Hcall. rewrite (ai_enters _ _ _ H Hne).
  unfold try_except, ai_body, ai_turn, bind, add_conversation, pytz_timezone,
    get_db, lift.
  unfold timezone_known in Htz. rewrite Htz. cbn [ret].
  fold (user_turn req db user_input). rewrite Hcall. unfold respond, ret.
  destruct (response_parser assistant_msg); cbn; rewrite ?app_nil_r; reflexivity.
Qed.

(** An unknown time zone ends the run after the turn is stored. *)
Lemma ai_turn_unknown_timezone (req : Request.t) (db : Database)
    (content shown : string) :
  timezone_known env req = false ->
  try_except (ai_turn env req content shown) (fun _ => ret server_error) db
  = (Return server_error,
     insert_conversation db (user_turn req db content),
     [Commit (user_turn req db content)]).
Proof.
  intros Htz.
  unfold try_except, ai_turn, bind, add_conversation, pytz_timezone.
  unfold timezone_known in Htz. rewrite Htz. reflexivity.
Qed.

(** A whole run of the body, given what the provider step evaluates to. *)
Lemma ai_turn_run (req : Request.t) (db : Database)
    (content shown assistant_msg : string) (tr : list effect) :
  timezone_known env req = true ->
  call_provider env
    (build_messages env req (insert_conversation db (user_turn req db content)))
    shown (insert_conversation db (user_turn req db content))
  = (Return assistant_msg, insert_conversation db (user_turn req db content), tr) ->
  try_except (ai_turn env req content shown) (fun _ => ret server_error) db =
  (Return (respond assistant_msg),
   insert_conversation
     (insert_conversation db (user_turn req db content))
     (assistant_turn req (insert_conversation db (user_turn req db content))
        assistant_msg),
   (Commit (user_turn req db content) :: tr
    ++ [Commit (assistant_turn req
                  (insert_conversation db (user_turn req db content))
                  assistant_msg)])%list).
Proof.
  intros Htz Hcall.
  unfold try_except, ai_turn, bind, add_conversation, pytz_timezone, get_db, lift.
  unfold timezone_known in Htz. rewrite Htz. cbn [ret].
  fold (user_turn req db content). rewrite Hcall. unfold respond, ret.
  destruct (response_parser assistant_msg); cbn; rewrite ?app_nil_r; reflexivity.
Qed.

Variable rt : Binding.

(** An object without a usable [input] is turned away. *)
Lemma ai_request_no_input (d : dict) (req : Request.t) (db : Database) :
  match dict_get "input" d with
  | Some v => truthy v = false
  | None => True
  end ->
  ai_request env rt (Return (JDict d)) req db = (Return bad_request, db, []).
Proof.
  intros H. unfold ai_request, try_except, bind, lift, get_input.
  destruct (dict_get "input" d) as [v|]; [|reflexivity]. now rewrite H.
Qed.

(** A body that is no object, or does not decode, ends in the outer
    [except]. *)
Lemma ai_request_no_object (request_json : outcome json) (req : Request.t)
    (db : Database) :
  match request_json with
  | Return (JDict _) => False
  | _ => True
  end ->
  ai_request env rt request_json req db = (Return server_error, db, []).
Proof.
  intros H. unfold ai_request, try_except, bind, lift, get_input.
  destruct request_json as [[]|]; try reflexivity. contradiction.
Qed.

Lemma ai_request_string (d : dict) (s : string) (req : Request.t) (db : Database) :
  dict_get "input" d = Some (JStr s) -> s <> "" ->
  ai_request env rt (Return (JDict d)) req db
  = try_except (ai_turn env req s s) (fun _ => ret server_error) db.
Proof.
  intros H Hne. unfold ai_request, try_except, bind, lift, get_input.
  rewrite H. cbn [truthy]. apply String.eqb_neq in Hne. rewrite Hne. cbn [negb].
  destruct (ai_turn env req s s db) as [[[r|e] db1] t1]; reflexivity.
Qed.

(** The three ways a run can go. *)
Lemma ai_request_cases (request_json : outcome json) (req : Request.t)
    (db : Database) :
  ai_request env rt request_json req db = (Return bad_request, db, [])
  \/ ai_request env rt request_json req db = (Return server_error, db, [])
  \/ exists content shown,
       ai_request env rt request_json req db
       = try_except (ai_turn env req content shown) (fun _ => ret server_error) db.
Proof.
  destruct request_json as [body|e];
    [|right; left; now apply ai_request_no_object].
  destruct body as [| | | | |l|d];
    try (right; left; now apply ai_request_no_object).
  destruct (dict_get "input" d) as [v|] eqn:Hget;
    [|left; apply ai_request_no_input; now rewrite Hget].
  destruct (truthy v) eqn:Hv;
    [|left; apply ai_request_no_input; now rewrite Hget].
  assert (Hother : is_str v = false ->
            ai_request env rt (Return (JDict d)) req db
            = match bind_text rt v with
              | Return content =>
                  try_except (ai_turn env req content (format_value rt v))
                    (fun _ => ret server_error) db
              | Raise _ => (Return server_error, db, [])
              end).
  { intros Hs. unfold ai_request, try_except, bind, lift, get_input.
    rewrite Hget, Hv. cbn [negb].
    destruct v; try discriminate;
      (destruct (bind_text rt _) as [content|e]; [|reflexivity];
       destruct (ai_turn env req content _ db) as [[[r|e] db1] t1]; reflexivity). }
  destruct (is_str v) eqn:Hs.
  - destruct v; try discriminate. right; right. exists s, s.
    apply ai_request_string; [exact Hget|].
    cbn in Hv. intros ->. discriminate.
  - rewrite (Hother eq_refl).
    destruct (bind_text rt v) as [content|e]; [|now right; left].
    right; right. now exists content, (format_value rt v).
Qed.

(** On the bodies [ai] is given for, the two agree. *)
Lemma ai_request_agrees (d : dict) (req : Request.t) (db : Database) :
  match dict_get "input" d with
  | None | Some JNull => Request.input req = None
  | Some (JStr s) => Request.input req = Some s
  | Some _ => False
  end ->
  ai_request env rt (Return (JDict d)) req db = ai env req db.
Proof.
  intros H. destruct (dict_get "input" d) as [v|] eqn:Hget.
  - destruct v; try contradiction.
    + rewrite (ai_rejects req db (or_introl H)).
      apply ai_request_no_input. now rewrite Hget.
    + destruct (String.eqb_spec s "") as [->|Hne].
      * rewrite (ai_rejects req db (or_intror H)).
        apply ai_request_no_input. now rewrite Hget.
      * rewrite (ai_enters req db s H Hne).
        now apply ai_request_string.
  - rewrite (ai_rejects req db (or_introl H)).
    apply ai_request_no_input. now rewrite Hget.
Qed.

Lemma no_provider_call_app (t1 t2 : list effect) :
  no_provider_call (t1 ++ t2) = andb (no_provider_call t1) (no_provider_call t2).
Proof. apply forallb_app. Qed.

End Runs.

(* ================================================================== *)
(** ** The provider step *)
(* ================================================================== *)

Lemma call_provider_not_configured (env : Env) (messages : list Message.t)
    (user_input not_configured : string) (db : Database) :
  (AI_PROVIDER env = "openai"
   /\ key_missing (getenv env "OPENAI_API_KEY") openai_placeholder = true
   /\ not_configured = openai_not_configured)
  \/ (AI_PROVIDER env = "cohere"
      /\ key_missing (getenv env "COHERE_API_KEY") cohere_placeholder = true
      /\ not_configured = cohere_not_configured) ->
  call_provider env messages user_input db = (Return not_configured, db, []).
Proof.
  unfold call_provider. intros [(Hp & Hk & ->) | (Hp & Hk & ->)]; rewrite Hp.
  - change (String.eqb "openai" "openai") with true. cbv iota.
    destruct (getenv env "OPENAI_API_KEY"); [|reflexivity]. now rewrite Hk.
  - change (String.eqb "cohere" "openai") with false.
    change (String.eqb "cohere" "cohere") with true. cbv iota.
    destruct (getenv env "COHERE_API_KEY"); [|reflexivity]. now rewrite Hk.
Qed.

Lemma key_absent (api_key : option string) (placeholder : string) :
  In api_key [None; Some ""; Some placeholder] ->
  key_missing api_key placeholder = true.
Proof.
  intros [<- | [<- | [<- | []]]]; [reflexivity | reflexivity |].
  cbn. now rewrite String.eqb_refl, orb_true_r.
Qed.

Lemma key_present (api_key placeholder : string) :
  api_key <> "" -> api_key <> placeholder ->
  key_missing (Some api_key) placeholder = false.
Proof.
  intros H1 H2. apply String.eqb_neq in H1, H2. cbn. now rewrite H1, H2.
Qed.

(** Writes the rows of a run out: ids count on from the length of the
    table. *)
Ltac spell_out_rows :=
  unfold assistant_turn, user_turn, new_conversation, insert_conversation;
  cbn [events conversations fst snd];
  rewrite ?length_app; cbn [List.length];
  rewrite <- ?app_assoc; cbn [app];
  repeat f_equal; lia.

(** C5 (as stated) fails: with the placeholder key in place, a request of a
    user whose stored time zone is unknown gets no message; the run stores
    the user's turn and answers 500. *)
Lemma missing_credential_without_message :
  AI_PROVIDER Demo.placeholder_env = "cohere"
  /\ getenv Demo.placeholder_env "COHERE_API_KEY" = Some "your-cohere-api-key-here"
  /\ ai_request Demo.placeholder_env Demo.binding (Demo.saying "schedule a meeting")
       (Demo.request_of Demo.carol) Demo.empty_db
     = (Return (mkResponse (JDict [("error", JStr "Failed to process request")]) 500),
        mkDatabase [] [Conversation.mk 1%Z 3%Z "user" "schedule a meeting" 1000%Z],
        [Commit (Conversation.mk 1%Z 3%Z "user" "schedule a meeting" 1000%Z)]).
Proof. repeat split. Qed.

(** C5 (as amended): when the credential of the active provider is absent,
    empty or the placeholder, no run of the handler makes a network call:
    its trace holds commits only.  A run on a non-empty string input of a
    user whose time zone is known stores the fixed not-configured message
    of the provider as the assistant's turn and answers 200 with it as a
    single MESSAGE command. *)
Theorem missing_credential_no_network_call (env : Env) (rt : Binding)
    (request_json : outcome json) (req : Request.t) (db : Database)
    (name : string) :
  (name = "OpenAI" /\ AI_PROVIDER env = "openai"
   /\ In (getenv env "OPENAI_API_KEY")
         [None; Some ""; Some "your-openai-api-key-here"])
  \/ (name = "Cohere" /\ AI_PROVIDER env = "cohere"
      /\ In (getenv env "COHERE_API_KEY")
            [None; Some ""; Some "your-cohere-api-key-here"]) ->
  (exists rows, snd (ai_request env rt request_json req db) = map Commit rows)
  /\ forall d user_input,
       request_json = Return (JDict d) ->
       dict_get "input" d = Some (JStr user_input) -> user_input <> "" ->
       known_timezone env (timezone_or_utc (Request.current_user req)) = true ->
       let message :=
         "I'm sorry, but the " ++ name
         ++ " API key is not configured. Please set up your " ++ name
         ++ " API key in the .env file." in
       let asked :=
         Conversation.mk (Z.of_nat (List.length (conversations db)) + 1)
           (User.id (Request.current_user req)) "user" user_input
           (Request.utcnow_user_turn req) in
       let answered :=
         Conversation.mk (Z.of_nat (List.length (conversations db)) + 2)
           (User.id (Request.current_user req)) "assistant" message
           (Request.utcnow_assistant_turn req) in
       ai_request env rt request_json req db
       = (Return (mkResponse
                    (JDict [("commands",
                             JList [JDict [("command", JStr "MESSAGE");
                                           ("text", JStr message)]])])
                    200),
          mkDatabase (events db) (conversations db ++ [asked; answered])%list,
          [Commit asked; Commit answered]).
Proof.
  intros Hcfg.
  assert (Hcall : forall messages u d,
             call_provider env messages u d
             = (Return ("I'm sorry, but the " ++ name
                        ++ " API key is not configured. Please set up your "
                        ++ name ++ " API key in the .env file."), d, [])).
  { intros messages u d. apply call_provider_not_configured.
    destruct Hcfg as [(-> & Hp & Hk) | (-> & Hp & Hk)]; [left | right];
      (split; [exact Hp|]); (split; [|reflexivity]);
      apply key_absent; exact Hk. }
  assert (Hturn : forall content shown,
             timezone_known env req = true ->
             try_except (ai_turn env req content shown) (fun _ => ret server_error) db
             = (Return (respond ("I'm sorry, but the " ++ name
                                 ++ " API key is not configured. Please set up your "
                                 ++ name ++ " API key in the .env file.")),
                insert_conversation
                  (insert_conversation db (user_turn req db content))
                  (assistant_turn req (insert_conversation db (user_turn req db content))
                     ("I'm sorry, but the " ++ name
                      ++ " API key is not configured. Please set up your "
                      ++ name ++ " API key in the .env file.")),
                [Commit (user_turn req db content);
                 Commit (assistant_turn req
                           (insert_conversation db (user_turn req db content))
                           ("I'm sorry, but the " ++ name
                            ++ " API key is not configured. Please set up your "
                            ++ name ++ " API key in the .env file."))])).
  { intros content shown Htz.
    exact (ai_turn_run env req db content shown _ [] Htz (Hcall _ _ _)). }
  split.
  - destruct (ai_request_cases env rt request_json req db)
      as [-> | [-> | (content & shown & ->)]];
      [now exists [] | now exists [] |].
    destruct (timezone_known env req) eqn:Htz.
    + rewrite (Hturn content shown eq_refl). eexists [_; _]. reflexivity.
    + rewrite (ai_turn_unknown_timezone env req db content shown Htz).
      eexists [_]. reflexivity.
  - intros d u -> Hget Hne Htz. cbv zeta.
    rewrite (ai_request_string env rt d u req db Hget Hne), (Hturn u u Htz).
    replace (respond ("I'm sorry, but the " ++ name
                      ++ " API key is not configured. Please set up your "
                      ++ name ++ " API key in the .env file."))
      with (mkResponse
              (JDict [("commands",
                       JList [JDict [("command", JStr "MESSAGE");
                                     ("text",
                                      JStr ("I'm sorry, but the " ++ name
                                            ++ " API key is not configured. Please set up your "
                                            ++ name ++ " API key in the .env file."))]])])
              200)
      by (destruct Hcfg as [(-> & _) | (-> & _)]; reflexivity).
    spell_out_rows.
Qed.

Lemma missing_credential_no_network_call_witness :
  ai_request Demo.placeholder_env Demo.binding (Demo.saying "schedule a meeting")
    (Demo.request None) Demo.empty_db
  = (Return (mkResponse
               (JDict [("commands",
                        JList [JDict [("command", JStr "MESSAGE");
                                      ("text", JStr "I'm sorry, but the Cohere API key is not configured. Please set up your Cohere API key in the .env file.")]])])
               200),
     mkDatabase []
       [ Conversation.mk 1%Z 1%Z "user" "schedule a meeting" 1000%Z;
         Conversation.mk 2%Z 1%Z "assistant" "I'm sorry, but the Cohere API key is not configured. Please set up your Cohere API key in the .env file." 1003%Z ],
     [ Commit (Conversation.mk 1%Z 1%Z "user" "schedule a meeting" 1000%Z);
       Commit (Conversation.mk 2%Z 1%Z "assistant" "I'm sorry, but the Cohere API key is not configured. Please set up your Cohere API key in the .env file." 1003%Z) ])
  /\ ai_request Demo.keyless_env Demo.binding (Demo.saying "schedule a meeting")
       (Demo.request None) Demo.empty_db
     = (Return (mkResponse
                  (JDict [("commands",
                           JList [JDict [("command", JStr "MESSAGE");
                                         ("text", JStr "I'm sorry, but the OpenAI API key is not configured. Please set up your OpenAI API key in the .env file.")]])])
                  200),
        mkDatabase []
          [ Conversation.mk 1%Z 1%Z "user" "schedule a meeting" 1000%Z;
            Conversation.mk 2%Z 1%Z "assistant" "I'm sorry, but the OpenAI API key is not configured. Please set up your OpenAI API key in the .env file." 1003%Z ],
        [ Commit (Conversation.mk 1%Z 1%Z "user" "schedule a meeting" 1000%Z);
          Commit (Conversation.mk 2%Z 1%Z "assistant" "I'm sorry, but the OpenAI API key is not configured. Please set up your OpenAI API key in the .env file." 1003%Z) ])
  /\ exists rows,
       snd (ai_request Demo.placeholder_env Demo.binding
              (Demo.saying "schedule a meeting") (Demo.request_of Demo.carol)
              Demo.empty_db)
       = map Commit rows.
Proof.
  split; [|split].
  - apply (proj2 (missing_credential_no_network_call Demo.placeholder_env
                    Demo.binding (Demo.saying "schedule a meeting")
                    (Demo.request None) Demo.empty_db "Cohere"
                    (or_intror (conj eq_refl
                                  (conj eq_refl (or_intror (or_intror (or_introl eq_refl)))))))
             [("input", JStr "schedule a meeting")] "schedule a meeting"
             eq_refl eq_refl ltac:(discriminate) eq_refl).
  - apply (proj2 (missing_credential_no_network_call Demo.keyless_env
                    Demo.binding (Demo.saying "schedule a meeting")
                    (Demo.request None) Demo.empty_db "OpenAI"
                    (or_introl (conj eq_refl (conj eq_refl (or_introl eq_refl)))))
             [("input", JStr "schedule a meeting")] "schedule a meeting"
             eq_refl eq_refl ltac:(discriminate) eq_refl).
  - apply (proj1 (missing_credential_no_network_call Demo.placeholder_env
                    Demo.binding (Demo.saying "schedule a meeting")
                    (Demo.request_of Demo.carol) Demo.empty_db "Cohere"
                    (or_intror (conj eq_refl
                                  (conj eq_refl (or_intror (or_intror (or_introl eq_refl)))))))).
Defined.

(** C6: the provider step always evaluates to a string and never raises;
    when the network call raises, that string is the fixed apology of the
    provider followed by the text of the exception. *)
Theorem provider_step_never_raises (env : Env) (messages : list Message.t)
    (user_input : string) (db : Database) :
  (exists text tr,
      call_provider env messages user_input db = (Return text, db, tr))
  /\ (forall api_key e,
        AI_PROVIDER env = "openai" ->
        getenv env "OPENAI_API_KEY" = Some api_key ->
        api_key <> "" -> api_key <> "your-openai-api-key-here" ->
        openai_chat_completions env api_key messages = Raise e ->
        call_provider env messages user_input db
        = (Return ("I'm sorry, but there was an error with the OpenAI service: "
                   ++ str e),
           db, [OpenAICall api_key messages]))
  /\ (forall api_key e,
        AI_PROVIDER env = "cohere" ->
        getenv env "COHERE_API_KEY" = Some api_key ->
        api_key <> "" -> api_key <> "your-cohere-api-key-here" ->
        cohere_generate env api_key (full_prompt messages user_input) = Raise e ->
        call_provider env messages user_input db
        = (Return ("I'm sorry, but there was an error with the Cohere service: "
                   ++ str e),
           db, [CohereCall api_key (full_prompt messages user_input)])).
Proof.
  split; [|split].
  - destruct (call_provider_returns env messages user_input db)
      as (text & tr & H & _). now exists text, tr.
  - intros k e Hp Hk H1 H2 He. unfold call_provider.
    rewrite Hp, Hk, (key_present k openai_placeholder H1 H2).
    change (String.eqb "openai" "openai") with true.
    cbv iota. unfold try_except, bind, openai_call.
    rewrite He. reflexivity.
  - intros k e Hp Hk H1 H2 He. unfold call_provider.
    rewrite Hp, Hk, (key_present k cohere_placeholder H1 H2).
    change (String.eqb "cohere" "openai") with false.
    change (String.eqb "cohere" "cohere") with true.
    cbv iota. unfold try_except, bind, cohere_call.
    rewrite He. reflexivity.
Qed.

Lemma provider_step_never_raises_witness :
  call_provider (Demo.openai_env Demo.unreachable) [] "hello" Demo.empty_db
  = (Return "I'm sorry, but there was an error with the OpenAI service: Connection refused",
     Demo.empty_db, [OpenAICall "sk-demo" []])
  /\ call_provider (Demo.cohere_env Demo.unreachable) [] "hello" Demo.empty_db
     = (Return "I'm sorry, but there was an error with the Cohere service: Connection refused",
        Demo.empty_db,
        [CohereCall "co-demo"
           (get_ai_prompt ++ nl ++ nl ++ "User: hello" ++ nl
            ++ "Assistant: Respond with ONLY valid JSON array. For scheduling requests, ALWAYS include an ADD command.")]).
Proof.
  split.
  - apply (proj1 (proj2 (provider_step_never_raises
                           (Demo.openai_env Demo.unreachable) [] "hello"
                           Demo.empty_db))
             "sk-demo" (Exception "ConnectionError" "Connection refused"));
      (reflexivity || discriminate).
  - apply (proj2 (proj2 (provider_step_never_raises
                           (Demo.cohere_env Demo.unreachable) [] "hello"
                           Demo.empty_db))
             "co-demo" (Exception "ConnectionError" "Connection refused"));
      (reflexivity || discriminate).
Defined.

(* ================================================================== *)
(** ** Input check and ordering of the effects *)
(* ================================================================== *)

(** Whatever comes after, the run of the body starts by storing the turn. *)
Lemma ai_turn_first_commit (env : Env) (req : Request.t) (db : Database)
    (content shown : string) :
  exists r db' rest,
    try_except (ai_turn env req content shown) (fun _ => ret server_error) db
    = (r, db', Commit (user_turn req db content) :: rest).
Proof.
  destruct (timezone_known env req) eqn:Htz.
  - destruct (call_provider_returns env
                (build_messages env req
                   (insert_conversation db (user_turn req db content)))
                shown (insert_conversation db (user_turn req db content)))
      as (msg & tr & Hcall & _).
    rewrite (ai_turn_run env req db content shown msg tr Htz Hcall).
    now eexists _, _, _.
  - rewrite (ai_turn_unknown_timezone env req db content shown Htz).
    now eexists _, _, _.
Qed.

(** C8 (as stated) fails: a request whose body is the JSON array [[]] or
    [null], or does not decode, carries no input and is answered 500, not
    with a client error. *)
Lemma missing_input_server_error :
  ai_request (Demo.openai_env (Return "[]")) Demo.binding (Return (JList []))
    (Demo.request None) Demo.busy_db
  = (Return (mkResponse (JDict [("error", JStr "Failed to process request")]) 500),
     Demo.busy_db, [])
  /\ ai_request (Demo.openai_env (Return "[]")) Demo.binding (Return JNull)
       (Demo.request None) Demo.busy_db
     = (Return (mkResponse (JDict [("error", JStr "Failed to process request")]) 500),
        Demo.busy_db, [])
  /\ ai_request (Demo.openai_env (Return "[]")) Demo.binding
       (Raise (Exception "UnsupportedMediaType"
                 "415 Unsupported Media Type: Did not attempt to load JSON data because the request Content-Type was not 'application/json'."))
       (Demo.request None) Demo.busy_db
     = (Return (mkResponse (JDict [("error", JStr "Failed to process request")]) 500),
        Demo.busy_db, []).
Proof. repeat split. Qed.

(** C8 (as amended): a request whose body is an object with nothing, null
    or another value that counts as false under [input] is answered with
    the client error 400; a request whose body is not an object, or does not
    decode, is answered with the server error 500.  In both cases nothing
    else happens: the database is as before, no turn is committed and no
    provider is called.  A non-empty string under [input] is not turned
    away: the run starts by committing the user's turn. *)
Theorem empty_input_rejected_without_effect (env : Env) (rt : Binding)
    (request_json : outcome json) (req : Request.t) (db : Database) :
  (forall d,
      request_json = Return (JDict d) ->
      In (dict_get "input" d)
         [None; Some JNull; Some (JStr ""); Some (JInt 0); Some (JBool false);
          Some (JList []); Some (JDict [])] ->
      ai_request env rt request_json req db
      = (Return (mkResponse (JDict [("error", JStr "No input provided")]) 400),
         db, []))
  /\ ((forall d, request_json <> Return (JDict d)) ->
      ai_request env rt request_json req db
      = (Return (mkResponse (JDict [("error", JStr "Failed to process request")]) 500),
         db, []))
  /\ (forall d user_input,
        request_json = Return (JDict d) ->
        dict_get "input" d = Some (JStr user_input) -> user_input <> "" ->
        exists r db' rest,
          ai_request env rt request_json req db
          = (r, db',
             Commit (Conversation.mk (Z.of_nat (List.length (conversations db)) + 1)
                       (User.id (Request.current_user req)) "user" user_input
                       (Request.utcnow_user_turn req)) :: rest)).
Proof.
  split; [|split].
  - intros d -> Hin. unfold ai_request, try_except, bind, lift, get_input.
    destruct Hin as [<- | [<- | [<- | [<- | [<- | [<- | [<- | []]]]]]]];
      reflexivity.
  - intros Hno. unfold ai_request, try_except, bind, lift, get_input.
    destruct request_json as [[]|]; try reflexivity. now destruct (Hno items).
  - intros d u -> Hget Hne.
    assert (Hrun : ai_request env rt (Return (JDict d)) req db
                   = try_except (ai_turn env req u u) (fun _ => ret server_error) db).
    { unfold ai_request, try_except, bind, lift, get_input.
      rewrite Hget. cbn [truthy]. apply String.eqb_neq in Hne. rewrite Hne.
      cbn [negb]. destruct (ai_turn env req u u db) as [[[r|e] db1] t1]; reflexivity. }
    rewrite Hrun.
    destruct (ai_turn_first_commit env req db u u) as (r & db' & rest & ->).
    exists r, db', rest. spell_out_rows.
Qed.

Lemma empty_input_rejected_without_effect_witness :
  ai_request (Demo.openai_env (Return "[]")) Demo.binding (Demo.saying "")
    (Demo.request None) Demo.busy_db
  = (Return (mkResponse (JDict [("error", JStr "No input provided")]) 400),
     Demo.busy_db, [])
  /\ ai_request (Demo.openai_env (Return "[]")) Demo.binding
       (Return (JDict [("text", JStr "hello")])) (Demo.request None) Demo.busy_db
     = (Return (mkResponse (JDict [("error", JStr "No input provided")]) 400),
        Demo.busy_db, [])
  /\ ai_request (Demo.openai_env (Return "[]")) Demo.binding
       (Return (JStr "hello")) (Demo.request None) Demo.busy_db
     = (Return (mkResponse (JDict [("error", JStr "Failed to process request")]) 500),
        Demo.busy_db, [])
  /\ exists r db' rest,
       ai_request (Demo.openai_env (Return "[]")) Demo.binding (Demo.saying "hello")
         (Demo.request None) Demo.busy_db
       = (r, db', Commit (Conversation.mk 8%Z 1%Z "user" "hello" 1000%Z) :: rest).
Proof.
  split; [|split; [|split]].
  - apply (proj1 (empty_input_rejected_without_effect
                    (Demo.openai_env (Return "[]")) Demo.binding (Demo.saying "")
                    (Demo.request None) Demo.busy_db)
             [("input", JStr "")] eq_refl).
    right; right; left. reflexivity.
  - apply (proj1 (empty_input_rejected_without_effect
                    (Demo.openai_env (Return "[]")) Demo.binding
                    (Return (JDict [("text", JStr "hello")]))
                    (Demo.request None) Demo.busy_db)
             [("text", JStr "hello")] eq_refl).
    left. reflexivity.
  - apply (proj1 (proj2 (empty_input_rejected_without_effect
                           (Demo.openai_env (Return "[]")) Demo.binding
                           (Return (JStr "hello")) (Demo.request None)
                           Demo.busy_db))).
    intros d. discriminate.
  - apply (proj2 (proj2 (empty_input_rejected_without_effect
                           (Demo.openai_env (Return "[]")) Demo.binding
                           (Demo.saying "hello") (Demo.request None)
                           Demo.busy_db))
             [("input", JStr "hello")] "hello" eq_refl eq_refl).
    discriminate.
Defined.

(** C9: in every run with a non-empty input the first effect is the commit
    of the user's turn, which is in the database from then on; a provider
    call, if the run makes one, comes right after that commit and is
    followed by exactly the commit of the assistant's turn. *)
Theorem user_turn_committed_before_provider_call (env : Env) (req : Request.t)
    (db : Database) (user_input : string) :
  Request.input req = Some user_input -> user_input <> "" ->
  exists r db' rest,
    ai env req db = (r, db', Commit (user_turn req db user_input) :: rest)
    /\ Conversation.role (user_turn req db user_input) = "user"
    /\ Conversation.content (user_turn req db user_input) = user_input
    /\ In (user_turn req db user_input) (conversations db')
    /\ forall pre call post,
         rest = (pre ++ call :: post)%list -> is_provider_call call = true ->
         pre = []
         /\ exists assistant_msg,
              post = [Commit (assistant_turn req
                                (insert_conversation db (user_turn req db user_input))
                                assistant_msg)]
              /\ conversations db'
                 = (conversations db
                    ++ [user_turn req db user_input;
                        assistant_turn req
                          (insert_conversation db (user_turn req db user_input))
                          assistant_msg])%list.
Proof.
  intros Hin Hne. destruct (timezone_known env req) eqn:Htz.
  - destruct (call_provider_returns env
                (build_messages env req
                   (insert_conversation db (user_turn req db user_input)))
                user_input (insert_conversation db (user_turn req db user_input)))
      as (msg & tr & Hcall & Htr).
    rewrite (ai_run env req db user_input msg tr Hin Hne Htz Hcall).
    eexists _, _, _. split; [reflexivity|]. split; [reflexivity|].
    split; [reflexivity|]. split.
    { cbn [insert_conversation conversations]. rewrite !in_app_iff. cbn. tauto. }
    intros pre call post Heq Hcall_is.
    assert (Hpre : pre = [] /\ post = [Commit (assistant_turn req
                (insert_conversation db (user_turn req db user_input)) msg)]).
    { destruct Htr as [-> | (ev & -> & Hev)]; cbn in Heq.
      - destruct pre as [|p pre]; cbn in Heq.
        + injection Heq as <- _. discriminate.
        + injection Heq as _ Heq. now destruct pre.
      - destruct pre as [|p pre]; cbn in Heq.
        + injection Heq as _ <-. now split.
        + injection Heq as _ Heq. destruct pre as [|q pre]; cbn in Heq.
          * injection Heq as <- _. discriminate.
          * injection Heq as _ Heq. now destruct pre. }
    destruct Hpre as [-> ->]. split; [reflexivity|]. exists msg.
    split; [reflexivity|].
    cbn [insert_conversation conversations]. now rewrite <- app_assoc.
  - rewrite (ai_unknown_timezone env req db user_input Hin Hne Htz).
    eexists _, _, _. split; [reflexivity|]. split; [reflexivity|].
    split; [reflexivity|]. split.
    { cbn [insert_conversation conversations]. rewrite in_app_iff. cbn. tauto. }
    intros pre call post Heq. now destruct pre.
Qed.

Lemma user_turn_committed_before_provider_call_witness :
  exists r db' rest,
    ai (Demo.openai_env Demo.unreachable) (Demo.request (Some "hello")) Demo.empty_db
    = (r, db', Commit (Conversation.mk 1%Z 1%Z "user" "hello" 1000%Z) :: rest)
    /\ In (Conversation.mk 1%Z 1%Z "user" "hello" 1000%Z) (conversations db').
Proof.
  destruct (user_turn_committed_before_provider_call
              (Demo.openai_env Demo.unreachable) (Demo.request (Some "hello"))
              Demo.empty_db "hello" eq_refl ltac:(discriminate))
    as (r & db' & rest & Hrun & _ & _ & Hin & _).
  exists r, db', rest. split; [exact Hrun | exact Hin].
Defined.

(* ================================================================== *)
(** ** Commands that are not objects *)
(* ================================================================== *)

(** C10: when the reply of the provider step has a bracketed span that
    decodes to an array with an element that is not an object, the date loop
    raises, the handler's outer [except] catches it, and the request is
    answered with the generic server error 500 instead of a command list;
    both turns have been stored by then. *)
Theorem non_object_command_server_error (env : Env) (req : Request.t)
    (db : Database) (user_input raw json_str : string) (arr : list json)
    (tr : list effect) :
  Request.input req = Some user_input -> user_input <> "" ->
  timezone_known env req = true ->
  call_provider env
    (build_messages env req (insert_conversation db (user_turn req db user_input)))
    user_input (insert_conversation db (user_turn req db user_input))
  = (Return raw, insert_conversation db (user_turn req db user_input), tr) ->
  Regex.search_array raw = Some json_str ->
  loads json_str = Some (JList arr) ->
  forallb is_dict arr = false ->
  (exists e, fix_date_formats (parse_commands raw) = Raise e)
  /\ ai env req db =
  (Return (mkResponse (jsonify_error "Failed to process request") 500),
   insert_conversation
     (insert_conversation db (user_turn req db user_input))
     (assistant_turn req (insert_conversation db (user_turn req db user_input)) raw),
   (Commit (user_turn req db user_input) :: tr
    ++ [Commit (assistant_turn req
                  (insert_conversation db (user_turn req db user_input)) raw)])%list).
Proof.
  intros Hin Hne Htz Hcall Hs Hl Hd.
  rewrite (ai_run env req db user_input raw tr Hin Hne Htz Hcall).
  unfold respond, response_parser.
  rewrite (parse_commands_decoded raw json_str arr Hs Hl).
  destruct (fix_date_formats_non_object arr Hd) as (e & ->).
  split; [now exists e | reflexivity].
Qed.

Lemma non_object_command_server_error_witness :
  loads "[1, 2]" = Some (JList [JInt 1; JInt 2])
  /\ ai (Demo.openai_env (Return "[1, 2]")) (Demo.request (Some "hello"))
        Demo.empty_db
     = (Return (mkResponse (jsonify_error "Failed to process request") 500),
        mkDatabase []
          [ Conversation.mk 1%Z 1%Z "user" "hello" 1000%Z;
            Conversation.mk 2%Z 1%Z "assistant" "[1, 2]" 1003%Z ],
        [ Commit (Conversation.mk 1%Z 1%Z "user" "hello" 1000%Z);
          OpenAICall "sk-demo"
            (build_messages (Demo.openai_env (Return "[1, 2]"))
               (Demo.request (Some "hello"))
               (mkDatabase [] [Conversation.mk 1%Z 1%Z "user" "hello" 1000%Z]));
          Commit (Conversation.mk 2%Z 1%Z "assistant" "[1, 2]" 1003%Z) ]).
Proof.
  split; [reflexivity|].
  rewrite (proj2 (non_object_command_server_error
             (Demo.openai_env (Return "[1, 2]")) (Demo.request (Some "hello"))
             Demo.empty_db "hello" "[1, 2]" "[1, 2]" [JInt 1; JInt 2]
             [OpenAICall "sk-demo"
                (build_messages (Demo.openai_env (Return "[1, 2]"))
                   (Demo.request (Some "hello"))
                   (mkDatabase [] [Conversation.mk 1%Z 1%Z "user" "hello" 1000%Z]))]
             eq_refl ltac:(discriminate) eq_refl eq_refl eq_refl eq_refl eq_refl)).
  reflexivity.
Defined.

(* ================================================================== *)
(** ** Prompt assembly *)
(* ================================================================== *)

Section History.

Context {A : Type} (key : A -> Z).

Lemma insert_desc_perm (x : A) (l : list A) :
  Permutation (insert_desc key x l) (x :: l).
Proof.
  induction l as [|y rest IH]; cbn; [reflexivity|].
  destruct (key y <=? key x)%Z; [reflexivity|].
  rewrite IH. apply perm_swap.
Qed.

Lemma order_by_desc_perm (l : list A) : Permutation (order_by_desc key l) l.
Proof.
  induction l as [|x rest IH]; cbn; [reflexivity|].
  rewrite insert_desc_perm. now constructor.
Qed.

Lemma insert_desc_descending (x : A) (l : list A) :
  descending key l -> descending key (insert_desc key x l).
Proof.
  unfold descending. induction 1 as [|y rest Hrest IH Hy]; cbn.
  - repeat constructor.
  - destruct (Z.leb_spec (key y) (key x)) as [Hle|Hlt].
    + constructor; [now constructor|]. constructor; [exact Hle|].
      eapply Forall_impl; [|exact Hy]. cbn. intros z Hz. lia.
    + constructor; [exact IH|].
      eapply Permutation_Forall; [symmetry; apply insert_desc_perm|].
      constructor; [lia | exact Hy].
Qed.

Lemma order_by_desc_descending (l : list A) :
  descending key (order_by_desc key l).
Proof.
  induction l as [|x rest IH]; cbn; [constructor|].
  now apply insert_desc_descending.
Qed.

(** In a sorted list every element of a front part is related to every
    element of the part behind it. *)
Lemma StronglySorted_app_cross (R : A -> A -> Prop) (l1 l2 : list A) :
  StronglySorted R (l1 ++ l2) ->
  forall a b, In a l1 -> In b l2 -> R a b.
Proof.
  induction l1 as [|x rest IH]; cbn; [easy|].
  intros H a b [<- | Ha] Hb; apply StronglySorted_inv in H as [Hs Hf].
  - rewrite Forall_forall in Hf. apply Hf, in_or_app. now right.
  - now apply IH.
Qed.

Lemma StronglySorted_app_l (R : A -> A -> Prop) (l1 l2 : list A) :
  StronglySorted R (l1 ++ l2) -> StronglySorted R l1.
Proof.
  induction l1 as [|x rest IH]; cbn; [constructor|].
  intros H. apply StronglySorted_inv in H as [Hs Hf].
  constructor; [now apply IH|]. now apply Forall_app in Hf.
Qed.

Lemma descending_rev (l : list A) :
  descending key l -> ascending key (rev l).
Proof.
  unfold descending, ascending. induction 1 as [|x rest Hrest IH Hx]; cbn.
  - constructor.
  - clear Hrest. apply Forall_rev in Hx. revert IH Hx.
    generalize (rev rest) as r. induction r as [|y r IHr]; cbn; intros Hs Hf.
    + repeat constructor.
    + apply StronglySorted_inv in Hs as [Hs Hy].
      apply Forall_cons_iff in Hf as [Hyx Hf].
      constructor; [now apply IHr|].
      apply Forall_app. split; [exact Hy | now repeat constructor].
Qed.

(** A row older than all of a list sorts behind them. *)
Lemma insert_desc_last (x : A) (l : list A) :
  Forall (fun y => (key x < key y)%Z) l ->
  insert_desc key x l = (l ++ [x])%list.
Proof.
  induction 1 as [|y rest Hy _ IH]; [reflexivity|]. cbn.
  destruct (Z.leb_spec (key y) (key x)); [lia|]. now rewrite IH.
Qed.

End History.

(** What [ORDER BY key DESC LIMIT n], reversed, selects: the rows split into
    the selected ones, in ascending order, and the others, none of which
    comes after a selected one. *)
Lemma latest_oldest_first {A : Type} (key : A -> Z) (n : nat) (l : list A) :
  ascending key (rev (firstn n (order_by_desc key l)))
  /\ List.length (rev (firstn n (order_by_desc key l))) = Nat.min n (List.length l)
  /\ exists older,
       Permutation l (older ++ rev (firstn n (order_by_desc key l)))
       /\ forall o r, In o older -> In r (rev (firstn n (order_by_desc key l))) ->
                      (key o <= key r)%Z.
Proof.
  pose proof (order_by_desc_perm key l) as Hperm.
  pose proof (order_by_desc_descending key l) as Hdesc.
  set (sorted := order_by_desc key l) in *.
  rewrite <- (firstn_skipn n sorted) in Hdesc.
  split; [|split].
  - apply descending_rev. exact (StronglySorted_app_l _ _ _ Hdesc).
  - rewrite length_rev, length_firstn. now rewrite (Permutation_length Hperm).
  - exists (skipn n sorted). split.
    + rewrite <- Hperm, <- (firstn_skipn n sorted) at 1.
      rewrite Permutation_app_comm. apply Permutation_app_head.
      apply Permutation_rev.
    + intros o r Ho Hr. apply in_rev in Hr.
      exact (StronglySorted_app_cross _ _ _ Hdesc r o Hr Ho).
Qed.

Lemma chronological_tail (x : Conversation.t) (log : list Conversation.t) :
  chronological (x :: log) = true -> chronological log = true.
Proof. cbn. now intros [_ H]%andb_prop. Qed.

Lemma chronological_later (x : Conversation.t) (log : list Conversation.t) :
  chronological (x :: log) = true ->
  Forall (fun y => (Conversation.timestamp x < Conversation.timestamp y)%Z) log.
Proof.
  revert x. induction log as [|y rest IH]; intros x H; [constructor|].
  cbn in H. apply andb_prop in H as [Hxy Hrest]. apply Z.ltb_lt in Hxy.
  constructor; [exact Hxy|].
  eapply Forall_impl; [|apply (IH y Hrest)]. cbn. intros z Hz. lia.
Qed.

(** On a log in time order, newest-first is the log reversed. *)
Lemma order_by_desc_chronological (log : list Conversation.t) :
  chronological log = true ->
  order_by_desc Conversation.timestamp log = rev log.
Proof.
  induction log as [|x rest IH]; [reflexivity|]. intros H.
  cbn [order_by_desc rev]. rewrite (IH (chronological_tail _ _ H)).
  apply insert_desc_last. apply Forall_rev, chronological_later, H.
Qed.

Lemma recent_conversations_chronological (db : Database) (uid : Z) :
  chronological (user_log db uid) = true ->
  recent_conversations db uid
  = skipn (List.length (user_log db uid) - 5) (user_log db uid).
Proof.
  intros H. unfold recent_conversations.
  rewrite (order_by_desc_chronological _ H), firstn_rev. apply rev_involutive.
Qed.

(** What the history query selects: the rows of the user's log, split into
    the selected ones, oldest first, and the others, none of which is later
    than a selected one. *)
Lemma recent_conversations_latest (db : Database) (uid : Z) :
  ascending Conversation.timestamp (recent_conversations db uid)
  /\ List.length (recent_conversations db uid)
     = Nat.min 5 (List.length (user_log db uid))
  /\ exists older,
       Permutation (user_log db uid) (older ++ recent_conversations db uid)
       /\ forall o r, In o older -> In r (recent_conversations db uid) ->
                      (Conversation.timestamp o <= Conversation.timestamp r)%Z.
Proof.
  exact (latest_oldest_first Conversation.timestamp 5 (user_log db uid)).
Qed.

(** C7: when the log of the user holds more than five turns, the prompt is
    the system instruction, then the context message, then exactly five
    turns of that log, each with its role and content: the most recent ones
    (no other turn of the log is later than one of them), oldest first.  On
    a log stored in time order they are its last five rows. *)
Theorem prompt_keeps_five_most_recent (env : Env) (req : Request.t)
    (db : Database) :
  let log :=
    filter (fun c => (Conversation.user_id c =? User.id (Request.current_user req))%Z)
           (conversations db) in
  5 < List.length log ->
  exists recent older,
    build_messages env req db
    = (Message.mk "system" get_ai_prompt
       :: Message.mk "user" (context_message env req db)
       :: map (fun c => Message.mk (Conversation.role c) (Conversation.content c))
              recent)%list
    /\ List.length recent = 5
    /\ Permutation log (older ++ recent)
    /\ StronglySorted
         (fun a b => (Conversation.timestamp a <= Conversation.timestamp b)%Z)
         recent
    /\ (forall o r, In o older -> In r recent ->
                    (Conversation.timestamp o <= Conversation.timestamp r)%Z)
    /\ (chronological log = true ->
        recent = skipn (List.length log - 5) log).
Proof.
  intros log Hlen.
  destruct (latest_oldest_first Conversation.timestamp 5 log)
    as (Hasc & Hfive & older & Hperm & Hlate).
  exists (rev (firstn 5 (order_by_desc Conversation.timestamp log))), older.
  split; [reflexivity|]. split; [lia|]. split; [exact Hperm|].
  split; [exact Hasc|]. split; [exact Hlate|].
  intros Hchron.
  rewrite (order_by_desc_chronological log Hchron), firstn_rev.
  apply rev_involutive.
Qed.

Lemma prompt_keeps_five_most_recent_witness :
  build_messages (Demo.openai_env (Return "[]")) (Demo.request (Some "hello"))
    Demo.busy_db
  = [ Message.mk "system" get_ai_prompt;
      Message.mk "user"
        "Current time: 2025-07-30 09:00:00 UTC. User's timezone: UTC. Current events: None";
      Message.mk "assistant" "two";
      Message.mk "user" "three";
      Message.mk "assistant" "four";
      Message.mk "user" "five";
      Message.mk "assistant" "six" ].
Proof.
  destruct (prompt_keeps_five_most_recent
              (Demo.openai_env (Return "[]")) (Demo.request (Some "hello"))
              Demo.busy_db ltac:(cbn; lia))
    as (recent & older & Hmsgs & _ & _ & _ & _ & Hlast).
  rewrite Hmsgs, (Hlast eq_refl). reflexivity.
Defined.

(* ================================================================== *)
(** ** The rate limiter *)
(* ================================================================== *)

Section Limiter.

Import RateLimit.

Lemma caller_eqb_spec (a b : caller) : reflect (a = b) (caller_eqb a b).
Proof.
  destruct a as [x|x], b as [y|y]; cbn; try (constructor; discriminate).
  - destruct (Z.eqb_spec x y); constructor; congruence.
  - destruct (String.eqb_spec x y); constructor; congruence.
Qed.

Lemma caller_eqb_refl (a : caller) : caller_eqb a a = true.
Proof. now destruct (caller_eqb_spec a a). Qed.

Lemma get_set_same (who : caller) (l : list Z) (c : counts) :
  get who (set who l c) = l.
Proof.
  induction c as [|[k old] rest IH]; cbn.
  - now rewrite caller_eqb_refl.
  - destruct (caller_eqb k who) eqn:E; cbn; now rewrite E.
Qed.

Lemma get_set_other (who other : caller) (l : list Z) (c : counts) :
  other <> who -> get other (set who l c) = get other c.
Proof.
  intros Hne. induction c as [|[k old] rest IH]; cbn.
  - destruct (caller_eqb_spec who other); [congruence | reflexivity].
  - destruct (caller_eqb_spec k who) as [->|]; cbn.
    + destruct (caller_eqb_spec who other); [congruence | reflexivity].
    + now rewrite IH.
Qed.

Lemma verdict_spec (max_requests window : Z) (who : caller) (now : Z) (c : counts) :
  verdict max_requests window who now c =
  if (max_requests <=? Z.of_nat (List.length (prune window now (get who c))))%Z
  then (false, set who (prune window now (get who c)) c)
  else (true, set who (prune window now (get who c) ++ [now])%list c).
Proof.
  unfold verdict, rate_limit. cbn [fst snd].
  now destruct (max_requests <=? _)%Z.
Qed.

(** The decorator runs the view exactly on a favourable verdict; the counts
    it leaves do not depend on the view. *)
Lemma rate_limit_verdict {S : Type} (max_requests window : Z)
    (f : S -> Response * S) (who : caller) (now : Z) (c : counts) (s : S) :
  rate_limit max_requests window f who now (c, s) =
  if fst (verdict max_requests window who now c)
  then (fst (f s), (snd (verdict max_requests window who now c), snd (f s)))
  else (too_many_requests, (snd (verdict max_requests window who now c), s)).
Proof.
  rewrite verdict_spec. unfold rate_limit. cbn [fst snd].
  destruct (max_requests <=? _)%Z; cbn [fst snd]; [reflexivity|].
  now destruct (f s).
Qed.

Lemma prune_app (window now : Z) (l1 l2 : list Z) :
  prune window now (l1 ++ l2) = (prune window now l1 ++ prune window now l2)%list.
Proof. apply filter_app. Qed.

(** Pruning at a later time makes an earlier pruning redundant. *)
Lemma prune_prune (window now now' : Z) (l : list Z) :
  (now <= now')%Z ->
  prune window now' (prune window now l) = prune window now' l.
Proof.
  intros Hle. unfold prune. induction l as [|t rest IH]; [reflexivity|]. cbn.
  destruct (Z.ltb_spec (now - t) (window * 1000000)) as [H1|H1]; cbn;
    destruct (Z.ltb_spec (now' - t) (window * 1000000)) as [H2|H2];
    try (now rewrite IH); lia.
Qed.

Lemma last_cons_default (x d : Z) (l : list Z) :
  last (x :: l) d = last l x.
Proof.
  revert x d. induction l as [|y rest IH]; intros x d; [reflexivity|].
  change (last (x :: y :: rest) d) with (last (y :: rest) d).
  now rewrite !IH.
Qed.

Lemma nondecreasing_tail (x : Z) (l : list Z) :
  nondecreasing (x :: l) = true -> nondecreasing l = true.
Proof. cbn. now intros [_ H]%andb_prop. Qed.

Lemma nondecreasing_head (x y : Z) (l : list Z) :
  nondecreasing (x :: y :: l) = true -> (x <= y)%Z.
Proof. cbn. intros [H _]%andb_prop. now apply Z.leb_le. Qed.

(** The stored lists stand for the whole history: pruned at any later time,
    a caller's list and the times of all its requests let through so far
    agree. *)
Lemma replay_history (window : Z) (hits : list hit) :
  forall (c0 : counts) (hist0 : caller -> list Z) (t0 : Z),
    (forall who now', (t0 <= now')%Z ->
        prune window now' (get who c0) = prune window now' (hist0 who)) ->
    nondecreasing (t0 :: map hit_now hits) = true ->
    forall who now',
      (last (map hit_now hits) t0 <= now')%Z ->
      prune window now' (get who (snd (replay window hits c0)))
      = prune window now'
          (hist0 who ++ let_through who hits (fst (replay window hits c0))).
Proof.
  induction hits as [|h rest IH]; intros c0 hist0 t0 Hinv Hmono who now' Hlast.
  - cbn in *. rewrite app_nil_r. now apply Hinv.
  - cbn [replay]. rewrite verdict_spec.
    pose proof (nondecreasing_head _ _ _ Hmono) as Hth.
    pose proof (nondecreasing_tail _ _ Hmono) as Hmono'.
    change (map hit_now (h :: rest)) with (hit_now h :: map hit_now rest) in *.
    set (pruned := prune window (hit_now h) (get (hit_caller h) c0)).
    assert (Hstep : forall c1 ok,
               (forall w n', (hit_now h <= n')%Z ->
                   prune window n' (get w c1)
                   = prune window n'
                       (hist0 w ++ (if andb ok (caller_eqb (hit_caller h) w)
                                    then [hit_now h] else []))) ->
               prune window now' (get who (snd (replay window rest c1)))
               = prune window now'
                   (hist0 who
                    ++ let_through who (h :: rest) (ok :: fst (replay window rest c1)))).
    { intros c1 ok Hinv1.
      assert (Hlast' : (last (map hit_now rest) (hit_now h) <= now')%Z)
        by (now rewrite <- (last_cons_default _ t0)).
      rewrite (IH c1 (fun w => hist0 w ++ (if andb ok (caller_eqb (hit_caller h) w)
                                           then [hit_now h] else []))%list
                  (hit_now h) Hinv1 Hmono' who now' Hlast').
      cbn [let_through]. rewrite <- app_assoc.
      now destruct (ok && caller_eqb (hit_caller h) who)%bool. }
    destruct (hit_max h <=? Z.of_nat (List.length pruned))%Z;
      destruct (replay window rest _) as [oks final] eqn:E;
      cbn [fst snd];
      match goal with
      | |- context [let_through who (h :: rest) (?ok :: oks)] =>
          specialize (Hstep (set (hit_caller h)
                               (if ok then pruned ++ [hit_now h] else pruned)%list c0) ok)
      end; cbn [andb] in Hstep; rewrite E in Hstep; cbn [fst snd] in Hstep;
      apply Hstep; intros w n' Hn';
      (destruct (caller_eqb_spec (hit_caller h) w) as [<-|Hne];
       [ rewrite get_set_same
       | rewrite get_set_other by congruence;
         rewrite ?app_nil_r; apply Hinv; lia ]).
    + rewrite app_nil_r. unfold pruned. rewrite prune_prune by exact Hn'.
      apply Hinv. lia.
    + unfold pruned. rewrite !prune_app, prune_prune by exact Hn'.
      f_equal. apply Hinv. lia.
Qed.

End Limiter.

Section LimiterRuns.

Import RateLimit.

Lemma nondecreasing_app_inv (l : list Z) (y : Z) :
  nondecreasing (l ++ [y]) = true ->
  nondecreasing l = true /\ Forall (fun x => (x <= y)%Z) l.
Proof.
  induction l as [|x rest IH]; [now split|].
  intros H. change ((x :: rest) ++ [y])%list with (x :: (rest ++ [y]))%list in H.
  destruct (IH (nondecreasing_tail _ _ H)) as [Hs Hf].
  assert (Hxy : (x <= y)%Z).
  { destruct rest as [|z rest'].
    - now apply (nondecreasing_head x y []).
    - pose proof (nondecreasing_head x z _ H) as Hxz.
      apply Forall_inv in Hf. lia. }
  split; [|now constructor].
  cbn [nondecreasing]. rewrite Hs, andb_true_r.
  destruct rest as [|z rest']; [reflexivity|].
  apply Z.leb_le. exact (nondecreasing_head x z _ H).
Qed.

Lemma last_in_or_default (l : list Z) (d : Z) : last l d = d \/ In (last l d) l.
Proof.
  revert d. induction l as [|x rest IH]; intros d; [now left|]. right.
  rewrite last_cons_default.
  destruct (IH x) as [-> | H]; [now left | now right].
Qed.

Lemma prune_length (window now : Z) (l : list Z) :
  List.length (prune window now l) <= List.length l.
Proof. apply filter_length_le. Qed.

Lemma prune_quiet (window now : Z) (l : list Z) :
  Forall (fun t => (window * 1000000 <= now - t)%Z) l -> prune window now l = [].
Proof.
  induction 1 as [|t rest Ht _ IH]; [reflexivity|]. cbn.
  destruct (Z.ltb_spec (now - t) (window * 1000000)); [lia | exact IH].
Qed.

End LimiterRuns.

(** X1: from a cleared limiter and with a clock that never goes back, the
    decorator lets a request through exactly when fewer than [max_requests]
    of the caller's requests let through before lie less than a window back;
    otherwise it answers 429 and does not run the view. *)
Theorem rate_limit_sliding_window {S : Type} (window : Z) (earlier : list hit)
    (h : hit) (f : S -> Response * S) (s : S) :
  nondecreasing (map hit_now (earlier ++ [h])) = true ->
  let past :=
    RateLimit.prune window (hit_now h)
      (let_through (hit_caller h) earlier
         (fst (replay window earlier (RateLimit.clear_rate_limits [])))) in
  let result :=
    RateLimit.rate_limit (hit_max h) window f (hit_caller h) (hit_now h)
      (snd (replay window earlier (RateLimit.clear_rate_limits [])), s) in
  if (Z.of_nat (List.length past) <? hit_max h)%Z
  then fst result = fst (f s) /\ snd (snd result) = snd (f s)
  else fst result = RateLimit.too_many_requests /\ snd (snd result) = s.
Proof.
  intros Hmono past result. subst past result.
  unfold RateLimit.clear_rate_limits.
  rewrite map_app in Hmono. cbn [map] in Hmono.
  destruct (nondecreasing_app_inv _ _ Hmono) as [Hsorted Hbelow].
  set (t0 := hd (hit_now h) (map hit_now earlier)).
  assert (Hmono0 : nondecreasing (t0 :: map hit_now earlier) = true).
  { subst t0. destruct (map hit_now earlier) as [|x rest]; [reflexivity|].
    cbn [hd]. cbn [nondecreasing] in *. now rewrite Z.leb_refl, Hsorted. }
  assert (Hlast : (last (map hit_now earlier) t0 <= hit_now h)%Z).
  { destruct (last_in_or_default (map hit_now earlier) t0) as [-> | Hin].
    - subst t0. destruct (map hit_now earlier) as [|x rest]; cbn [hd]; [lia|].
      now apply Forall_inv in Hbelow.
    - rewrite Forall_forall in Hbelow. now apply Hbelow. }
  pose proof (replay_history window earlier [] (fun _ => []) t0
                (fun _ _ _ => eq_refl) Hmono0 (hit_caller h) (hit_now h) Hlast)
    as Hhist.
  cbn [app] in Hhist.
  rewrite rate_limit_verdict, verdict_spec, Hhist.
  destruct (Z.ltb_spec
              (Z.of_nat (List.length
                 (RateLimit.prune window (hit_now h)
                    (let_through (hit_caller h) earlier
                       (fst (replay window earlier []))))))
              (hit_max h)) as [Hlt|Hge];
    destruct (Z.leb_spec (hit_max h)
                (Z.of_nat (List.length
                   (RateLimit.prune window (hit_now h)
                      (let_through (hit_caller h) earlier
                         (fst (replay window earlier []))))))); try lia;
    cbn [fst snd]; now split.
Qed.

Lemma rate_limit_sliding_window_witness :
  fst (RateLimit.rate_limit 2 60 (Api.delete_event Demo.alice 1)
         (RateLimit.UserId 1) 30000000
         (snd (replay 60
                 [ mkHit (RateLimit.UserId 1) 0 2;
                   mkHit (RateLimit.UserId 1) 10000000 2 ]
                 (RateLimit.clear_rate_limits [])),
          Office.db))
  = RateLimit.too_many_requests
  /\ fst (RateLimit.rate_limit 2 60 (Api.delete_event Demo.alice 1)
            (RateLimit.UserId 1) 65000000
            (snd (replay 60
                    [ mkHit (RateLimit.UserId 1) 0 2;
                      mkHit (RateLimit.UserId 1) 10000000 2 ]
                    (RateLimit.clear_rate_limits [])),
             Office.db))
     = Api.success.
Proof.
  split.
  - apply (rate_limit_sliding_window 60
             [ mkHit (RateLimit.UserId 1) 0 2; mkHit (RateLimit.UserId 1) 10000000 2 ]
             (mkHit (RateLimit.UserId 1) 30000000 2)
             (Api.delete_event Demo.alice 1) Office.db eq_refl).
  - apply (rate_limit_sliding_window 60
             [ mkHit (RateLimit.UserId 1) 0 2; mkHit (RateLimit.UserId 1) 10000000 2 ]
             (mkHit (RateLimit.UserId 1) 65000000 2)
             (Api.delete_event Demo.alice 1) Office.db eq_refl).
Defined.

(** X2: the limiter keeps its lists short: when no caller's list is longer
    than a bound that no view's limit exceeds, it stays so after any run of
    requests, whatever the clock does. *)
Theorem rate_limit_lists_bounded (window : Z) (hits : list hit)
    (request_counts : RateLimit.counts) (bound : Z) :
  (forall who, (Z.of_nat (List.length (RateLimit.get who request_counts)) <= bound)%Z) ->
  Forall (fun h => (hit_max h <= bound)%Z) hits ->
  forall who,
    (Z.of_nat (List.length
                 (RateLimit.get who (snd (replay window hits request_counts))))
     <= bound)%Z.
Proof.
  intros Hc Hhits. revert request_counts Hc.
  induction Hhits as [|h rest Hh _ IH]; intros c Hc who; [apply Hc|].
  cbn [replay]. rewrite verdict_spec.
  pose proof (prune_length window (hit_now h) (RateLimit.get (hit_caller h) c)) as Hp.
  specialize (Hc (hit_caller h)) as Hwho.
  destruct (Z.leb_spec (hit_max h)
              (Z.of_nat (List.length
                 (RateLimit.prune window (hit_now h)
                    (RateLimit.get (hit_caller h) c))))) as [Hfull|Hroom];
    destruct (replay window rest _) as [oks final] eqn:E; cbn [snd];
    match type of E with
    | replay window rest ?c1 = _ =>
        specialize (IH c1); rewrite E in IH; cbn [snd] in IH
    end; apply IH; intros w;
    (destruct (caller_eqb_spec (hit_caller h) w) as [<-|Hne];
     [ rewrite get_set_same
     | rewrite get_set_other by congruence; apply Hc ]).
  - lia.
  - rewrite length_app. cbn [List.length]. lia.
Qed.

Lemma rate_limit_lists_bounded_witness :
  (Z.of_nat (List.length
     (RateLimit.get (RateLimit.UserId 1)
        (snd (replay 60
                [ mkHit (RateLimit.UserId 1) 0 2;
                  mkHit (RateLimit.UserId 1) 1000000 2;
                  mkHit (RateLimit.UserId 1) 2000000 2;
                  mkHit (RateLimit.RemoteAddr "10.0.0.7") 3000000 1 ]
                []))))
   <= 2)%Z.
Proof.
  apply (rate_limit_lists_bounded 60
           [ mkHit (RateLimit.UserId 1) 0 2;
             mkHit (RateLimit.UserId 1) 1000000 2;
             mkHit (RateLimit.UserId 1) 2000000 2;
             mkHit (RateLimit.RemoteAddr "10.0.0.7") 3000000 1 ]
           [] 2).
  - intros who. cbn. lia.
  - repeat constructor; cbn; lia.
Defined.

(** X3: callers do not affect one another: what the decorator answers to a
    caller, what the view does and the list it leaves for that caller depend
    on the counts only through that caller's own list, and the lists of all
    other callers are left as they were. *)
Theorem rate_limit_callers_independent {S : Type} (max_requests window : Z)
    (f : S -> Response * S) (who : RateLimit.caller) (now : Z)
    (c1 c2 : RateLimit.counts) (s : S) :
  RateLimit.get who c1 = RateLimit.get who c2 ->
  fst (RateLimit.rate_limit max_requests window f who now (c1, s))
  = fst (RateLimit.rate_limit max_requests window f who now (c2, s))
  /\ snd (snd (RateLimit.rate_limit max_requests window f who now (c1, s)))
     = snd (snd (RateLimit.rate_limit max_requests window f who now (c2, s)))
  /\ RateLimit.get who
       (fst (snd (RateLimit.rate_limit max_requests window f who now (c1, s))))
     = RateLimit.get who
         (fst (snd (RateLimit.rate_limit max_requests window f who now (c2, s))))
  /\ forall other,
       other <> who ->
       RateLimit.get other
         (fst (snd (RateLimit.rate_limit max_requests window f who now (c1, s))))
       = RateLimit.get other c1.
Proof.
  intros Hsame. rewrite !rate_limit_verdict, !verdict_spec, Hsame.
  destruct (max_requests <=? _)%Z; cbn [fst snd]; rewrite !get_set_same;
    repeat split; intros other Hne; now apply get_set_other.
Qed.

Lemma rate_limit_callers_independent_witness :
  fst (RateLimit.rate_limit 1 60 (Api.delete_event Demo.alice 1)
         (RateLimit.UserId 1) 5000000
         ([(RateLimit.UserId 2, [1000000; 2000000; 3000000]%Z)], Office.db))
  = fst (RateLimit.rate_limit 1 60 (Api.delete_event Demo.alice 1)
           (RateLimit.UserId 1) 5000000 ([], Office.db)).
Proof.
  apply (rate_limit_callers_independent 1 60 (Api.delete_event Demo.alice 1)
           (RateLimit.UserId 1) 5000000
           [(RateLimit.UserId 2, [1000000; 2000000; 3000000]%Z)] [] Office.db).
  reflexivity.
Defined.

(** X4: a caller that has been quiet for a whole window is let through by
    any view with a positive limit, and its list starts afresh with the time
    of this request. *)
Theorem rate_limit_readmits_after_window {S : Type} (max_requests window : Z)
    (f : S -> Response * S) (who : RateLimit.caller) (now : Z)
    (request_counts : RateLimit.counts) (s : S) :
  (0 < max_requests)%Z ->
  Forall (fun t => (window * 1000000 <= now - t)%Z)
         (RateLimit.get who request_counts) ->
  RateLimit.rate_limit max_requests window f who now (request_counts, s)
  = (fst (f s), (RateLimit.set who [now] request_counts, snd (f s))).
Proof.
  intros Hmax Hquiet. rewrite rate_limit_verdict, verdict_spec.
  rewrite (prune_quiet _ _ _ Hquiet). cbn [List.length Z.of_nat].
  destruct (Z.leb_spec max_requests 0); [lia | reflexivity].
Qed.

Lemma rate_limit_readmits_after_window_witness :
  RateLimit.rate_limit 2 60 (Api.delete_event Demo.alice 7) (RateLimit.UserId 1)
    70000000 ([(RateLimit.UserId 1, [0; 10000000]%Z)], Office.db)
  = (Api.not_found, ([(RateLimit.UserId 1, [70000000%Z])], Office.db)).
Proof.
  exact (rate_limit_readmits_after_window 2 60 (Api.delete_event Demo.alice 7)
           (RateLimit.UserId 1) 70000000
           [(RateLimit.UserId 1, [0; 10000000]%Z)] Office.db
           ltac:(lia) ltac:(repeat constructor; lia)).
Defined.

(* ================================================================== *)
(** ** The clean-up of dates in [create_event] *)
(* ================================================================== *)

Section CleanDate.

Import Api.

Lemma append_assoc (a b c : string) : (a ++ b) ++ c = a ++ b ++ c.
Proof. induction a as [|x a IH]; cbn; [reflexivity | now rewrite IH]. Qed.

Lemma append_nil_r (a : string) : a ++ "" = a.
Proof. induction a as [|x a IH]; cbn; [reflexivity | now rewrite IH]. Qed.

Lemma replace_space_empty (s : string) : replace " " "" s = without_spaces s.
Proof.
  unfold replace. induction s as [|c r IH]; [reflexivity|].
  rewrite replace_from_0, prefix_cons, prefix_nil, andb_true_r.
  rewrite (Ascii.eqb_sym " " c). cbn [String.length pred without_spaces].
  destruct (Ascii.eqb c " "); cbn; now rewrite IH.
Qed.

Lemma no_space_without_spaces (s : string) : no_space (without_spaces s) = true.
Proof.
  induction s as [|c r IH]; [reflexivity|]. cbn.
  destruct (Ascii.eqb c " ") eqn:E; [exact IH|]. cbn. now rewrite E, IH.
Qed.

Lemma without_spaces_id (s : string) : no_space s = true -> without_spaces s = s.
Proof.
  induction s as [|c r IH]; [reflexivity|]. cbn.
  intros [Hc Hr]%andb_prop. apply negb_true_iff in Hc. now rewrite Hc, IH.
Qed.

Lemma without_spaces_app (a b : string) :
  without_spaces (a ++ b) = without_spaces a ++ without_spaces b.
Proof.
  induction a as [|x a IH]; [reflexivity|]. cbn.
  destruct (Ascii.eqb x " "); cbn; now rewrite IH.
Qed.

Lemma without_spaces_only_spaces (s : string) :
  only_spaces s = true -> without_spaces s = "".
Proof.
  induction s as [|c r IH]; [reflexivity|]. cbn.
  intros [Hc Hr]%andb_prop. now rewrite Hc, IH.
Qed.

Lemma no_space_app (a b : string) :
  no_space (a ++ b) = andb (no_space a) (no_space b).
Proof.
  induction a as [|x a IH]; [reflexivity|]. cbn. now rewrite IH, andb_assoc.
Qed.

Lemma drop_app_length (p rest : string) : drop (String.length p) (p ++ rest) = rest.
Proof. induction p as [|x p IH]; [now destruct rest | exact IH]. Qed.

(** A slice is a front part of the text. *)
Lemma slice_to_front (n : nat) (s : string) : exists rest, s = slice_to n s ++ rest.
Proof.
  revert n. induction s as [|c r IH]; intros n; [now exists ""|]. cbn.
  destruct (is_continuation c).
  - destruct (IH n) as (rest & E). exists rest. cbn. now rewrite <- E.
  - destruct n as [|k]; [now exists (String c r)|].
    destruct (IH k) as (rest & E). exists rest. cbn. now rewrite <- E.
Qed.

Lemma slice_split (n : nat) (s : string) : slice_to n s ++ slice_from n s = s.
Proof.
  unfold slice_from. destruct (slice_to_front n s) as (rest & E).
  remember (slice_to n s) as p eqn:Hp. clear Hp. subst s.
  now rewrite drop_app_length.
Qed.

Lemma insert_T_keeps_no_space (s : string) :
  no_space s = true -> no_space (insert_T s) = true.
Proof.
  intros H. unfold insert_T.
  destruct (negb (has_char "T" s) && Nat.leb 10 (len s))%bool; [|exact H].
  rewrite <- (slice_split 10 s), no_space_app in H.
  apply andb_prop in H as [H1 H2]. rewrite !no_space_app, H1. cbn. exact H2.
Qed.

Lemma insert_T_has_T (s : string) :
  has_char "T" s = true -> insert_T s = s.
Proof. intros H. unfold insert_T. now rewrite H. Qed.

Lemma insert_T_idempotent (s : string) : insert_T (insert_T s) = insert_T s.
Proof.
  destruct (negb (has_char "T" s) && Nat.leb 10 (len s))%bool eqn:E.
  - assert (H : insert_T s = slice_to 10 s ++ "T" ++ slice_from 10 s)
      by (unfold insert_T; now rewrite E).
    rewrite H. apply insert_T_has_T. rewrite !has_char_app. cbn.
    now rewrite orb_true_r.
  - assert (H : insert_T s = s) by (unfold insert_T; now rewrite E).
    now rewrite !H.
Qed.

Lemma clean_date_spec (s : string) : clean_date s = insert_T (without_spaces s).
Proof. unfold clean_date. now rewrite replace_space_empty. Qed.

Lemma ascii_not_continuation (c : ascii) :
  Nat.ltb (nat_of_ascii c) 128 = true -> is_continuation c = false.
Proof.
  intros H%Nat.ltb_lt. unfold is_continuation.
  destruct (Nat.leb_spec 128 (nat_of_ascii c)); [lia | reflexivity].
Qed.

Lemma len_app_ascii (a b : string) :
  is_ascii a = true -> len (a ++ b) = String.length a + len b.
Proof.
  induction a as [|c r IH]; [reflexivity|]. cbn [is_ascii].
  intros [Hc Hr]%andb_prop. cbn [append len String.length].
  now rewrite (ascii_not_continuation c Hc), IH.
Qed.

(** Cutting after as many characters as an ASCII front part has gives that
    front part, when an ASCII text follows. *)
Lemma slice_to_ascii (a b : string) :
  is_ascii a = true -> is_ascii b = true ->
  slice_to (String.length a) (a ++ b) = a.
Proof.
  intros Ha Hb. induction a as [|c r IH].
  - destruct b as [|x b]; [reflexivity|]. cbn [is_ascii] in Hb.
    apply andb_prop in Hb as [Hx _]. cbn [append String.length slice_to].
    now rewrite (ascii_not_continuation x Hx).
  - cbn [is_ascii] in Ha. apply andb_prop in Ha as [Hc Hr].
    cbn [append String.length slice_to].
    now rewrite (ascii_not_continuation c Hc), IH.
Qed.

Lemma slice_from_ascii (a b : string) :
  is_ascii a = true -> is_ascii b = true ->
  slice_from (String.length a) (a ++ b) = b.
Proof.
  intros Ha Hb. unfold slice_from. rewrite (slice_to_ascii a b Ha Hb).
  apply drop_app_length.
Qed.

Lemma no_sep_no_space (s : string) : no_sep s = true -> no_space s = true.
Proof.
  induction s as [|c r IH]; [reflexivity|]. cbn. unfold is_sep.
  intros [Hc Hr]%andb_prop. apply negb_true_iff, orb_false_elim in Hc as [Hc _].
  now rewrite Hc, IH.
Qed.

Lemma no_sep_no_T (s : string) : no_sep s = true -> has_char "T" s = false.
Proof.
  induction s as [|c r IH]; [reflexivity|]. cbn. unfold is_sep.
  intros [Hc Hr]%andb_prop. apply negb_true_iff, orb_false_elim in Hc as [_ Hc].
  now rewrite Hc, IH.
Qed.

Lemma has_T_spaces_to_T (s : string) :
  has_char "T" (spaces_to_T s) = orb (has_char " " s) (has_char "T" s).
Proof.
  induction s as [|c r IH]; [reflexivity|]. cbn. rewrite IH.
  destruct (Ascii.eqb c " ") eqn:E; cbn; [reflexivity|].
  now destruct (Ascii.eqb c "T"), (has_char " " r), (has_char "T" r).
Qed.

Lemma has_T_collapse_TT (s : string) :
  has_char "T" (collapse_TT s) = has_char "T" s.
Proof.
  induction s as [s IH] using string_length_ind.
  destruct s as [|c [|d r]]; [reflexivity | reflexivity |].
  rewrite collapse_TT_cons2.
  destruct (Ascii.eqb c "T") eqn:Ec, (Ascii.eqb d "T") eqn:Ed; cbn [andb].
  - cbn. now rewrite Ec.
  - cbn [has_char]. rewrite Ec. reflexivity.
  - cbn [has_char]. rewrite Ec, (IH (String d r)) by (simpl; lia).
    reflexivity.
  - cbn [has_char]. rewrite Ec, (IH (String d r)) by (simpl; lia).
    reflexivity.
Qed.

End CleanDate.

(** X5: the clean-up of date strings in [create_event] is idempotent, on
    every string, and what it returns holds no space. *)
Theorem clean_date_idempotent (s : string) :
  Api.clean_date (Api.clean_date s) = Api.clean_date s
  /\ no_space (Api.clean_date s) = true.
Proof.
  rewrite !clean_date_spec.
  assert (H : no_space (Api.insert_T (without_spaces s)) = true)
    by apply insert_T_keeps_no_space, no_space_without_spaces.
  split; [|exact H].
  rewrite (without_spaces_id _ H). apply insert_T_idempotent.
Qed.

(** X6: a ten-character date followed by any number of spaces, even none,
    and by a time comes out of the clean-up as date, [T], time; a date alone
    comes out with a [T] at its end. *)
Theorem clean_date_inserts_separator (date gap time : string) :
  String.length date = 10 ->
  is_ascii date = true -> no_sep date = true ->
  only_spaces gap = true ->
  is_ascii time = true -> no_sep time = true ->
  Api.clean_date (date ++ gap ++ time) = date ++ "T" ++ time.
Proof.
  intros Hlen Hda Hds Hgap Hta Hts.
  rewrite clean_date_spec, !without_spaces_app.
  rewrite (without_spaces_only_spaces _ Hgap).
  rewrite !without_spaces_id by now apply no_sep_no_space.
  cbn [append]. unfold Api.insert_T.
  rewrite has_char_app, !no_sep_no_T by assumption.
  rewrite (len_app_ascii _ _ Hda), Hlen. cbn [negb orb andb Nat.leb Nat.add].
  rewrite <- Hlen.
  now rewrite (slice_to_ascii _ _ Hda Hta), (slice_from_ascii _ _ Hda Hta).
Qed.

Lemma clean_date_inserts_separator_witness :
  Api.clean_date ("2025-07-31" ++ "  " ++ "14:00:00") = "2025-07-31" ++ "T" ++ "14:00:00"
  /\ Api.clean_date ("2025-07-31" ++ "" ++ "") = "2025-07-31" ++ "T" ++ "".
Proof.
  split.
  - apply (clean_date_inserts_separator "2025-07-31" "  " "14:00:00"); reflexivity.
  - apply (clean_date_inserts_separator "2025-07-31" "" ""); reflexivity.
Defined.

(** X7: a date that the [/ai] handler has normalised and that holds a
    separator goes through the clean-up of [create_event] unchanged. *)
Theorem clean_date_after_fix_date (s : string) :
  orb (has_char " " s) (has_char "T" s) = true ->
  Api.clean_date (fix_date s) = fix_date s.
Proof.
  intros H. rewrite clean_date_spec, fix_date_spec.
  rewrite without_spaces_id
    by apply no_space_collapse_TT, no_space_spaces_to_T.
  apply insert_T_has_T. now rewrite has_T_collapse_TT, has_T_spaces_to_T.
Qed.

Lemma clean_date_after_fix_date_witness :
  Api.clean_date (fix_date "2025-07-31 14:00:00") = "2025-07-31T14:00:00".
Proof.
  rewrite (clean_date_after_fix_date "2025-07-31 14:00:00" eq_refl).
  reflexivity.
Defined.

(* ================================================================== *)
(** ** The event views *)
(* ================================================================== *)

Section EventViews.

Import Api.

Variable cal : Calendar.

Lemma database_eta (db : Database) : mkDatabase (events db) (conversations db) = db.
Proof. now destruct db. Qed.

Lemma find_event_none (u : User.t) (event_id : Z) (db : Database) :
  out_of_reach u event_id db -> find_event u event_id db = None.
Proof.
  unfold out_of_reach, find_event. induction 1 as [|e rest He _ IH]; [reflexivity|].
  cbn. destruct (Z.eqb_spec (Event.id e) event_id) as [Hid|]; cbn; [|exact IH].
  destruct (Z.eqb_spec (Event.user_id e) (User.id u)); [|exact IH].
  now destruct (He Hid).
Qed.

Lemma find_event_some (u : User.t) (event_id : Z) (db : Database) (e : Event.t) :
  find_event u event_id db = Some e ->
  In e (events db) /\ Event.id e = event_id /\ Event.user_id e = User.id u.
Proof.
  unfold find_event. intros H. apply find_some in H as [Hin Hb].
  apply andb_prop in Hb as [H1 H2]. apply Z.eqb_eq in H1, H2. now repeat split.
Qed.

Lemma new_event_owner (u : User.t) (data : json) (db : Database) (e : Event.t) :
  new_event cal u data db = Return e ->
  Event.user_id e = User.id u /\ Event.id e = next_event_id cal (events db).
Proof.
  unfold new_event, and_then.
  repeat match goal with
         | |- context [match ?o with Return _ => _ | Raise _ => _ end] =>
             destruct o; try discriminate
         end.
  now intros [= <-].
Qed.

Lemma create_event_ok (u : User.t) (data : json) (db : Database) :
  status (fst (create_event cal u data db)) = 200 ->
  exists e,
    new_event cal u data db = Return e
    /\ create_event cal u data db
       = (success_event cal e, mkDatabase (events db ++ [e])%list (conversations db)).
Proof.
  unfold create_event. destruct (new_event cal u data db) as [e|]; cbn.
  - intros _. now exists e.
  - discriminate.
Qed.

Lemma filter_twice {A : Type} (p : A -> bool) (l : list A) :
  filter p (filter p l) = filter p l.
Proof.
  induction l as [|x rest IH]; [reflexivity|]. cbn [filter].
  destruct (p x) eqn:E; [|exact IH]. cbn [filter]. now rewrite E, IH.
Qed.

Lemma find_fresh (evs : list Event.t) (e : Event.t) (nid uid : Z) :
  Forall (fun x => Event.id x <> nid) evs ->
  Event.id e = nid -> Event.user_id e = uid ->
  find (fun x => andb (Event.id x =? nid)%Z (Event.user_id x =? uid)%Z)
       (evs ++ [e]) = Some e.
Proof.
  intros Hfresh Hid Hu. induction Hfresh as [|x rest Hx _ IH]; cbn.
  - now rewrite Hid, Hu, !Z.eqb_refl.
  - apply Z.eqb_neq in Hx. now rewrite Hx.
Qed.

Lemma filter_fresh (evs : list Event.t) (e : Event.t) (nid : Z) :
  Forall (fun x => Event.id x <> nid) evs ->
  Event.id e = nid ->
  filter (fun x => negb (Event.id x =? nid)%Z) (evs ++ [e]) = evs.
Proof.
  intros Hfresh Hid. induction Hfresh as [|x rest Hx _ IH]; cbn.
  - now rewrite Hid, Z.eqb_refl.
  - apply Z.eqb_neq in Hx. rewrite Hx. cbn. now rewrite IH.
Qed.

End EventViews.

(** X8: [create_event] answers 500 and stores nothing when the body is not
    an object, when [start], [end] or [title] is missing, and when [start]
    or [end] is not a string. *)
Theorem create_event_rejects_malformed_body (cal : Api.Calendar) (u : User.t)
    (data : json) (db : Database) :
  is_dict data = false
  \/ (exists d, data = JDict d
                /\ (not_a_string_at "start" d \/ not_a_string_at "end" d
                    \/ dict_get "title" d = None)) ->
  Api.create_event cal u data db
  = (mkResponse (jsonify_error "Failed to create event") 500, db).
Proof.
  unfold Api.create_event.
  enough (H : is_dict data = false
              \/ (exists d, data = JDict d
                            /\ (not_a_string_at "start" d \/ not_a_string_at "end" d
                                \/ dict_get "title" d = None)) ->
              exists e, Api.new_event cal u data db = Raise e)
    by (intros Hbad; destruct (H Hbad) as (e & ->); reflexivity).
  unfold Api.new_event, Api.and_then, not_a_string_at.
  intros [Hnd | (d & -> & Hbad)].
  - destruct data; try discriminate; cbn; eauto.
  - cbn [Api.subscript].
    destruct (dict_get "start" d) as [[]|]; cbn; eauto;
      destruct (dict_get "end" d) as [[]|]; cbn; eauto;
      destruct (dict_get "title" d); cbn; eauto;
      destruct Hbad as [[] | [[] | Hbad]]; discriminate.
Qed.

Lemma create_event_rejects_malformed_body_witness :
  Api.create_event Office.calendar Demo.alice
    (JDict [("title", JStr "Meeting"); ("start", JInt 1753970400);
            ("end", JStr "2025-07-31 15:00:00")])
    Office.db
  = (mkResponse (jsonify_error "Failed to create event") 500, Office.db).
Proof.
  apply (create_event_rejects_malformed_body Office.calendar Demo.alice).
  right. eexists. split; [reflexivity|]. left. exact I.
Defined.

(** X9: after [create_event] has answered 200, the listing of the caller's
    events holds what it held before and the event of the answer, and the
    listing of every other user holds what it held before. *)
Theorem create_event_then_listing (cal : Api.Calendar) (u : User.t) (data : json)
    (db : Database) :
  status (fst (Api.create_event cal u data db)) = 200 ->
  exists e,
    fst (Api.create_event cal u data db) = Api.success_event cal e
    /\ Event.user_id e = User.id u
    /\ Permutation
         (listed (fst (Api.get_events cal u (snd (Api.create_event cal u data db)))))
         (Api.event_json cal e :: listed (fst (Api.get_events cal u db)))
    /\ forall v,
         User.id v <> User.id u ->
         Permutation
           (listed (fst (Api.get_events cal v (snd (Api.create_event cal u data db)))))
           (listed (fst (Api.get_events cal v db))).
Proof.
  intros Hok. destruct (create_event_ok cal u data db Hok) as (e & Hnew & ->).
  destruct (new_event_owner cal u data db e Hnew) as [Howner _].
  exists e. split; [reflexivity|]. split; [exact Howner|].
  unfold Api.get_events, listed. cbn [fst snd body dict_get events].
  change (String.eqb "events" "events") with true. cbv iota.
  split.
  - rewrite filter_app, map_app. cbn [filter]. rewrite Howner, Z.eqb_refl.
    cbn [map]. symmetry. apply Permutation_cons_append.
  - intros v Hv. rewrite filter_app, map_app. cbn [filter]. rewrite Howner.
    destruct (Z.eqb_spec (User.id u) (User.id v)); [congruence|].
    cbn [map]. now rewrite app_nil_r.
Qed.

Lemma create_event_then_listing_witness :
  exists e,
    fst (Api.create_event Office.calendar Demo.alice Office.meeting Office.db)
    = Api.success_event Office.calendar e
    /\ Permutation
         (listed (fst (Api.get_events Office.calendar Demo.alice
                         (snd (Api.create_event Office.calendar Demo.alice
                                 Office.meeting Office.db)))))
         (Api.event_json Office.calendar e
          :: listed (fst (Api.get_events Office.calendar Demo.alice Office.db))).
Proof.
  destruct (create_event_then_listing Office.calendar Demo.alice Office.meeting
              Office.db eq_refl) as (e & He & _ & Hlist & _).
  exists e. split; [exact He | exact Hlist].
Defined.

(** The same listing, computed. *)
Example listing_after_meeting :
  listed (fst (Api.get_events Office.calendar Demo.alice
                 (snd (Api.create_event Office.calendar Demo.alice Office.meeting
                         Office.db))))
  = [ JDict [("id", JInt 1); ("title", JStr "Standup");
             ("start", JStr "2025-07-31T14:00:00");
             ("end", JStr "2025-07-31T15:00:00")];
      JDict [("id", JInt 3); ("title", JStr "Meeting");
             ("start", JStr "2025-07-31T14:00:00");
             ("end", JStr "2025-07-31T15:00:00")] ].
Proof. reflexivity. Qed.

(** X10: when the database gives a new event an id that no event has yet,
    deleting the event that [create_event] has just made, by the id of the
    answer, puts the database back as it was. *)
Theorem create_event_then_delete (cal : Api.Calendar) (u : User.t) (data : json)
    (db : Database) :
  Forall (fun e => Event.id e <> Api.next_event_id cal (events db)) (events db) ->
  status (fst (Api.create_event cal u data db)) = 200 ->
  Api.delete_event u (Api.next_event_id cal (events db))
    (snd (Api.create_event cal u data db))
  = (Api.success, db).
Proof.
  intros Hfresh Hok. destruct (create_event_ok cal u data db Hok) as (e & Hnew & ->).
  destruct (new_event_owner cal u data db e Hnew) as [Howner Hid].
  cbn [snd]. unfold Api.delete_event, Api.find_event. cbn [events conversations].
  rewrite (find_fresh _ _ _ _ Hfresh Hid Howner). rewrite Hid.
  rewrite (filter_fresh _ _ _ Hfresh Hid). now rewrite database_eta.
Qed.

Lemma create_event_then_delete_witness :
  Api.delete_event Demo.alice 3
    (snd (Api.create_event Office.calendar Demo.alice Office.meeting Office.db))
  = (Api.success, Office.db).
Proof.
  exact (create_event_then_delete Office.calendar Demo.alice Office.meeting
           Office.db ltac:(repeat constructor; discriminate) eq_refl).
Defined.

(** X11: the events of other users are out of reach: for an id under which
    the caller owns no event, [delete_event] and [update_event], whatever
    the body, answer 404 and change nothing. *)
Theorem foreign_event_not_found (cal : Api.Calendar) (u : User.t) (event_id : Z)
    (data : json) (db : Database) :
  out_of_reach u event_id db ->
  Api.delete_event u event_id db = (Api.not_found, db)
  /\ Api.update_event cal u event_id data db = (Api.not_found, db).
Proof.
  intros H. unfold Api.delete_event, Api.update_event.
  now rewrite (find_event_none u event_id db H).
Qed.

Lemma foreign_event_not_found_witness :
  Api.delete_event Demo.alice 2 Office.db = (Api.not_found, Office.db)
  /\ Api.update_event Office.calendar Demo.alice 2 Office.meeting Office.db
     = (Api.not_found, Office.db).
Proof.
  apply (foreign_event_not_found Office.calendar Demo.alice 2 Office.meeting Office.db).
  repeat constructor; cbn; intros; discriminate.
Defined.

(** X12: [delete_event] removes at most the events with the given id and
    keeps all others in their order; once it has run, a second call with the
    same id answers 404 and changes nothing more. *)
Theorem delete_event_once (u : User.t) (event_id : Z) (db : Database) :
  (fst (Api.delete_event u event_id db) = Api.success
   \/ Api.delete_event u event_id db = (Api.not_found, db))
  /\ filter (fun e => negb (Event.id e =? event_id)%Z)
            (events (snd (Api.delete_event u event_id db)))
     = filter (fun e => negb (Event.id e =? event_id)%Z) (events db)
  /\ conversations (snd (Api.delete_event u event_id db)) = conversations db
  /\ Api.delete_event u event_id (snd (Api.delete_event u event_id db))
     = (Api.not_found, snd (Api.delete_event u event_id db)).
Proof.
  destruct (Api.find_event u event_id db) as [e|] eqn:Hfind.
  - destruct (find_event_some u event_id db e Hfind) as (_ & Hid & _).
    assert (Hrun : Api.delete_event u event_id db
                   = (Api.success,
                      mkDatabase
                        (filter (fun x => negb (Event.id x =? event_id)%Z) (events db))
                        (conversations db)))
      by (unfold Api.delete_event; now rewrite Hfind, Hid).
    rewrite Hrun. cbn [fst snd events conversations].
    split; [now left|]. split.
    { apply filter_twice. }
    split; [reflexivity|].
    unfold Api.delete_event. rewrite find_event_none; [reflexivity|].
    unfold out_of_reach. cbn [events]. apply Forall_forall.
    intros x [_ Hx]%filter_In Hxid. rewrite Hxid, Z.eqb_refl in Hx. discriminate.
  - assert (Hrun : Api.delete_event u event_id db = (Api.not_found, db))
      by (unfold Api.delete_event; now rewrite Hfind).
    rewrite Hrun. cbn [fst snd]. split; [now right|]. split; [reflexivity|].
    split; [reflexivity | exact Hrun].
Qed.

Section UpdateEvent.

Import Api.

Lemma find_event_exists (u : User.t) (event_id : Z) (db : Database) :
  (exists e, In e (events db) /\ Event.id e = event_id
             /\ Event.user_id e = User.id u) ->
  exists e', find_event u event_id db = Some e'.
Proof.
  intros (e & Hin & Hid & Hu). unfold find_event.
  destruct (find _ (events db)) as [e'|] eqn:E; [now exists e'|].
  pose proof (find_none _ _ E e Hin) as H. cbn in H.
  now rewrite Hid, Hu, !Z.eqb_refl in H.
Qed.

Lemma map_changes_ids (ch : Changes) (key : Z) (evs : list Event.t) :
  map Event.id
      (map (fun e => if (Event.id e =? key)%Z then apply_changes ch e else e) evs)
  = map Event.id evs.
Proof.
  rewrite map_map. apply map_ext. intros e.
  now destruct (Event.id e =? key)%Z.
Qed.

Lemma map_changes_owners (ch : Changes) (key : Z) (evs : list Event.t) :
  map Event.user_id
      (map (fun e => if (Event.id e =? key)%Z then apply_changes ch e else e) evs)
  = map Event.user_id evs.
Proof.
  rewrite map_map. apply map_ext. intros e.
  now destruct (Event.id e =? key)%Z.
Qed.

Lemma map_changes_others (ch : Changes) (key : Z) (evs : list Event.t) :
  filter (fun e => negb (Event.id e =? key)%Z)
         (map (fun e => if (Event.id e =? key)%Z then apply_changes ch e else e) evs)
  = filter (fun e => negb (Event.id e =? key)%Z) evs.
Proof.
  induction evs as [|e rest IH]; [reflexivity|]. cbn [map filter].
  destruct (Event.id e =? key)%Z eqn:E.
  - cbn [apply_changes Event.id]. rewrite E. exact IH.
  - rewrite E. cbn [negb]. now rewrite IH.
Qed.

End UpdateEvent.

(** X13: whatever the body, [update_event] never changes which events
    exist, their ids or their owners, nor any event with another id, nor the
    conversations; and unless it answers 200 the database is as before. *)
Theorem update_event_keeps_identity (cal : Api.Calendar) (u : User.t)
    (event_id : Z) (data : json) (db : Database) :
  map Event.id (events (snd (Api.update_event cal u event_id data db)))
  = map Event.id (events db)
  /\ map Event.user_id (events (snd (Api.update_event cal u event_id data db)))
     = map Event.user_id (events db)
  /\ filter (fun e => negb (Event.id e =? event_id)%Z)
            (events (snd (Api.update_event cal u event_id data db)))
     = filter (fun e => negb (Event.id e =? event_id)%Z) (events db)
  /\ conversations (snd (Api.update_event cal u event_id data db))
     = conversations db
  /\ (status (fst (Api.update_event cal u event_id data db)) <> 200 ->
      snd (Api.update_event cal u event_id data db) = db).
Proof.
  unfold Api.update_event.
  destruct (Api.find_event u event_id db) as [e|] eqn:Hfind;
    [|cbn [fst snd]; now repeat split].
  destruct (find_event_some u event_id db e Hfind) as (_ & Hid & _).
  destruct (Api.changes cal e data) as [ch|]; [|cbn [fst snd]; now repeat split].
  cbn [fst snd events conversations Api.success_event status]. rewrite Hid.
  split; [apply map_changes_ids|]. split; [apply map_changes_owners|].
  split; [apply map_changes_others|]. split; [reflexivity|].
  intros H. now destruct H.
Qed.

(** X14: for an event the caller owns, [update_event] answers 500 and leaves
    the database alone when the body is not an object or when its [start] or
    its [end] is missing or is not a string. *)
Theorem update_event_rejects_malformed_body (cal : Api.Calendar) (u : User.t)
    (event_id : Z) (data : json) (db : Database) :
  (exists e, In e (events db) /\ Event.id e = event_id
             /\ Event.user_id e = User.id u) ->
  is_dict data = false
  \/ (exists d, data = JDict d
                /\ (not_a_string_at "start" d \/ not_a_string_at "end" d)) ->
  Api.update_event cal u event_id data db
  = (mkResponse (jsonify_error "Failed to update event") 500, db).
Proof.
  intros Hown Hbad. destruct (find_event_exists u event_id db Hown) as (e & Hfind).
  unfold Api.update_event. rewrite Hfind.
  enough (H : exists x, Api.changes cal e data = Raise x)
    by (destruct H as (x & ->); reflexivity).
  unfold Api.changes, Api.and_then, not_a_string_at in *.
  destruct Hbad as [Hnd | (d & -> & Hbad)].
  - destruct data; try discriminate; cbn; eauto.
  - cbn [Api.get Api.fromisoformat_value].
    destruct (dict_get "start" d) as [[]|]; cbn; eauto;
      try (destruct Hbad as [[] | Hbad]);
      destruct (Api.fromisoformat cal _); eauto;
      destruct (dict_get "end" d) as [[]|]; cbn; eauto; now destruct Hbad.
Qed.

Lemma update_event_rejects_malformed_body_witness :
  Api.update_event Office.calendar Demo.alice 1
    (JDict [("title", JStr "Daily"); ("end", JStr "2025-07-31T15:00:00")])
    Office.db
  = (mkResponse (jsonify_error "Failed to update event") 500, Office.db).
Proof.
  apply (update_event_rejects_malformed_body Office.calendar Demo.alice 1).
  - exists Office.standup. repeat split. now left.
  - right. eexists. split; [reflexivity|]. left. exact I.
Defined.

(* ================================================================== *)
(** ** The time zone setting *)
(* ================================================================== *)

(** X15: [update_user_timezone] answers 400 and leaves the user alone when
    the body has no [timezone] or has one that counts as false (null, the
    empty string, zero, [false], an empty list or object); a body that is
    not an object gives 500, the user again as before. *)
Theorem update_user_timezone_requires_value (cal : Api.Calendar) (data : json)
    (u : User.t) :
  (is_dict data = false ->
   Api.update_user_timezone cal data u
   = (mkResponse (jsonify_error "Failed to update timezone") 500, u))
  /\ forall d,
       data = JDict d ->
       match dict_get "timezone" d with
       | Some v => truthy v = false
       | None => True
       end ->
       Api.update_user_timezone cal data u
       = (mkResponse (jsonify_error "Timezone is required") 400, u).
Proof.
  split.
  - destruct data; try discriminate; reflexivity.
  - intros d -> H. unfold Api.update_user_timezone. cbn [Api.get].
    destruct (dict_get "timezone" d) as [v|]; [|reflexivity]. now rewrite H.
Qed.

Lemma update_user_timezone_requires_value_witness :
  Api.update_user_timezone Office.calendar (JDict [("timezone", JStr "")]) Demo.alice
  = (mkResponse (jsonify_error "Timezone is required") 400, Demo.alice)
  /\ Api.update_user_timezone Office.calendar (JDict [("zone", JStr "UTC")]) Demo.alice
     = (mkResponse (jsonify_error "Timezone is required") 400, Demo.alice).
Proof.
  split.
  - apply (proj2 (update_user_timezone_requires_value Office.calendar
                    (JDict [("timezone", JStr "")]) Demo.alice)
             [("timezone", JStr "")] eq_refl).
    reflexivity.
  - apply (proj2 (update_user_timezone_requires_value Office.calendar
                    (JDict [("zone", JStr "UTC")]) Demo.alice)
             [("zone", JStr "UTC")] eq_refl).
    exact I.
Defined.

(** X16: [update_user_timezone] stores any non-empty string the column takes,
    without asking whether it names a time zone; if it does not, every later
    [/ai] request of that user with a non-empty input stores the user's turn
    and is answered 500, with no provider call and no assistant turn. *)
Theorem unknown_timezone_breaks_ai (cal : Api.Calendar) (env : Env)
    (d : dict) (zone : string) (u : User.t) :
  dict_get "timezone" d = Some (JStr zone) ->
  zone <> "" ->
  Api.bind_string cal 50 (JStr zone) = Return zone ->
  known_timezone env zone = false ->
  exists u',
    Api.update_user_timezone cal (JDict d) u = (Api.success, u')
    /\ User.timezone u' = Some zone
    /\ User.id u' = User.id u
    /\ forall req db user_input,
         Request.current_user req = u' ->
         Request.input req = Some user_input -> user_input <> "" ->
         ai env req db
         = (Return server_error,
            insert_conversation db (user_turn req db user_input),
            [Commit (user_turn req db user_input)]).
Proof.
  intros Hget Hne Hbind Hunknown.
  exists (User.mk (User.id u) (User.username u) (Some zone)).
  split; [|split; [reflexivity | split; [reflexivity|]]].
  - unfold Api.update_user_timezone. cbn [Api.get]. rewrite Hget.
    cbn [truthy]. apply String.eqb_neq in Hne. rewrite Hne. cbn [negb].
    now rewrite Hbind.
  - intros req db user_input Hu Hin Hinput.
    apply ai_unknown_timezone; [exact Hin | exact Hinput|].
    unfold timezone_known, timezone_or_utc. rewrite Hu. cbn [User.timezone].
    apply String.eqb_neq in Hne. now rewrite Hne.
Qed.

Lemma unknown_timezone_breaks_ai_witness :
  exists u',
    Api.update_user_timezone Office.calendar
      (JDict [("timezone", JStr "Mars/Olympus")]) Demo.alice
    = (Api.success, u')
    /\ ai (Demo.openai_env (Return "[]"))
          (Request.mk (Some "hello") u' 1000%Z 1001%Z 1002%Z 1003%Z) Demo.empty_db
       = (Return server_error,
          mkDatabase [] [Conversation.mk 1%Z 1%Z "user" "hello" 1000%Z],
          [Commit (Conversation.mk 1%Z 1%Z "user" "hello" 1000%Z)]).
Proof.
  destruct (unknown_timezone_breaks_ai Office.calendar (Demo.openai_env (Return "[]"))
              [("timezone", JStr "Mars/Olympus")] "Mars/Olympus" Demo.alice
              eq_refl ltac:(discriminate) eq_refl eq_refl)
    as (u' & Hset & _ & Hid & Hai).
  exists u'. split; [exact Hset|].
  rewrite (Hai (Request.mk (Some "hello") u' 1000%Z 1001%Z 1002%Z 1003%Z) Demo.empty_db
             "hello" eq_refl eq_refl ltac:(discriminate)).
  unfold user_turn, new_conversation, insert_conversation.
  cbn [Request.current_user Request.utcnow_user_turn]. rewrite Hid. reflexivity.
Defined.

(* ================================================================== *)
(** ** More on the runs of [ai] *)
(* ================================================================== *)

Section MoreRuns.

Variable env : Env.

Lemma input_cases (req : Request.t) :
  (Request.input req = None \/ Request.input req = Some "")
  \/ exists u, Request.input req = Some u /\ u <> "".
Proof.
  destruct (Request.input req) as [u|]; [|now left; left].
  destruct (String.eqb_spec u "") as [->|Hne]; [now left; right|].
  right. now exists u.
Qed.

Lemma commits_provider_step (tr : list effect) (row : Conversation.t) :
  tr = [] \/ (exists ev, tr = [ev] /\ is_provider_call ev = true) ->
  commits (tr ++ [Commit row]) = [row].
Proof.
  intros [-> | (ev & -> & Hev)]; [reflexivity|].
  destruct ev; [discriminate | reflexivity | reflexivity].
Qed.

Lemma response_parser_no_open (text : string) :
  has_char "[" text = false -> response_parser text = Return [MESSAGE text].
Proof.
  intros H. unfold response_parser, parse_commands.
  now rewrite (search_array_None text (not_bracketed_without_open text H)).
Qed.

Lemma respond_no_open (text : string) :
  has_char "[" text = false ->
  respond text = mkResponse (jsonify_commands [MESSAGE text]) 200.
Proof. intros H. unfold respond. now rewrite (response_parser_no_open text H). Qed.

Lemma chronological_snoc (log : list Conversation.t) (x : Conversation.t) :
  chronological log = true ->
  Forall (fun c => (Conversation.timestamp c < Conversation.timestamp x)%Z) log ->
  chronological (log ++ [x]) = true.
Proof.
  induction log as [|a rest IH]; [reflexivity|]. intros Hc Hf.
  apply Forall_cons_iff in Hf as [Ha Hrest].
  pose proof (chronological_tail _ _ Hc) as Hc'.
  change ((a :: rest) ++ [x])%list with (a :: (rest ++ [x]))%list.
  cbn [chronological]. rewrite (IH Hc' Hrest), andb_true_r.
  destruct rest as [|b rest'].
  - cbn. now apply Z.ltb_lt.
  - cbn in Hc |- *. now apply andb_prop in Hc as [-> _].
Qed.

Lemma user_log_with_user_turn (req : Request.t) (db : Database) (user_input : string) :
  user_log (with_user_turn req db user_input) (User.id (Request.current_user req))
  = (user_log db (User.id (Request.current_user req))
     ++ [user_turn req db user_input])%list.
Proof.
  unfold user_log, with_user_turn, insert_conversation. cbn [conversations].
  rewrite filter_app. cbn. now rewrite Z.eqb_refl.
Qed.

(** With a clock that moves on, the history read back ends with the turn
    just stored. *)
Lemma recent_conversations_with_user_turn (req : Request.t) (db : Database)
    (user_input : string) :
  chronological (user_log db (User.id (Request.current_user req))) = true ->
  Forall (fun c => (Conversation.timestamp c < Request.utcnow_user_turn req)%Z)
         (user_log db (User.id (Request.current_user req))) ->
  exists older,
    recent_conversations (with_user_turn req db user_input)
      (User.id (Request.current_user req))
    = (older ++ [user_turn req db user_input])%list.
Proof.
  intros Hc Hf.
  rewrite recent_conversations_chronological;
    rewrite user_log_with_user_turn; [|now apply chronological_snoc].
  rewrite length_app. cbn [List.length].
  rewrite skipn_app.
  replace (List.length (user_log db (User.id (Request.current_user req))) + 1 - 5
           - List.length (user_log db (User.id (Request.current_user req))))
    with 0 by lia.
  eexists. reflexivity.
Qed.

Lemma history_lines_app (l1 l2 : list Message.t) :
  history_lines (l1 ++ l2) = history_lines l1 ++ history_lines l2.
Proof.
  induction l1 as [|m rest IH]; [reflexivity|]. cbn [app history_lines].
  now rewrite IH, append_assoc.
Qed.

Lemma In_firstn {A : Type} (n : nat) (l : list A) (x : A) :
  In x (firstn n l) -> In x l.
Proof.
  intros H. rewrite <- (firstn_skipn n l). apply in_or_app. now left.
Qed.

End MoreRuns.

(** X17: a run of [ai] writes nothing but turns of the requesting user: the
    events are as before, the conversations are those of before followed by
    the rows committed in the run, at most two, each with the user's id. *)
Theorem ai_only_appends_own_turns (env : Env) (req : Request.t) (db : Database) :
  events (snd (fst (ai env req db))) = events db
  /\ conversations (snd (fst (ai env req db)))
     = (conversations db ++ commits (snd (ai env req db)))%list
  /\ List.length (commits (snd (ai env req db))) <= 2
  /\ Forall (fun c => Conversation.user_id c = User.id (Request.current_user req))
            (commits (snd (ai env req db))).
Proof.
  destruct (input_cases req) as [Hempty | (u & Hin & Hne)].
  - rewrite (ai_rejects env req db Hempty). cbn. rewrite app_nil_r.
    repeat split; [lia | constructor].
  - destruct (timezone_known env req) eqn:Htz.
    + destruct (call_provider_returns env
                  (build_messages env req (insert_conversation db (user_turn req db u)))
                  u (insert_conversation db (user_turn req db u)))
        as (msg & tr & Hcall & Htr).
      rewrite (ai_run env req db u msg tr Hin Hne Htz Hcall).
      cbn [fst snd commits]. rewrite (commits_provider_step tr _ Htr).
      cbn [insert_conversation events conversations List.length].
      rewrite <- app_assoc. repeat split; [lia|]. now repeat constructor.
    + rewrite (ai_unknown_timezone env req db u Hin Hne Htz).
      cbn [fst snd commits insert_conversation events conversations List.length].
      repeat split; [lia|]. now repeat constructor.
Qed.

(** X18: when the call to the active provider raises an exception whose text
    holds no opening bracket, a run that reaches the provider step stores
    the provider's apology with that text as the assistant's turn and answers
    200 with it as a single MESSAGE command. *)
Theorem provider_failure_becomes_message (env : Env) (req : Request.t)
    (db : Database) (user_input api_key apology : string) (e : exn) :
  let asked :=
    Conversation.mk (Z.of_nat (List.length (conversations db)) + 1)
      (User.id (Request.current_user req)) "user" user_input
      (Request.utcnow_user_turn req) in
  let answered :=
    Conversation.mk (Z.of_nat (List.length (conversations db)) + 2)
      (User.id (Request.current_user req)) "assistant" apology
      (Request.utcnow_assistant_turn req) in
  let messages :=
    build_messages env req
      (mkDatabase (events db) (conversations db ++ [asked])%list) in
  Request.input req = Some user_input -> user_input <> "" ->
  known_timezone env (timezone_or_utc (Request.current_user req)) = true ->
  has_char "[" (str e) = false ->
  (AI_PROVIDER env = "openai"
   /\ getenv env "OPENAI_API_KEY" = Some api_key
   /\ api_key <> "" /\ api_key <> "your-openai-api-key-here"
   /\ openai_chat_completions env api_key messages = Raise e
   /\ apology
      = "I'm sorry, but there was an error with the OpenAI service: " ++ str e)
  \/ (AI_PROVIDER env = "cohere"
      /\ getenv env "COHERE_API_KEY" = Some api_key
      /\ api_key <> "" /\ api_key <> "your-cohere-api-key-here"
      /\ cohere_generate env api_key (full_prompt messages user_input) = Raise e
      /\ apology
         = "I'm sorry, but there was an error with the Cohere service: " ++ str e) ->
  fst (fst (ai env req db))
  = Return (mkResponse
              (JDict [("commands",
                       JList [JDict [("command", JStr "MESSAGE");
                                     ("text", JStr apology)]])])
              200)
  /\ conversations (snd (fst (ai env req db)))
     = (conversations db ++ [asked; answered])%list.
Proof.
  intros asked answered messages Hin Hne Htz Hopen Hfail.
  assert (Hmessages : build_messages env req
                        (insert_conversation db (user_turn req db user_input))
                      = messages)
    by (subst messages asked; spell_out_rows).
  assert (Hcall : exists tr,
             call_provider env
               (build_messages env req
                  (insert_conversation db (user_turn req db user_input)))
               user_input (insert_conversation db (user_turn req db user_input))
             = (Return apology,
                insert_conversation db (user_turn req db user_input), tr)).
  { rewrite Hmessages. unfold call_provider.
    destruct Hfail as [(Hp & Hk & H1 & H2 & He & Ha) | (Hp & Hk & H1 & H2 & He & Ha)];
      rewrite Hp, Hk.
    - rewrite (key_present api_key openai_placeholder H1 H2).
      change (String.eqb "openai" "openai") with true. cbv iota.
      unfold try_except, bind, openai_call. rewrite He, Ha. eexists. reflexivity.
    - rewrite (key_present api_key cohere_placeholder H1 H2).
      change (String.eqb "cohere" "openai") with false.
      change (String.eqb "cohere" "cohere") with true. cbv iota.
      unfold try_except, bind, cohere_call. rewrite He, Ha. eexists. reflexivity. }
  destruct Hcall as (tr & Hcall).
  rewrite (ai_run env req db user_input apology tr Hin Hne Htz Hcall).
  cbn [fst snd]. split.
  - f_equal. apply respond_no_open.
    destruct Hfail as [(_ & _ & _ & _ & _ & ->) | (_ & _ & _ & _ & _ & ->)];
      rewrite has_char_app, Hopen; reflexivity.
  - subst asked answered. spell_out_rows.
Qed.

Lemma provider_failure_becomes_message_witness :
  (fst (fst (ai (Demo.openai_env Demo.unreachable) (Demo.request (Some "hello"))
               Demo.empty_db))
   = Return (mkResponse
               (JDict [("commands",
                        JList [JDict [("command", JStr "MESSAGE");
                                      ("text", JStr "I'm sorry, but there was an error with the OpenAI service: Connection refused")]])])
               200)
   /\ conversations
        (snd (fst (ai (Demo.openai_env Demo.unreachable)
                      (Demo.request (Some "hello")) Demo.empty_db)))
      = [ Conversation.mk 1%Z 1%Z "user" "hello" 1000%Z;
          Conversation.mk 2%Z 1%Z "assistant" "I'm sorry, but there was an error with the OpenAI service: Connection refused" 1003%Z ])
  /\ (fst (fst (ai (Demo.cohere_env Demo.unreachable) (Demo.request (Some "hello"))
                  Demo.empty_db))
      = Return (mkResponse
                  (JDict [("commands",
                           JList [JDict [("command", JStr "MESSAGE");
                                         ("text", JStr "I'm sorry, but there was an error with the Cohere service: Connection refused")]])])
                  200)
      /\ conversations
           (snd (fst (ai (Demo.cohere_env Demo.unreachable)
                         (Demo.request (Some "hello")) Demo.empty_db)))
         = [ Conversation.mk 1%Z 1%Z "user" "hello" 1000%Z;
             Conversation.mk 2%Z 1%Z "assistant" "I'm sorry, but there was an error with the Cohere service: Connection refused" 1003%Z ]).
Proof.
  split.
  - apply (provider_failure_becomes_message (Demo.openai_env Demo.unreachable)
             (Demo.request (Some "hello")) Demo.empty_db "hello" "sk-demo"
             "I'm sorry, but there was an error with the OpenAI service: Connection refused"
             (Exception "ConnectionError" "Connection refused")
             eq_refl ltac:(discriminate) eq_refl eq_refl).
    left. repeat split; (reflexivity || discriminate).
  - apply (provider_failure_becomes_message (Demo.cohere_env Demo.unreachable)
             (Demo.request (Some "hello")) Demo.empty_db "hello" "co-demo"
             "I'm sorry, but there was an error with the Cohere service: Connection refused"
             (Exception "ConnectionError" "Connection refused")
             eq_refl ltac:(discriminate) eq_refl eq_refl).
    right. repeat split; (reflexivity || discriminate).
Defined.



(** X20: when the user's log is in time order and the clock has moved on
    since its last row, the prompt built after storing the user's turn ends
    with that turn: the last message is the current input, with role
    [user]. *)
Theorem prompt_ends_with_current_input (env : Env) (req : Request.t)
    (db : Database) (user_input : string) :
  chronological (user_log db (User.id (Request.current_user req))) = true ->
  Forall (fun c => (Conversation.timestamp c < Request.utcnow_user_turn req)%Z)
         (user_log db (User.id (Request.current_user req))) ->
  exists front,
    build_messages env req (with_user_turn req db user_input)
    = (front ++ [Message.mk "user" user_input])%list.
Proof.
  intros Hc Hf.
  destruct (recent_conversations_with_user_turn req db user_input Hc Hf)
    as (older & Hrecent).
  unfold build_messages. rewrite Hrecent, map_app. cbn [map].
  exists ([Message.mk "system" get_ai_prompt]
          ++ [Message.mk "user"
                (context_message env req (with_user_turn req db user_input))]
          ++ map message_of older)%list.
  now rewrite <- !app_assoc.
Qed.

Lemma prompt_ends_with_current_input_witness :
  exists front,
    build_messages (Demo.openai_env (Return "[]")) (Demo.request (Some "seven"))
      (with_user_turn (Demo.request (Some "seven")) Demo.busy_db "seven")
    = (front ++ [Message.mk "user" "seven"])%list.
Proof.
  apply (prompt_ends_with_current_input (Demo.openai_env (Return "[]"))
           (Demo.request (Some "seven")) Demo.busy_db "seven" eq_refl).
  repeat constructor.
Defined.

(** X21: under the same conditions the single prompt sent to Cohere carries
    the current input twice: as the last line of the history and again as
    the closing [User:] line before the final instruction. *)
Theorem cohere_prompt_repeats_input (env : Env) (req : Request.t)
    (db : Database) (user_input : string) :
  chronological (user_log db (User.id (Request.current_user req))) = true ->
  Forall (fun c => (Conversation.timestamp c < Request.utcnow_user_turn req)%Z)
         (user_log db (User.id (Request.current_user req))) ->
  exists head,
    full_prompt (build_messages env req (with_user_turn req db user_input)) user_input
    = head ++ "User: " ++ user_input ++ nl
           ++ "User: " ++ user_input ++ nl
           ++ "Assistant: Respond with ONLY valid JSON array. For scheduling requests, ALWAYS include an ADD command.".
Proof.
  intros Hc Hf.
  destruct (recent_conversations_with_user_turn req db user_input Hc Hf)
    as (older & Hrecent).
  unfold full_prompt, build_messages. rewrite Hrecent, map_app.
  cbn [app tl map]. 
  change (Message.mk "user" (context_message env req (with_user_turn req db user_input))
          :: (map message_of older ++ [message_of (user_turn req db user_input)]))%list
    with ((Message.mk "user" (context_message env req (with_user_turn req db user_input))
           :: map message_of older)
          ++ [message_of (user_turn req db user_input)])%list.
  rewrite history_lines_app.
  exists (get_ai_prompt ++ nl ++ nl
          ++ history_lines
               (Message.mk "user" (context_message env req (with_user_turn req db user_input))
                :: map message_of older)).
  cbn [history_lines message_of user_turn new_conversation Conversation.role
       Conversation.content Message.role Message.content].
  change (String.eqb "user" "user") with true. cbv iota.
  rewrite !append_assoc. reflexivity.
Qed.

Lemma cohere_prompt_repeats_input_witness :
  exists head,
    full_prompt
      (build_messages Demo.placeholder_env (Demo.request (Some "seven"))
         (with_user_turn (Demo.request (Some "seven")) Demo.busy_db "seven"))
      "seven"
    = head ++ "User: " ++ "seven" ++ nl
           ++ "User: " ++ "seven" ++ nl
           ++ "Assistant: Respond with ONLY valid JSON array. For scheduling requests, ALWAYS include an ADD command.".
Proof.
  apply (cohere_prompt_repeats_input Demo.placeholder_env
           (Demo.request (Some "seven")) Demo.busy_db "seven" eq_refl).
  repeat constructor.
Defined.

(** X22: what goes into the prompt is the user's own: the history holds at
    most five turns, all of the user; the events of the context are at most
    ten, all of the user, none starting more than seven days before [now],
    latest first. *)
Theorem prompt_context_is_own (db : Database) (uid : Z) (now : datetime) :
  Forall (fun c => In c (conversations db) /\ Conversation.user_id c = uid)
         (recent_conversations db uid)
  /\ List.length (recent_conversations db uid) <= 5
  /\ Forall (fun e => In e (events db) /\ Event.user_id e = uid
                      /\ (now - timedelta_days 7 <= Event.start_time e)%Z)
            (user_events db uid now)
  /\ List.length (user_events db uid now) <= 10
  /\ descending Event.start_time (user_events db uid now).
Proof.
  split; [|split; [|split; [|split]]].
  - apply Forall_forall. intros c Hc. unfold recent_conversations in Hc.
    apply in_rev, In_firstn in Hc.
    apply (Permutation_in _ (order_by_desc_perm Conversation.timestamp _)) in Hc.
    unfold user_log in Hc. apply filter_In in Hc as [Hin Hu].
    now apply Z.eqb_eq in Hu.
  - unfold recent_conversations. rewrite length_rev. apply firstn_le_length.
  - apply Forall_forall. intros e He. unfold user_events in He.
    apply In_firstn in He.
    apply (Permutation_in _ (order_by_desc_perm Event.start_time _)) in He.
    apply filter_In in He as [He Hw]. apply filter_In in He as [Hin Hu].
    apply Z.eqb_eq in Hu. apply Z.leb_le in Hw. now repeat split.
  - apply firstn_le_length.
  - unfold user_events.
    pose proof (order_by_desc_descending Event.start_time
                  (filter (fun e => (now - timedelta_days 7 <=? Event.start_time e)%Z)
                     (filter (fun e => (Event.user_id e =? uid)%Z) (events db))))
      as Hd.
    rewrite <- (firstn_skipn 10) in Hd.
    exact (StronglySorted_app_l _ _ _ Hd).
Qed.

(* ================================================================== *)
(** ** More on the date repair of [ai] *)
(* ================================================================== *)

Section MoreDateRepair.

Lemma spaces_to_T_app (a b : string) :
  spaces_to_T (a ++ b) = spaces_to_T a ++ spaces_to_T b.
Proof. induction a as [|c r IH]; cbn; [reflexivity | now rewrite IH]. Qed.

Lemma is_sep_to_T (c : ascii) :
  is_sep c = true -> (if Ascii.eqb c " " then "T"%char else c) = "T"%char.
Proof.
  unfold is_sep. destruct (Ascii.eqb c " "); [reflexivity|]. cbn.
  now intros ->%Ascii.eqb_eq.
Qed.

Lemma no_sep_head (c : ascii) (r : string) :
  no_sep (String c r) = true -> Ascii.eqb c "T" = false.
Proof.
  cbn. unfold is_sep. intros [H _]%andb_prop.
  now apply negb_true_iff, orb_false_elim in H as [_ H].
Qed.

Lemma no_sep_no_TT (s : string) : no_sep s = true -> no_TT s = true.
Proof.
  induction s as [|c r IH]; [reflexivity|]. intros H.
  pose proof (no_sep_head c r H) as Hc. cbn in H. apply andb_prop in H as [_ Hr].
  cbn [no_TT]. now rewrite Hc, IH.
Qed.

(** The second pass goes over a stretch without separators untouched. *)
Lemma collapse_TT_after (d x : string) :
  no_sep d = true -> collapse_TT (d ++ x) = d ++ collapse_TT x.
Proof.
  induction d as [|c r IH]; [reflexivity|]. intros H.
  pose proof (no_sep_head c r H) as Hc. cbn in H. apply andb_prop in H as [_ Hr].
  cbn [append]. destruct (r ++ x) as [|e t] eqn:E.
  - now rewrite <- (IH Hr).
  - rewrite collapse_TT_cons2, Hc. cbn [andb]. now rewrite <- (IH Hr).
Qed.

Lemma collapse_TT_one (t : string) :
  no_sep t = true -> collapse_TT ("T" ++ t) = "T" ++ t.
Proof.
  intros H. destruct t as [|e r]; [reflexivity|]. cbn [append].
  rewrite collapse_TT_cons2, (no_sep_head e r H), andb_false_r.
  now rewrite (collapse_TT_id _ (no_sep_no_TT _ H)).
Qed.

Lemma collapse_TT_two (t : string) :
  no_sep t = true -> collapse_TT ("TT" ++ t) = "T" ++ t.
Proof.
  intros H. cbn [append]. rewrite collapse_TT_cons2. cbn.
  now rewrite (collapse_TT_id _ (no_sep_no_TT _ H)).
Qed.

End MoreDateRepair.

(** X23: between a part and a part that hold neither a space nor a [T], the
    date repair of [ai] turns one or two characters that are spaces or [T]
    into a single [T] and leaves both parts as they are. *)
Theorem fix_date_repairs_separator (date gap time : string) :
  no_sep date = true -> no_sep time = true ->
  all_sep gap = true ->
  1 <= String.length gap <= 2 ->
  fix_date (date ++ gap ++ time) = date ++ "T" ++ time.
Proof.
  intros Hd Ht Hg Hlen. rewrite fix_date_spec, !spaces_to_T_app.
  rewrite (spaces_to_T_id date) by now apply no_sep_no_space.
  rewrite (spaces_to_T_id time) by now apply no_sep_no_space.
  rewrite (collapse_TT_after _ _ Hd). f_equal.
  destruct gap as [|a [|b [|c r]]]; cbn in Hlen; try lia.
  - cbn in Hg. apply andb_prop in Hg as [Ha _].
    cbn [spaces_to_T]. rewrite (is_sep_to_T a Ha). now apply collapse_TT_one.
  - cbn in Hg. apply andb_prop in Hg as [Ha [Hb _]%andb_prop].
    cbn [spaces_to_T]. rewrite (is_sep_to_T a Ha), (is_sep_to_T b Hb).
    now apply collapse_TT_two.
Qed.

Lemma fix_date_repairs_separator_witness :
  fix_date ("2025-07-30" ++ " " ++ "10:00:00") = "2025-07-30" ++ "T" ++ "10:00:00"
  /\ fix_date ("2025-07-30" ++ "TT" ++ "10:00:00") = "2025-07-30" ++ "T" ++ "10:00:00"
  /\ fix_date ("2025-07-30" ++ "T " ++ "10:00:00") = "2025-07-30" ++ "T" ++ "10:00:00".
Proof.
  split; [|split].
  - apply (fix_date_repairs_separator "2025-07-30" " " "10:00:00");
      try reflexivity. cbn. lia.
  - apply (fix_date_repairs_separator "2025-07-30" "TT" "10:00:00");
      try reflexivity. cbn. lia.
  - apply (fix_date_repairs_separator "2025-07-30" "T " "10:00:00");
      try reflexivity. cbn. lia.
Defined.

(** X24: the date repair of [ai] leaves a string as it is exactly when the
    string holds no space and no doubled [T]. *)
Theorem fix_date_fixpoints (s : string) :
  fix_date s = s <-> no_space s = true /\ no_TT s = true.
Proof.
  rewrite fix_date_spec. split.
  - intros H.
    assert (Hs : no_space s = true).
    { rewrite <- H. apply no_space_collapse_TT, no_space_spaces_to_T. }
    split; [exact Hs|]. rewrite (spaces_to_T_id s Hs) in H.
    destruct (no_TT s) eqn:E; [reflexivity|].
    apply collapse_TT_shrinks in E. rewrite H in E. lia.
  - intros [Hs Ht]. rewrite (spaces_to_T_id s Hs). now apply collapse_TT_id.
Qed.

(* ================================================================== *)
(** ** The routes as decorated *)
(* ================================================================== *)

Section Routes.

Import Api.

Lemma rate_limit_effect_free {S : Type} (max_requests window : Z)
    (f : S -> Response * S) (who : RateLimit.caller) (now : Z)
    (c : RateLimit.counts) (s : S) :
  (forall s0, status (fst (f s0)) <> 200 -> snd (f s0) = s0) ->
  status (fst (RateLimit.rate_limit max_requests window f who now (c, s))) <> 200 ->
  snd (snd (RateLimit.rate_limit max_requests window f who now (c, s))) = s.
Proof.
  intros Hf. rewrite rate_limit_verdict.
  destruct (fst (verdict max_requests window who now c)); cbn [fst snd];
    [apply Hf | reflexivity].
Qed.

Lemma create_event_effect_free (cal : Calendar) (u : User.t) (data : json)
    (db : Database) :
  status (fst (create_event cal u data db)) <> 200 ->
  snd (create_event cal u data db) = db.
Proof.
  unfold create_event. destruct (new_event cal u data db); cbn; [|reflexivity].
  intros H. now destruct H.
Qed.

Lemma delete_event_effect_free (u : User.t) (event_id : Z) (db : Database) :
  status (fst (delete_event u event_id db)) <> 200 ->
  snd (delete_event u event_id db) = db.
Proof.
  unfold delete_event. destruct (find_event u event_id db); cbn; [|reflexivity].
  intros H. now destruct H.
Qed.

Lemma update_event_effect_free (cal : Calendar) (u : User.t) (event_id : Z)
    (data : json) (db : Database) :
  status (fst (update_event cal u event_id data db)) <> 200 ->
  snd (update_event cal u event_id data db) = db.
Proof.
  unfold update_event. destruct (find_event u event_id db) as [e|]; [|reflexivity].
  destruct (changes cal e data); cbn; [|reflexivity].
  intros H. now destruct H.
Qed.

Lemma update_user_timezone_effect_free (cal : Calendar) (data : json) (u : User.t) :
  status (fst (update_user_timezone cal data u)) <> 200 ->
  snd (update_user_timezone cal data u) = u.
Proof.
  unfold update_user_timezone. destruct (get data "timezone") as [[v|]|]; try reflexivity.
  destruct (negb (truthy v)); [reflexivity|].
  destruct (bind_string cal 50 v); cbn; [|reflexivity].
  intros H. now destruct H.
Qed.

End Routes.

(** X25: the decorated routes change what they manage only when they answer
    200: after any other answer, be it the limiter's 429 or an error of the
    view, the events and conversations, respectively the user's row, are as
    before. *)
Theorem routes_change_state_only_on_success (cal : Api.Calendar) (u : User.t)
    (event_id : Z) (data : json) (now : Z) (request_counts : RateLimit.counts)
    (db : Database) :
  (status (fst (Api.create_event_route cal u data now (request_counts, db))) <> 200 ->
   snd (snd (Api.create_event_route cal u data now (request_counts, db))) = db)
  /\ (status (fst (Api.delete_event_route u event_id now (request_counts, db))) <> 200 ->
      snd (snd (Api.delete_event_route u event_id now (request_counts, db))) = db)
  /\ (status (fst (Api.update_event_route cal u event_id data now (request_counts, db)))
      <> 200 ->
      snd (snd (Api.update_event_route cal u event_id data now (request_counts, db)))
      = db)
  /\ (status (fst (Api.update_user_timezone_route cal data now (request_counts, u)))
      <> 200 ->
      snd (snd (Api.update_user_timezone_route cal data now (request_counts, u))) = u).
Proof.
  unfold Api.create_event_route, Api.delete_event_route, Api.update_event_route,
    Api.update_user_timezone_route. cbn [snd].
  repeat split; apply rate_limit_effect_free; intros s0.
  - apply create_event_effect_free.
  - apply delete_event_effect_free.
  - apply update_event_effect_free.
  - apply update_user_timezone_effect_free.
Qed.

Lemma routes_change_state_only_on_success_witness :
  status (fst (Api.update_event_route Office.calendar Office.bob 1 Office.meeting
                 30000000 ([], Office.db))) = 404
  /\ snd (snd (Api.update_event_route Office.calendar Office.bob 1 Office.meeting
                  30000000 ([], Office.db))) = Office.db.
Proof.
  split; [reflexivity|].
  apply (proj1 (proj2 (proj2 (routes_change_state_only_on_success Office.calendar
                                Office.bob 1 Office.meeting 30000000 [] Office.db)))).
  discriminate.
Defined.
